(** * Talenthub (eddylms): quiz grading, enrollment progress, auto-enrollment
      rules, attempt limits and impersonation, embedded from the Python
      sources under [core/]. *)

From Stdlib Require Import ZArith QArith Qreduction Bool List Lia.
From stdpp Require Import base option list strings gmap.

Local Open Scope Z_scope.

(** ** Python numbers

    Python [int] is [Z].  A Python [float] is an IEEE binary64 number; it is
    represented here by the exact rational it denotes, kept in lowest terms
    so that Leibniz equality is equality of values.  Rounding is to 53
    significant bits, ties to even.  The exponent range of binary64 is not
    represented: a quotient below 2^-1022 or at least 2^1024 would need a sum
    of PositiveSmallIntegerField values over more rows than a database holds. *)
Module Float.

Definition float := Q.

(** Nearest integer to [n / d] for [0 < d], ties to the even neighbour. *)
Definition rne (n d : Z) : Z :=
  let q := n / d in
  let r := n mod d in
  match 2 * r ?= d with
  | Lt => q
  | Gt => q + 1
  | Eq => if Z.even q then q else q + 1
  end.

(** The rational [m * 2^e], reduced. *)
Definition scale2 (m e : Z) : Q :=
  Qred (if 0 <=? e then inject_Z (m * 2 ^ e) else Qmake m (Z.to_pos (2 ^ (- e)))).

(** floor (log2 (n / d)) for [0 < n] and [0 < d]. *)
Definition floor_log2_ratio (n d : Z) : Z :=
  let k := Z.log2 n - Z.log2 d in
  let below :=
    if 0 <=? k then n <? d * 2 ^ k else n * 2 ^ (- k) <? d in
  if below then k - 1 else k.

(** The binary64 number nearest to [n / d], for [0 < n] and [0 < d]. *)
Definition nearest_pos (n d : Z) : Q :=
  let e := floor_log2_ratio n d - 52 in
  let m := if 0 <=? e then rne n (d * 2 ^ e) else rne (n * 2 ^ (- e)) d in
  scale2 m e.

(** The binary64 number nearest to [n / d], for [d <> 0]. *)
Definition nearest (n d : Z) : float :=
  let s := Z.sgn n * Z.sgn d in
  if s =? 0 then 0%Q
  else if 0 <? s then nearest_pos (Z.abs n) (Z.abs d)
  else Qred (Qopp (nearest_pos (Z.abs n) (Z.abs d))).

(** [a / b] on two ints: the correctly rounded quotient, ZeroDivisionError
    ([None]) when [b] is zero. *)
Definition truediv (a b : Z) : option float :=
  if b =? 0 then None else Some (nearest a b).

(** [round(x)]: the nearest int, ties to even. *)
Definition round (x : float) : Z := rne (Qnum x) (Zpos (Qden x)).

(** [round(x, 2)]: the decimal with two places nearest to the exact value
    of [x] (ties to even), read back as a float. *)
Definition round2 (x : float) : float :=
  nearest (rne (100 * Qnum x) (Zpos (Qden x))) 100.

(** [x >= k] for a float and an int, compared exactly. *)
Definition ge_int (x : float) (k : Z) : bool := Qle_bool (inject_Z k) x.

Definition of_int (k : Z) : float := inject_Z k.

End Float.

(** ** Data model ([core/models.py]) *)

(** Primary keys are allocated from 1. *)
Definition pk := positive.
Bind Scope positive_scope with pk.

(** An aware datetime, in microseconds since the epoch (UTC), and a calendar
    date as a day number.  [settings.py] has [USE_TZ = True] and
    [TIME_ZONE = 'UTC'], so [timezone.now().date()] is the UTC day. *)
Definition datetime := Z.
Definition date := Z.
Definition date_of (t : datetime) : date := t / 86400000000.
(** [date.max], 9999-12-31, as a day number. *)
Definition date_max : date := 2932896.
(** [d + timedelta(days=n)] for a date [d].  It raises OverflowError
    ([None]) when [n] is more than the 999999999 days a timedelta holds or
    the sum lies after [date.max]. *)
Definition add_days (d : date) (n : N) : option date :=
  if (999999999 <? Z.of_N n) || (date_max <? d + Z.of_N n) then None
  else Some (d + Z.of_N n).

(** SQLite stores an integer in 64 bits: binding a larger Python int raises
    OverflowError. *)
Definition sqlite_max_int : Z := 2 ^ 63 - 1.

Inductive Role := ROLE_ADMIN | ROLE_MANAGER | ROLE_LEARNER.

Record Profile := {
  department : option pk;
  role : Role;
}.

Record User := {
  user_id : pk;
  is_superuser : bool;
  profile : option Profile;
}.

Module Status.
Inductive t := ASSIGNED | IN_PROGRESS | COMPLETED | OVERDUE.
End Status.

(** [Enrollment]; the row is keyed by its unique (user, course) pair.
    [progress] is the Python-side int. *)
Record Enrollment := {
  progress : Z;
  completed_at : option datetime;
  status : Status.t;
  due_date : option date;
  required : bool;
  auto_enrolled : bool;
  assigned_by : option pk;
}.

Record CourseAssignmentRule := {
  rule_department : option pk;
  rule_role : option Role;
  rule_course : pk;
  due_in_days : option N;
  rule_required : bool;
  active : bool;
}.

Record CourseMaterial := {
  material_id : pk;
  material_course : pk;
}.

Record MaterialProgress := {
  mp_user : pk;
  mp_material : CourseMaterial;
  is_completed : bool;
}.

Record Quiz := {
  quiz_id : pk;
  quiz_course : pk;
  pass_score : N;
  attempts_allowed : N;
  quiz_active : bool;
}.

Module Kind.
Inductive t := MULTIPLE | TRUE_FALSE | SHORT_TEXT.
End Kind.

Record Question := {
  question_id : pk;
  question_quiz : pk;
  question_type : Kind.t;
  points : N;
}.

Record Choice := {
  choice_id : pk;
  choice_question : pk;
  is_correct : bool;
}.

Record QuizAttempt := {
  attempt_id : pk;
  attempt_quiz : Quiz;
  attempt_user : pk;
  finished_at : option datetime;
  score : option Float.float;
  passed : bool;
}.

Record QuizAnswer := {
  answer_attempt : pk;
  answer_question : Question;
  selected_choice : option Choice;
}.

#[global] Instance Role_eq_dec : EqDecision Role.
Proof. solve_decision. Defined.
#[global] Instance Status_eq_dec : EqDecision Status.t.
Proof. solve_decision. Defined.
#[global] Instance Kind_eq_dec : EqDecision Kind.t.
Proof. solve_decision. Defined.

(** The database of [settings.py] is SQLite, and [DEFAULT_AUTO_FIELD] makes
    every key an AUTOINCREMENT column: SQLite keeps, for each table, the
    largest key the table has ever held (0 before the first row) and never
    assigns a key again.  These are the counters of the tables whose rows
    the modelled code creates. *)
Record Sequences := {
  seq_departments : N;
  seq_questions : N;
  seq_choices : N;
  seq_attempts : N;
}.

(** The tables the modelled functions read and write.  [unique_together =
    ("user", "course")] makes the enrollment table a finite map on that
    pair. *)
Record DB := {
  users : list User;
  departments : list pk;
  courses : list pk;
  rules : list CourseAssignmentRule;
  materials : list CourseMaterial;
  material_progress : list MaterialProgress;
  enrollments : gmap (pk * pk) Enrollment;
  quizzes : list Quiz;
  questions : list Question;
  choices : list Choice;
  attempts : list QuizAttempt;
  answers : list QuizAnswer;
  sequences : Sequences;
}.

Definition set_enrollments (e : gmap (pk * pk) Enrollment) (db : DB) : DB :=
  {| users := users db; departments := departments db; courses := courses db;
     rules := rules db; materials := materials db;
     material_progress := material_progress db; enrollments := e;
     quizzes := quizzes db; questions := questions db; choices := choices db;
     attempts := attempts db; answers := answers db;
     sequences := sequences db |}.

Definition set_attempts (a : list QuizAttempt) (db : DB) : DB :=
  {| users := users db; departments := departments db; courses := courses db;
     rules := rules db; materials := materials db;
     material_progress := material_progress db; enrollments := enrollments db;
     quizzes := quizzes db; questions := questions db; choices := choices db;
     attempts := a; answers := answers db;
     sequences := sequences db |}.

Definition set_answers (a : list QuizAnswer) (db : DB) : DB :=
  {| users := users db; departments := departments db; courses := courses db;
     rules := rules db; materials := materials db;
     material_progress := material_progress db; enrollments := enrollments db;
     quizzes := quizzes db; questions := questions db; choices := choices db;
     attempts := attempts db; answers := a;
     sequences := sequences db |}.

Definition set_material_progress (p : list MaterialProgress) (db : DB) : DB :=
  {| users := users db; departments := departments db; courses := courses db;
     rules := rules db; materials := materials db;
     material_progress := p; enrollments := enrollments db;
     quizzes := quizzes db; questions := questions db; choices := choices db;
     attempts := attempts db; answers := answers db;
     sequences := sequences db |}.

Definition set_materials (m : list CourseMaterial) (db : DB) : DB :=
  {| users := users db; departments := departments db; courses := courses db;
     rules := rules db; materials := m;
     material_progress := material_progress db; enrollments := enrollments db;
     quizzes := quizzes db; questions := questions db; choices := choices db;
     attempts := attempts db; answers := answers db;
     sequences := sequences db |}.

Definition set_sequences (q : Sequences) (db : DB) : DB :=
  {| users := users db; departments := departments db; courses := courses db;
     rules := rules db; materials := materials db;
     material_progress := material_progress db; enrollments := enrollments db;
     quizzes := quizzes db; questions := questions db; choices := choices db;
     attempts := attempts db; answers := answers db; sequences := q |}.

Definition set_seq_departments (k : N) (q : Sequences) : Sequences :=
  {| seq_departments := k; seq_questions := seq_questions q;
     seq_choices := seq_choices q; seq_attempts := seq_attempts q |}.

Definition set_seq_questions (k : N) (q : Sequences) : Sequences :=
  {| seq_departments := seq_departments q; seq_questions := k;
     seq_choices := seq_choices q; seq_attempts := seq_attempts q |}.

Definition set_seq_choices (k : N) (q : Sequences) : Sequences :=
  {| seq_departments := seq_departments q; seq_questions := seq_questions q;
     seq_choices := k; seq_attempts := seq_attempts q |}.

Definition set_seq_attempts (k : N) (q : Sequences) : Sequences :=
  {| seq_departments := seq_departments q; seq_questions := seq_questions q;
     seq_choices := seq_choices q; seq_attempts := k |}.

(** The largest key of a table, 0 when it is empty. *)
Definition max_key (used : list pk) : N :=
  fold_right (λ k m, N.max (Npos k) m) 0%N used.

(** The key AUTOINCREMENT gives a new row: one more than the largest key the
    table holds or has ever held, [last] being the counter of the table. *)
Definition next_pk (last : N) (used : list pk) : pk :=
  N.succ_pos (N.max last (max_key used)).

Definition set_status (s : Status.t) (e : Enrollment) : Enrollment :=
  {| progress := progress e; completed_at := completed_at e; status := s;
     due_date := due_date e; required := required e;
     auto_enrolled := auto_enrolled e; assigned_by := assigned_by e |}.

Definition set_progress (p : Z) (e : Enrollment) : Enrollment :=
  {| progress := p; completed_at := completed_at e; status := status e;
     due_date := due_date e; required := required e;
     auto_enrolled := auto_enrolled e; assigned_by := assigned_by e |}.

Definition set_completed_at (t : option datetime) (e : Enrollment) : Enrollment :=
  {| progress := progress e; completed_at := t; status := status e;
     due_date := due_date e; required := required e;
     auto_enrolled := auto_enrolled e; assigned_by := assigned_by e |}.

Definition set_due_date (d : option date) (e : Enrollment) : Enrollment :=
  {| progress := progress e; completed_at := completed_at e; status := status e;
     due_date := d; required := required e;
     auto_enrolled := auto_enrolled e; assigned_by := assigned_by e |}.

(** The field defaults of [Enrollment]. *)
Definition Enrollment_defaults : Enrollment :=
  {| progress := 0; completed_at := None; status := Status.ASSIGNED;
     due_date := None; required := true; auto_enrolled := false;
     assigned_by := None |}.

(** [Enrollment.objects.get_or_create(user=, course=, defaults=)]: the row,
    whether it was created, and the table afterwards. *)
Definition get_or_create (key : pk * pk) (new : Enrollment)
    (tbl : gmap (pk * pk) Enrollment)
    : Enrollment * bool * gmap (pk * pk) Enrollment :=
  match tbl !! key with
  | Some e => (e, false, tbl)
  | None => (new, true, <[key := new]> tbl)
  end.

(** [Enrollment.mark_completed] on the loaded row. *)
Definition mark_completed (now : datetime) (e : Enrollment) : Enrollment :=
  let e := set_status Status.COMPLETED e in
  let e :=
    match completed_at e with
    | Some _ => e
    | None => set_completed_at (Some now) e
    end in
  set_progress 100 e.

(** ** Progress aggregation ([core/services/assignments.py]) *)

Definition course_materials_count (course : pk) (db : DB) : Z :=
  Z.of_nat (length (filter (λ m, material_course m = course) (materials db))).

Definition completed_count (user course : pk) (db : DB) : Z :=
  Z.of_nat (length (filter
    (λ p, mp_user p = user ∧ material_course (mp_material p) = course
          ∧ is_completed p = true)
    (material_progress db))).

Definition compute_percent (user course : pk) (db : DB) : option Z :=
  let total := course_materials_count course db in
  if total =? 0 then Some 0
  else
    let done := completed_count user course db in
    x ← Float.truediv (100 * done) total;
    Some (Float.round x).

Definition derive_status (percent : Z) (now : datetime) (enr : Enrollment)
    : Enrollment :=
  let overdue :=
    match due_date enr with
    | Some due => (percent <? 100) && (due <? date_of now)
    | None => false
    end in
  if overdue then set_status Status.OVERDUE enr
  else if percent =? 0 then set_status Status.ASSIGNED enr
  else if percent <? 100 then set_status Status.IN_PROGRESS enr
  else
    let enr := set_status Status.COMPLETED enr in
    match completed_at enr with
    | Some _ => enr
    | None => set_completed_at (Some now) enr
    end.

Definition recompute_enrollment_progress_for (user course : pk)
    (now : datetime) (db : DB) : option DB :=
  percent ← compute_percent user course db;
  let '(enr, _, tbl) :=
    get_or_create (user, course) Enrollment_defaults (enrollments db) in
  let enr := derive_status percent now enr in
  let enr := set_progress percent enr in
  Some (set_enrollments (<[(user, course) := enr]> tbl) db).

(** ** Quiz grading ([core/services/quiz.py]) *)

(** [quiz.questions.all()] *)
Definition quiz_questions (quiz : Quiz) (db : DB) : list Question :=
  filter (λ q, question_quiz q = quiz_id quiz) (questions db).

(** [QuizAnswer.objects.select_related(...).filter(attempt=attempt)] *)
Definition attempt_answers (attempt : QuizAttempt) (db : DB) : list QuizAnswer :=
  filter (λ a, answer_attempt a = attempt_id attempt) (answers db).

(** [sum(q.points for q in questions)] *)
Definition sum_points (qs : list Question) : N :=
  fold_left (λ acc q, (acc + points q)%N) qs 0%N.

(** [x or 1] on a non-negative int. *)
Definition or_1 (x : N) : N := if (x =? 0)%N then 1%N else x.

(** One turn of the loop over the answers. *)
Definition grade_answer (obtained : N) (ans : QuizAnswer) : N :=
  let q := answer_question ans in
  match question_type q with
  | Kind.MULTIPLE | Kind.TRUE_FALSE =>
      match selected_choice ans with
      | Some c => if is_correct c then (obtained + points q)%N else obtained
      | None => obtained
      end
  | Kind.SHORT_TEXT => obtained
  end.

Definition obtained_points (answers : list QuizAnswer) : N :=
  fold_left grade_answer answers 0%N.

(** The UPDATE of the row that has the key of the attempt. *)
Definition update_attempt (a : QuizAttempt) (db : DB) : DB :=
  set_attempts
    (map (λ r, if decide (attempt_id r = attempt_id a) then a else r)
         (attempts db))
    db.

(** [attempt.save(update_fields=["score", "passed", "finished_at"])]; it
    raises DatabaseError ([None]) when the UPDATE finds no row with the key
    of the attempt. *)
Definition save_attempt (a : QuizAttempt) (db : DB) : option DB :=
  if bool_decide (attempt_id a ∈ map attempt_id (attempts db))
  then Some (update_attempt a db)
  else None.

Definition set_result (sc : Float.float) (p : bool) (t : datetime)
    (a : QuizAttempt) : QuizAttempt :=
  {| attempt_id := attempt_id a; attempt_quiz := attempt_quiz a;
     attempt_user := attempt_user a; finished_at := Some t;
     score := Some sc; passed := p |}.

(** [grade_attempt(attempt)].  [t_finished] is the clock reading stored in
    [finished_at], [t_completed] the later one taken by [mark_completed].
    [None] is an exception that leaves the function before anything is
    written: a ZeroDivisionError, or the DatabaseError of saving an attempt
    that has no row. *)
Definition grade_attempt (attempt : QuizAttempt)
    (t_finished t_completed : datetime) (db : DB)
    : option (QuizAttempt * DB) :=
  let quiz := attempt_quiz attempt in
  let questions := quiz_questions quiz db in
  let total_points := or_1 (sum_points questions) in
  let answers := attempt_answers attempt db in
  let obtained := obtained_points answers in
  x ← Float.truediv (100 * Z.of_N obtained) (Z.of_N total_points);
  let score_pct := Float.round2 x in
  let attempt :=
    set_result score_pct (Float.ge_int score_pct (Z.of_N (pass_score quiz)))
               t_finished attempt in
  db ← save_attempt attempt db;
  match enrollments db !! (attempt_user attempt, quiz_course quiz) with
  | None => Some (attempt, db)
  | Some enr =>
      if passed attempt
      then Some (attempt,
                 set_enrollments
                   (<[(attempt_user attempt, quiz_course quiz) :=
                        mark_completed t_completed enr]> (enrollments db))
                   db)
      else Some (attempt, db)
  end.

(** ** Taking a quiz ([core/views_quiz.py]) *)

Inductive Method := GET | POST | OTHER_METHOD.

#[global] Instance Method_eq_dec : EqDecision Method.
Proof. solve_decision. Defined.

(** A request that passed [login_required].  [post_choice q] is the integer
    read from the form field [q_<q>]: [None] when the field is missing,
    empty, or not the text of an int. *)
Record Request := {
  request_user : User;
  method : Method;
  post_choice : pk → option Z;
}.

Inductive Response :=
| Render (template : string) (status : Z)
| Redirect (to : string)
| Http404.

(** The insertion of a new attempt row: the row is appended and the counter
    of the table moves to its key. *)
Definition insert_attempt (attempt : QuizAttempt) (db : DB) : DB :=
  set_sequences
    (set_seq_attempts (Npos (attempt_id attempt)) (sequences db))
    (set_attempts (attempts db ++ [attempt]) db).

(** [QuizAttempt.objects.filter(quiz=quiz, user=user).count()] *)
Definition attempts_used (quiz : Quiz) (user : pk) (db : DB) : N :=
  N.of_nat (length (filter
    (λ a, quiz_id (attempt_quiz a) = quiz_id quiz ∧ attempt_user a = user)
    (attempts db))).

(** [Choice.objects.get(pk=int(choice_id), question=q)], [None] on
    [Choice.DoesNotExist]. *)
Definition get_choice (choice_pk : Z) (q : Question) (db : DB) : option Choice :=
  List.find
    (λ c, bool_decide (Zpos (choice_id c) = choice_pk
                       ∧ choice_question c = question_id q))
    (choices db).

(** One [QuizAnswer.objects.create] of the loop over the questions. *)
Definition create_answer (request : Request) (attempt : QuizAttempt)
    (db : DB) (q : Question) : DB :=
  let selected :=
    match post_choice request (question_id q) with
    | Some choice_pk => get_choice choice_pk q db
    | None => None
    end in
  set_answers
    (answers db ++ [{| answer_attempt := attempt_id attempt;
                       answer_question := q;
                       selected_choice := selected |}])
    db.

Definition quiz_take (request : Request) (quiz_pk : pk)
    (t_finished t_completed : datetime) (db : DB)
    : option (Response * DB) :=
  match List.find (λ q, bool_decide (quiz_id q = quiz_pk) && quiz_active q)
                  (quizzes db) with
  | None => Some (Http404, db)
  | Some quiz =>
      let user := user_id (request_user request) in
      let used := attempts_used quiz user db in
      let allowed := or_1 (attempts_allowed quiz) in
      if (allowed <=? used)%N && bool_decide (method request = GET)
      then Some (Render "quiz_no_attempts.html" 403, db)
      else if bool_decide (method request = POST) then
        let attempt :=
          {| attempt_id := next_pk (seq_attempts (sequences db))
                                   (map attempt_id (attempts db));
             attempt_quiz := quiz; attempt_user := user;
             finished_at := None; score := None; passed := false |} in
        let db := insert_attempt attempt db in
        let db := fold_left (create_answer request attempt)
                            (quiz_questions quiz db) db in
        '(_, db) ← grade_attempt attempt t_finished t_completed db;
        Some (Redirect "quiz_result", db)
      else Some (Render "quiz_take.html" 200, db)
  end.

(** ** Auto-enrollment rules ([core/services/assignments.py]) *)

(** A lazy queryset over the rule table is the condition of its WHERE
    clause.  [distinct()] changes nothing: every selected row carries its
    primary key, so no two rows of the result are equal. *)
Module QuerySet.
Definition t := CourseAssignmentRule → bool.
Definition all : t := λ _, true.
Definition filter (cond : CourseAssignmentRule → bool) (qs : t) : t :=
  λ r, qs r && cond r.
Definition union (a b : t) : t := λ r, a r || b r.
Definition distinct (qs : t) : t := qs.
(** Iterating the queryset against the table. *)
Definition rows (qs : t) (table : list CourseAssignmentRule)
    : list CourseAssignmentRule :=
  List.filter qs table.
End QuerySet.

Definition assign_course (user course : pk) (due : option date)
    (by_user : option pk) (req auto : bool)
    (tbl : gmap (pk * pk) Enrollment)
    : Enrollment * bool * gmap (pk * pk) Enrollment :=
  let '(obj, created, tbl) :=
    get_or_create (user, course)
      {| progress := 0; completed_at := None; status := Status.ASSIGNED;
         due_date := due; required := req; auto_enrolled := auto;
         assigned_by := by_user |}
      tbl in
  if negb created && bool_decide (is_Some due)
     && negb (bool_decide (is_Some (due_date obj)))
  then
    let obj := set_due_date due obj in
    (obj, created, <[(user, course) := obj]> tbl)
  else (obj, created, tbl).

(** [today + timedelta(days=rule.due_in_days) if rule.due_in_days else None];
    the outer [None] is the OverflowError of the sum. *)
Definition rule_due (today : date) (rule : CourseAssignmentRule)
    : option (option date) :=
  match due_in_days rule with
  | Some n => if (n =? 0)%N then Some None else Some <$> add_days today n
  | None => Some None
  end.

(** The queryset [assign_by_rules] builds. *)
Definition rules_for (user : User) : QuerySet.t :=
  let prof := profile user in
  let qs := QuerySet.filter active QuerySet.all in
  let dept_id := prof ≫= department in
  let role := role <$> prof in
  let qs :=
    match dept_id with
    | Some d =>
        QuerySet.union
          (QuerySet.filter (λ r, bool_decide (rule_department r = Some d)) qs)
          (QuerySet.filter (λ r, bool_decide (rule_department r = None)) qs)
    | None => QuerySet.filter (λ r, bool_decide (rule_department r = None)) qs
    end in
  let qs :=
    match role with
    | Some ro =>
        QuerySet.union
          (QuerySet.filter (λ r, bool_decide (rule_role r = Some ro)) qs)
          (QuerySet.filter (λ r, bool_decide (rule_role r = None)) qs)
    | None => QuerySet.filter (λ r, bool_decide (rule_role r = None)) qs
    end in
  QuerySet.distinct qs.

(** How a call that writes to the database ends: it returns, or an
    exception leaves it after the writes made so far. *)
Inductive Outcome :=
| Returned (db : DB)
| Raised (db : DB).

(** The loop of [assign_by_rules] over the rows of the queryset; it is left
    by the OverflowError of a due date. *)
Fixpoint assign_rows (user : User) (today : date)
    (rows : list CourseAssignmentRule) (db : DB) : Outcome :=
  match rows with
  | [] => Returned db
  | rule :: rest =>
      match rule_due today rule with
      | None => Raised db
      | Some due =>
          let '(_, _, tbl) :=
            assign_course (user_id user) (rule_course rule) due None
                          (rule_required rule) true (enrollments db) in
          assign_rows user today rest (set_enrollments tbl db)
      end
  end.

Definition assign_by_rules (user : User) (now : datetime) (db : DB)
    : Outcome :=
  let qs := rules_for user in
  let today := date_of now in
  assign_rows user today (QuerySet.rows qs (rules db)) db.

(** ** Enrollment creation from the views ([core/views.py]) *)

Inductive Message :=
| MsgError (text : string)
| MsgWarning (text : string)
| MsgInfo (text : string)
| MsgSuccess (text : string)
| MsgBulkEnrollOK (dept : pk) (created skipped : nat).

Module views.

Definition _role_of (user : User) : Role :=
  match profile user with
  | Some p => role p
  | None => ROLE_LEARNER
  end.

Definition _is_admin (user : User) : bool :=
  is_superuser user || bool_decide (_role_of user = ROLE_ADMIN).

Definition _is_manager (user : User) : bool :=
  let r := _role_of user in
  bool_decide (r = ROLE_MANAGER) || _is_admin user.

(** A POST field as [enrollment_create] receives it: absent, the empty
    string, a text that [int] reads as the given number, or another text. *)
Inductive PostField := Absent | Empty | IntText (z : Z) | OtherText.

(** The POST fields of the two forms.  Those of the bulk form are already
    read as ints: [None] when the field is missing, empty or not an int. *)
Record Form := {
  form_user : User;
  form_method : Method;
  post_user_id : PostField;
  post_course_id : PostField;
  post_progress : PostField;
  post_department_id : option Z;
  post_initial_progress : option Z;
}.

Definition get_pk (table : list pk) (key : option Z) : option pk :=
  k ← key; List.find (λ p, bool_decide (Zpos p = k)) table.

(** [get_object_or_404(Model, pk=field)] on the key column of a table.  An
    absent field is [pk=None], which no row has; a text that is not an int
    raises ValueError ([None]); [Some None] is the 404. *)
Definition get_object_or_404 (table : list pk) (field : PostField)
    : option (option pk) :=
  match field with
  | Absent => Some None
  | IntText k => Some (List.find (λ p, bool_decide (Zpos p = k)) table)
  | Empty | OtherText => None
  end.

(** [int(progress) if progress else 0]; [None] is the ValueError of [int]. *)
Definition posted_progress (field : PostField) : option Z :=
  match field with
  | Absent | Empty => Some 0
  | IntText z => Some z
  | OtherText => None
  end.

Definition user_department (u : User) : option pk :=
  profile u ≫= department.

(** [enrollment_create].  [None] is an exception that leaves the view
    before anything is written: the ValueError of a key or a progress that
    is not an int, and from [Enrollment.objects.create] the IntegrityError
    of a (user, course) pair that already has a row or of a negative
    [progress] (a PositiveIntegerField), and the OverflowError of a
    [progress] beyond the 64 bits of the column. *)
Definition enrollment_create (request : Form) (now : datetime) (db : DB)
    : option (Response * list Message * DB) :=
  if bool_decide (form_method request = POST) then
    user ← get_object_or_404 (map user_id (users db)) (post_user_id request);
    match user with
    | None => Some (Http404, [], db)
    | Some user =>
        course ← get_object_or_404 (courses db) (post_course_id request);
        match course with
        | None => Some (Http404, [], db)
        | Some course =>
            initial ← posted_progress (post_progress request);
            match enrollments db !! (user, course) with
            | Some _ => None
            | None =>
                if (initial <? 0) || (sqlite_max_int <? initial) then None
                else
                  let e := set_progress initial Enrollment_defaults in
                  let e :=
                    if (100 <=? progress e)
                       && negb (bool_decide (is_Some (completed_at e)))
                    then set_completed_at (Some now) e
                    else e in
                  Some (Redirect "enrollments_list",
                        [MsgSuccess "Enrollment created."],
                        set_enrollments
                          (<[(user, course) := e]> (enrollments db)) db)
            end
        end
    end
  else Some (Render "enrollment_form.html" 200, [], db).

(** One turn of the loop of [course_bulk_enroll] over the users of the
    department. *)
Definition bulk_enroll_user (course : pk) (initial_progress : Z)
    (now : datetime) (acc : nat * nat * gmap (pk * pk) Enrollment) (u : User)
    : nat * nat * gmap (pk * pk) Enrollment :=
  let '(created, skipped, tbl) := acc in
  let '(obj, was_created, tbl) :=
    get_or_create (user_id u, course)
      (set_progress initial_progress Enrollment_defaults) tbl in
  if was_created then
    if 100 <=? initial_progress
    then (S created, skipped,
          <[(user_id u, course) := set_completed_at (Some now) obj]> tbl)
    else (S created, skipped, tbl)
  else (created, S skipped, tbl).

Definition course_bulk_enroll (request : Form) (course_id : pk)
    (now : datetime) (db : DB) : Response * list Message * DB :=
  match List.find (λ c, bool_decide (c = course_id)) (courses db) with
  | None => (Http404, [], db)
  | Some course =>
      let my_dept := user_department (form_user request) in
      let is_admin := _is_admin (form_user request) in
      let is_mgr := _is_manager (form_user request) in
      if bool_decide (form_method request = POST) then
        let initial_progress := default 0 (post_initial_progress request) in
        let initial_progress :=
          if initial_progress <? 0 then 0 else initial_progress in
        let initial_progress :=
          if 100 <? initial_progress then 100 else initial_progress in
        let dept := get_pk (departments db) (post_department_id request) in
        if is_mgr && negb is_admin
           && (negb (bool_decide (is_Some my_dept))
               || negb (bool_decide (is_Some dept))
               || negb (bool_decide (dept = my_dept)))
        then (Redirect "course_bulk_enroll",
              [MsgError "Managers can only bulk enroll their own department."],
              db)
        else
          match dept with
          | None =>
              (Redirect "course_bulk_enroll",
               [MsgError "Please select a department."], db)
          | Some d =>
              let users_qs :=
                filter (λ u, user_department u = Some d) (users db) in
              let '(created, skipped, tbl) :=
                fold_left (bulk_enroll_user course initial_progress now)
                          users_qs (0%nat, 0%nat, enrollments db) in
              (Redirect "enrollments_list",
               [MsgBulkEnrollOK d created skipped],
               set_enrollments tbl db)
          end
      else (Render "course_bulk_enroll.html" 200, [], db)
  end.

End views.

(** ** Impersonation ([core/extra_views.py], [core/impersonation.py]) *)

(** The session keys the two modules use, and the authenticated user id the
    auth middleware keeps in the session. *)
Record Session := {
  impersonator_id : option pk;
  is_impersonating : option string;
  auth_user_id : option pk;
}.

(** [request.user] is [None] for an anonymous visitor. *)
Record AuthRequest := {
  user : option User;
  session : Session;
}.

Definition set_impersonator_id (v : option pk) (s : Session) : Session :=
  {| impersonator_id := v; is_impersonating := is_impersonating s;
     auth_user_id := auth_user_id s |}.

Definition set_is_impersonating (v : option string) (s : Session) : Session :=
  {| impersonator_id := impersonator_id s; is_impersonating := v;
     auth_user_id := auth_user_id s |}.

Definition set_session (s : Session) (request : AuthRequest) : AuthRequest :=
  {| user := user request; session := s |}.

Definition View := AuthRequest → Response * list Message * AuthRequest.

(** The [login_required] decorator. *)
Definition login_required (view : User → View) : View :=
  λ request,
    match user request with
    | Some u => view u request
    | None => (Redirect "login", [], request)
    end.

(** The [user_passes_test] decorator, under [login_required]. *)
Definition user_passes_test (test : User → bool) (view : User → View)
    : User → View :=
  λ u request,
    if test u then view u request else (Redirect "login", [], request).

(** [get_object_or_404(User, pk=user_id)] *)
Definition get_user (user_table : list User) (key : pk) : option User :=
  List.find (λ u, bool_decide (user_id u = key)) user_table.

(** [core/extra_views.py], the module [urls.py] routes to. *)
Module extra_views.
Section WithLogin.

(** [django.contrib.auth.login(request, user, backend)]: the request, with
    its session and user, after the call. *)
Variable login : AuthRequest → User → AuthRequest.
Variable user_table : list User.

Definition _role_of (u : User) : Role :=
  match profile u with
  | Some p => role p
  | None => ROLE_LEARNER
  end.

Definition _is_admin (u : User) : bool :=
  is_superuser u || bool_decide (_role_of u = ROLE_ADMIN).

Definition impersonate_start (target_id : pk) : View :=
  login_required (λ request_user request,
    if negb (_is_admin request_user)
    then (Redirect "user_list", [MsgError "Not authorized."], request)
    else
      match get_user user_table target_id with
      | None => (Http404, [], request)
      | Some target =>
          if bool_decide (user_id request_user = user_id target)
          then (Redirect "dashboard", [MsgInfo "You are already this user."],
                request)
          else
            let s :=
              set_impersonator_id (Some (user_id request_user))
                                  (session request) in
            let s := set_is_impersonating (Some "1") s in
            let request := login (set_session s request) target in
            (Redirect "dashboard", [MsgSuccess "Now impersonating"], request)
      end).

End WithLogin.
End extra_views.

(** [core/impersonation.py] *)
Module impersonation.
Section WithLogin.

Variable login : AuthRequest → User → AuthRequest.
Variable user_table : list User.

Definition _is_admin (u : User) : bool :=
  is_superuser u
  || match profile u with
     | Some p => bool_decide (role p = ROLE_ADMIN)
     | None => false
     end.

Definition impersonate_start (target_id : pk) : View :=
  login_required (user_passes_test _is_admin (λ request_user request,
    if bool_decide (is_Some (impersonator_id (session request)))
    then (Redirect "dashboard",
          [MsgWarning "You are already impersonating. Stop first."], request)
    else
      match get_user user_table target_id with
      | None => (Http404, [], request)
      | Some target =>
          if is_superuser target && negb (is_superuser request_user)
          then (Redirect "user_list",
                [MsgError "You cannot impersonate a superuser."], request)
          else
            let s :=
              set_impersonator_id (Some (user_id request_user))
                                  (session request) in
            let request := login (set_session s request) target in
            (Redirect "dashboard", [MsgSuccess "You are now impersonating"],
             request)
      end)).

End WithLogin.
End impersonation.

(** * Specification-side definitions *)

(** These follow the wording of the specification, not the code; the
    theorems below compare them with the functions embedded above. *)
Module Spec.

Definition sum_N (l : list N) : N := fold_right N.add 0%N l.

(** "total_points = sum of points over all questions belonging to the
    quiz" *)
Definition total_points (quiz : Quiz) (db : DB) : N :=
  sum_N (map points (quiz_questions quiz db)).

(** "the question type is MULTIPLE or TRUE_FALSE and the selected choice's
    is_correct flag is true" *)
Definition earns_points (a : QuizAnswer) : Prop :=
  (question_type (answer_question a) = Kind.MULTIPLE
   ∨ question_type (answer_question a) = Kind.TRUE_FALSE)
  ∧ ∃ c, selected_choice a = Some c ∧ is_correct c = true.

#[global] Instance earns_points_dec a : Decision (earns_points a).
Proof.
  unfold earns_points.
  destruct (selected_choice a) as [c|].
  - destruct (is_correct c) eqn:Hc.
    + destruct (decide (question_type (answer_question a) = Kind.MULTIPLE
                        ∨ question_type (answer_question a) = Kind.TRUE_FALSE)).
      * left. eauto.
      * right. tauto.
    + right. intros [_ (c' & Heq & Hc')]. congruence.
  - right. intros [_ (c' & Heq & _)]. congruence.
Defined.

(** "add the question's point weight to obtained_points" for exactly those
    answers. *)
Definition obtained (answers : list QuizAnswer) : N :=
  sum_N (map (λ a, points (answer_question a)) (filter earns_points answers)).

(** "a rule with department null or equal to the user's, and role null or
    equal to the user's" *)
Definition rule_matches (u : User) (r : CourseAssignmentRule) : Prop :=
  active r = true
  ∧ (rule_department r = None ∨ rule_department r = profile u ≫= department)
  ∧ (rule_role r = None ∨ rule_role r = role <$> profile u).

(** "due_date = today + rule.due_in_days (if set, else null)" *)
Definition due_date_of_rule (today : date) (r : CourseAssignmentRule)
    : option date :=
  (λ n, today + Z.of_N n) <$> due_in_days r.

(** "resolves to ADMIN": superuser, or profile role ADMIN. *)
Definition resolves_to_admin (u : User) : Prop :=
  is_superuser u = true ∨ ∃ p, profile u = Some p ∧ role p = ROLE_ADMIN.

End Spec.

(** * Definitions used in the statements *)

(** The attempt has a row in the attempt table. *)
Definition attempt_stored (attempt : QuizAttempt) (db : DB) : Prop :=
  attempt_id attempt ∈ map attempt_id (attempts db).

#[global] Instance attempt_stored_dec attempt db :
  Decision (attempt_stored attempt db).
Proof. unfold attempt_stored. apply _. Defined.

(** The value [grade_attempt] computes for [score]. *)
Definition graded_score (attempt : QuizAttempt) (db : DB) : Float.float :=
  Float.round2
    (Float.nearest
       (100 * Z.of_N (obtained_points (attempt_answers attempt db)))
       (Z.of_N (or_1 (sum_points (quiz_questions (attempt_quiz attempt) db))))).

Definition graded (attempt : QuizAttempt) (t_finished : datetime) (db : DB)
    : QuizAttempt :=
  set_result (graded_score attempt db)
    (Float.ge_int (graded_score attempt db)
                  (Z.of_N (pass_score (attempt_quiz attempt))))
    t_finished attempt.

(** The percentage [recompute_enrollment_progress_for] derives. *)
Definition percent_of (user course : pk) (db : DB) : Z :=
  if course_materials_count course db =? 0 then 0
  else Float.round
         (Float.nearest (100 * completed_count user course db)
                        (course_materials_count course db)).

(** The row the function saves, from the row it loaded. *)
Definition recomputed (percent : Z) (now : datetime) (e : Enrollment)
    : Enrollment :=
  set_progress percent (derive_status percent now e).

(** The calls that follow one another on a database: the two functions that
    write [completed_at], and writes to the material and material-progress
    tables in between, which make the computed percentage move freely. *)
Inductive Op :=
| Recompute (user course : pk) (now : datetime)
| Grade (attempt : QuizAttempt) (t_finished t_completed : datetime)
| WriteProgress (rows : list MaterialProgress)
| WriteMaterials (rows : list CourseMaterial).

Definition step (op : Op) (db : DB) : option DB :=
  match op with
  | Recompute user course now =>
      recompute_enrollment_progress_for user course now db
  | Grade attempt t_finished t_completed =>
      snd <$> grade_attempt attempt t_finished t_completed db
  | WriteProgress rows => Some (set_material_progress rows db)
  | WriteMaterials rows => Some (set_materials rows db)
  end.

Fixpoint run (ops : list Op) (db : DB) : option DB :=
  match ops with
  | [] => Some db
  | op :: ops => db' ← step op db; run ops db'
  end.

(** Every attempt the operations grade has a row. *)
Definition grades_stored (ops : list Op) (db : DB) : Prop :=
  ∀ a t_finished t_completed,
    Grade a t_finished t_completed ∈ ops → attempt_stored a db.

(** The clock reading an operation would store in [completed_at]. *)
Definition completion_time (op : Op) : option datetime :=
  match op with
  | Recompute _ _ now => Some now
  | Grade _ _ t_completed => Some t_completed
  | WriteProgress _ | WriteMaterials _ => None
  end.

(** Whether a rule matches a user is decidable. *)
#[global] Instance rule_matches_dec u r : Decision (Spec.rule_matches u r).
Proof. unfold Spec.rule_matches. apply _. Defined.

(** The row [assign_course] leaves for the pair, from the row that was
    there: a new auto-enrolled row, or the old row with a null due date
    filled in. *)
Definition upsert (due : option date) (req : bool) (old : option Enrollment)
    : Enrollment :=
  match old with
  | None =>
      {| progress := 0; completed_at := None; status := Status.ASSIGNED;
         due_date := due; required := req; auto_enrolled := true;
         assigned_by := None |}
  | Some e =>
      match due, due_date e with
      | Some _, None => set_due_date due e
      | _, _ => e
      end
  end.

(** The due date of a rule when the sum is a date: today + due_in_days for
    a due_in_days that is set and not 0, no due date otherwise. *)
Definition due_of (today : date) (r : CourseAssignmentRule) : option date :=
  match due_in_days r with
  | Some n => if (n =? 0)%N then None else Some (today + Z.of_N n)
  | None => None
  end.

(** The due date of the rule is a date Python represents: due_in_days is
    null or 0, or at most 999999999 with today + due_in_days no later than
    9999-12-31. *)
Definition due_in_range (today : date) (r : CourseAssignmentRule) : Prop :=
  match due_in_days r with
  | Some n =>
      n = 0%N ∨ (Z.of_N n <= 999999999 ∧ today + Z.of_N n <= date_max)
  | None => True
  end.

#[global] Instance due_in_range_dec today r : Decision (due_in_range today r).
Proof. unfold due_in_range. destruct (due_in_days r); apply _. Defined.

(** The first non-null due date the rules of a list compute. *)
Fixpoint first_due (today : date) (rs : list CourseAssignmentRule)
    : option date :=
  match rs with
  | [] => None
  | r :: rs =>
      match due_of today r with
      | Some d => Some d
      | None => first_due today rs
      end
  end.

(** One turn of the loop of [assign_by_rules] for a due date in range. *)
Definition assign_rule (uid : pk) (today : date)
    (tbl : gmap (pk * pk) Enrollment) (rule : CourseAssignmentRule)
    : gmap (pk * pk) Enrollment :=
  (assign_course uid (rule_course rule) (due_of today rule) None
                 (rule_required rule) true tbl).2.

(** The enrollment table after the loop of [assign_by_rules] when every due
    date is in range. *)
Definition assigned (user : User) (now : datetime) (db : DB)
    : gmap (pk * pk) Enrollment :=
  fold_left (assign_rule (user_id user) (date_of now))
            (filter (Spec.rule_matches user) (rules db))
            (enrollments db).

(** A null due date filled in, a set one kept. *)
Definition backfill (d : option date) (e : Enrollment) : Enrollment :=
  match due_date e, d with
  | None, Some _ => set_due_date d e
  | _, _ => e
  end.

(** * Constraints of the schema used as hypotheses *)

(** [MaterialProgress] has [unique_together = ('user', 'material')] and a
    foreign key to [CourseMaterial]: no two rows for the same user and
    material, and every row's material is a row of the material table. *)
Definition material_progress_constraints (db : DB) : Prop :=
  NoDup ((λ p, (mp_user p, material_id (mp_material p)))
           <$> material_progress db)
  ∧ ∀ p, p ∈ material_progress db → mp_material p ∈ materials db.

#[global] Instance CourseMaterial_eq_dec : EqDecision CourseMaterial.
Proof. solve_decision. Defined.

(** * Definitions used in the further statements *)

(** The answer row [quiz_take] creates for a question. *)
Definition stored_answer (request : Request) (attempt : QuizAttempt) (db : DB)
    (q : Question) : QuizAnswer :=
  {| answer_attempt := attempt_id attempt;
     answer_question := q;
     selected_choice :=
       match post_choice request (question_id q) with
       | Some choice_pk => get_choice choice_pk q db
       | None => None
       end |}.

(** The attempt row [quiz_take] creates, before grading. *)
Definition new_attempt (quiz : Quiz) (user : pk) (db : DB) : QuizAttempt :=
  {| attempt_id := next_pk (seq_attempts (sequences db))
                           (map attempt_id (attempts db));
     attempt_quiz := quiz; attempt_user := user;
     finished_at := None; score := None; passed := false |}.

(** Every stored answer belongs to a stored attempt (the foreign key of
    [QuizAnswer.attempt]). *)
Definition answers_have_attempts (db : DB) : Prop :=
  ∀ a, a ∈ answers db → answer_attempt a ∈ map attempt_id (attempts db).

(** [get_object_or_404(Quiz, pk=quiz_pk, active=True)] *)
Definition active_quiz (quiz_pk : pk) (db : DB) : option Quiz :=
  List.find (λ q, bool_decide (quiz_id q = quiz_pk) && quiz_active q)
            (quizzes db).

(** ** Signals ([core/signals.py]) *)

(** The field defaults of [Profile]. *)
Definition Profile_defaults : Profile :=
  {| department := None; role := ROLE_LEARNER |}.

Definition set_profile (p : option Profile) (u : User) : User :=
  {| user_id := user_id u; is_superuser := is_superuser u; profile := p |}.

Definition set_users (us : list User) (db : DB) : DB :=
  {| users := us; departments := departments db; courses := courses db;
     rules := rules db; materials := materials db;
     material_progress := material_progress db; enrollments := enrollments db;
     quizzes := quizzes db; questions := questions db; choices := choices db;
     attempts := attempts db; answers := answers db;
     sequences := sequences db |}.



(** [update_enrollment_progress], the [post_save] receiver of
    [MaterialProgress]. *)
Definition update_enrollment_progress (instance : MaterialProgress)
    (now : datetime) (db : DB) : option DB :=
  let course := material_course (mp_material instance) in
  recompute_enrollment_progress_for (mp_user instance) course now db.

(** The row [course_bulk_enroll] creates for a user without enrollment. *)
Definition bulk_row (initial_progress : Z) (now : datetime) : Enrollment :=
  let e := set_progress initial_progress Enrollment_defaults in
  if 100 <=? initial_progress then set_completed_at (Some now) e else e.

(** [initial_progress] after the two clamps of [course_bulk_enroll]. *)
Definition clamp_progress (posted : option Z) : Z :=
  Z.min 100 (Z.max 0 (default 0 posted)).

(** ** Stopping an impersonation ([core/extra_views.py],
    [core/impersonation.py]) *)

Definition set_auth_user_id (v : option pk) (s : Session) : Session :=
  {| impersonator_id := impersonator_id s;
     is_impersonating := is_impersonating s; auth_user_id := v |}.

Module extra_views_stop.
Section WithLogin.

Variable login : AuthRequest → User → AuthRequest.
Variable user_table : list User.

Definition impersonate_stop : View :=
  login_required (λ _ request,
    let orig_id := impersonator_id (session request) in
    let s := set_impersonator_id None (session request) in
    let s := set_is_impersonating None s in
    let request := set_session s request in
    match orig_id with
    | None =>
        (Redirect "dashboard", [MsgInfo "You are not impersonating anyone."],
         request)
    | Some orig =>
        match get_user user_table orig with
        | None => (Http404, [], request)
        | Some original =>
            let request := login request original in
            (Redirect "dashboard", [MsgSuccess "Stopped impersonation."],
             request)
        end
    end).

End WithLogin.
End extra_views_stop.

Module impersonation_stop.
Section WithLogin.

Variable login : AuthRequest → User → AuthRequest.
Variable user_table : list User.

Definition impersonate_stop : View :=
  login_required (λ _ request,
    match impersonator_id (session request) with
    | None =>
        (Redirect "dashboard", [MsgInfo "You are not impersonating anyone."],
         request)
    | Some orig =>
        match get_user user_table orig with
        | None => (Http404, [], request)
        | Some admin_user =>
            let request := login request admin_user in
            let request :=
              set_session (set_impersonator_id None (session request))
                          request in
            (Redirect "dashboard",
             [MsgSuccess "Impersonation ended. You're back as admin."],
             request)
        end
    end).

End WithLogin.
End impersonation_stop.

(** [django.contrib.auth.login(request, user, backend)] on the part of the
    request kept here.  A session that is authenticated as another user is
    flushed, which removes every key of it; then the user is recorded in the
    session and becomes [request.user].  (The password hash the session
    records is taken to be the user's current one.) *)
Module auth.

Definition flush (s : Session) : Session :=
  {| impersonator_id := None; is_impersonating := None; auth_user_id := None |}.

Definition login (request : AuthRequest) (u : User) : AuthRequest :=
  let s := session request in
  let s :=
    match auth_user_id s with
    | Some k => if bool_decide (k = user_id u) then s else flush s
    | None => s
    end in
  {| user := Some u; session := set_auth_user_id (Some (user_id u)) s |}.

End auth.

(** ** The result page of a quiz ([core/views_quiz.py]) *)

(** The template context of [quiz_result]. *)
Record ResultContext := {
  ctx_quiz : Quiz;
  ctx_attempt : QuizAttempt;
  ctx_used : N;
  ctx_allowed : N;
  ctx_attempts_left : Z;
}.

(** [quiz_result]; [None] is the 404 of [get_object_or_404]. *)
Definition quiz_result (request : Request) (quiz_pk attempt_pk : pk) (db : DB)
    : option ResultContext :=
  quiz ← List.find (λ q, bool_decide (quiz_id q = quiz_pk)) (quizzes db);
  attempt ←
    List.find
      (λ a, bool_decide (attempt_id a = attempt_pk
                         ∧ quiz_id (attempt_quiz a) = quiz_id quiz
                         ∧ attempt_user a = user_id (request_user request)))
      (attempts db);
  let used := attempts_used quiz (user_id (request_user request)) db in
  let allowed := or_1 (attempts_allowed quiz) in
  let attempts_left := Z.max 0 (Z.of_N allowed - Z.of_N used) in
  Some {| ctx_quiz := quiz; ctx_attempt := attempt; ctx_used := used;
          ctx_allowed := allowed; ctx_attempts_left := attempts_left |}.

(** ** The team page ([core/extra_views.py]) *)

Definition set_departments (ds : list pk) (db : DB) : DB :=
  {| users := users db; departments := ds; courses := courses db;
     rules := rules db; materials := materials db;
     material_progress := material_progress db; enrollments := enrollments db;
     quizzes := quizzes db; questions := questions db; choices := choices db;
     attempts := attempts db; answers := answers db;
     sequences := sequences db |}.

Module extra_views_team.

Definition _is_manager (u : User) : bool :=
  let r := extra_views._role_of u in
  bool_decide (r = ROLE_MANAGER) || extra_views._is_admin u.

(** The POST fields of the team form.  [team_department_id] is [None] when
    the field is missing or empty, [Some None] when its text is not an int;
    [team_department_name] is the text of the name field without
    surrounding white space, empty when the field is missing. *)
Record Form := {
  team_user : User;
  team_method : Method;
  team_department_id : option (option Z);
  team_department_name : string;
}.

(** [Department.objects.get_or_create(name=dep_name)] on the name column
    [names] of the department table. *)
Definition get_or_create_department (name : string)
    (names : list (pk * string)) (db : DB)
    : pk * list (pk * string) * DB :=
  match List.find (λ row, bool_decide (row.2 = name)) names with
  | Some row => (row.1, names, db)
  | None =>
      let d := next_pk (seq_departments (sequences db)) (departments db) in
      (d, names ++ [(d, name)],
       set_sequences (set_seq_departments (Npos d) (sequences db))
                     (set_departments (departments db ++ [d]) db))
  end.

Definition team (request : Form) (names : list (pk * string)) (db : DB)
    : Response * list Message * list (pk * string) * DB :=
  let u := team_user request in
  if negb (_is_manager u)
  then (Redirect "dashboard", [MsgError "Not authorized."], names, db)
  else if bool_decide (team_method request = POST) then
    let '(dept, names, db) :=
      match team_department_id request with
      | Some dep_id => (views.get_pk (departments db) dep_id, names, db)
      | None =>
          if bool_decide (team_department_name request = "")
          then (None, names, db)
          else
            let '(d, names, db) :=
              get_or_create_department (team_department_name request)
                                       names db in
            (Some d, names, db)
      end in
    let prof := default Profile_defaults (profile u) in
    let u' := set_profile (Some {| department := dept; role := role prof |}) u in
    (Redirect "team", [MsgSuccess "Department updated for your profile."],
     names,
     set_users
       (map (λ r, if decide (user_id r = user_id u) then u' else r) (users db))
       db)
  else (Render "team.html" 200, [], names, db).

End extra_views_team.

(** ** The quiz builder ([core/forms.py], [core/views_quiz_builder.py]) *)

Definition set_questions (qs : list Question) (db : DB) : DB :=
  {| users := users db; departments := departments db; courses := courses db;
     rules := rules db; materials := materials db;
     material_progress := material_progress db; enrollments := enrollments db;
     quizzes := quizzes db; questions := qs; choices := choices db;
     attempts := attempts db; answers := answers db;
     sequences := sequences db |}.

Definition set_choices (cs : list Choice) (db : DB) : DB :=
  {| users := users db; departments := departments db; courses := courses db;
     rules := rules db; materials := materials db;
     material_progress := material_progress db; enrollments := enrollments db;
     quizzes := quizzes db; questions := questions db; choices := cs;
     attempts := attempts db; answers := answers db;
     sequences := sequences db |}.

Module forms.
Section WithStrip.

(** [str.strip] *)
Variable strip : string → string.

(** The values of the fields of [QuestionCreateForm] after conversion.
    [correct_choice] is the number 1..4 of the radio button, [None] when
    none is selected. *)
Record QuestionCreateForm := {
  question_type : Kind.t;
  text : string;
  points : Z;
  choice1 : string;
  choice2 : string;
  choice3 : string;
  choice4 : string;
  correct_choice : option Z;
  true_is_correct : bool;
}.

Definition form_choices (f : QuestionCreateForm) : list string :=
  [choice1 f; choice2 f; choice3 f; choice4 f].

(** The declared constraints of the fields: [text] required with at most
    2000 characters, [points] at least 1, choices of at most 300
    characters, [correct_choice] one of 1..4 when present. *)
Definition fields_valid (f : QuestionCreateForm) : bool :=
  negb (bool_decide (text f = ""))
  && bool_decide (String.length (text f) ≤ 2000)%nat
  && (1 <=? points f)
  && forallb (λ c, bool_decide (String.length c ≤ 300)%nat) (form_choices f)
  && match correct_choice f with
     | Some cc => (1 <=? cc) && (cc <=? 4)
     | None => true
     end.

(** [QuestionCreateForm.clean]: the validation error, if any.  A
    [correct_choice] that is not one of the four buttons has failed its
    field and is absent from the cleaned data. *)
Definition clean (f : QuestionCreateForm) : option string :=
  match question_type f with
  | Kind.MULTIPLE =>
      let choices := form_choices f in
      let filled :=
        List.filter
          (λ c, negb (bool_decide (c = "")) && negb (bool_decide (strip c = "")))
          choices in
      if (length filled <? 2)%nat then Some "Provide at least two choices."
      else
        match correct_choice f with
        | None => Some "Select which choice is correct."
        | Some idx =>
            if negb ((1 <=? idx) && (idx <=? 4))
            then Some "Select which choice is correct."
            else if bool_decide (nth (Z.to_nat (idx - 1)) choices "" = "")
            then Some "Correct choice must have text."
            else None
        end
  | _ => None
  end.

Definition is_valid (f : QuestionCreateForm) : bool :=
  fields_valid f && bool_decide (clean f = None).

End WithStrip.
End forms.

Module views_quiz_builder.
Section WithStrip.

Variable strip : string → string.

(** [Choice.objects.create(question=question, is_correct=correct)] *)
Definition create_choice (question : Question) (correct : bool) (db : DB)
    : DB :=
  let key := next_pk (seq_choices (sequences db)) (map choice_id (choices db)) in
  set_sequences
    (set_seq_choices (Npos key) (sequences db))
    (set_choices
       (choices db
        ++ [{| choice_id := key;
               choice_question := question_id question;
               is_correct := correct |}])
       db).

(** The loop over [enumerate(choices_txt)], from index [idx] on. *)
Fixpoint create_choices (question : Question) (correct_idx idx : Z)
    (choices_txt : list string) (db : DB) : DB :=
  match choices_txt with
  | [] => db
  | txt :: rest =>
      let txt := strip txt in
      let db :=
        if bool_decide (txt = "") then db
        else create_choice question (bool_decide (idx = correct_idx)) db in
      create_choices question correct_idx (idx + 1) rest db
  end.

(** [quiz_add_question]; [add_more] tells whether the POST carries the
    [add_more] button.  [None] is the OverflowError of
    [Question.objects.create] for points beyond the 64 bits of the column
    (the form sets no upper limit); nothing is written then. *)
Definition quiz_add_question (request_method : Method) (add_more : bool)
    (form : forms.QuestionCreateForm) (quiz_pk : pk) (db : DB)
    : option (Response * list Message * DB) :=
  match List.find (λ q, bool_decide (quiz_id q = quiz_pk)) (quizzes db) with
  | None => Some (Http404, [], db)
  | Some quiz =>
      if bool_decide (request_method = POST) && forms.is_valid strip form then
        if sqlite_max_int <? forms.points form then None else
        let qtype := forms.question_type form in
        let question :=
          {| question_id := next_pk (seq_questions (sequences db))
                                    (map question_id (questions db));
             question_quiz := quiz_id quiz;
             question_type := qtype;
             points := Z.to_N (forms.points form) |} in
        let db :=
          set_sequences
            (set_seq_questions (Npos (question_id question)) (sequences db))
            (set_questions (questions db ++ [question]) db) in
        let db :=
          match qtype with
          | Kind.MULTIPLE =>
              let correct_idx :=
                default 0 (forms.correct_choice form) - 1 in
              create_choices question correct_idx 0
                             (forms.form_choices form) db
          | Kind.TRUE_FALSE =>
              let true_is_correct := forms.true_is_correct form in
              create_choice question (negb true_is_correct)
                (create_choice question true_is_correct db)
          | Kind.SHORT_TEXT => db
          end in
        Some (Redirect (if add_more then "quiz_add_question"
                        else "quiz_list_for_course"),
              [MsgSuccess "Pregunta agregada."], db)
      else Some (Render "quiz_add_question.html" 200, [], db)
  end.

(** [question.choices.all().delete()]: the choices of the question are
    deleted; an answer that selected one of them keeps its row with the
    selection set to null. *)
Definition delete_choices (question : Question) (db : DB) : DB :=
  let deleted :=
    map choice_id
        (filter (λ c, choice_question c = question_id question)
                (choices db)) in
  set_answers
    (map (λ a,
            match selected_choice a with
            | Some c =>
                if bool_decide (choice_id c ∈ deleted)
                then {| answer_attempt := answer_attempt a;
                        answer_question := answer_question a;
                        selected_choice := None |}
                else a
            | None => a
            end)
         (answers db))
    (set_choices
       (filter (λ c, choice_question c ≠ question_id question) (choices db))
       db).

(** [question_delete]; [is_staff] is the flag of the requesting user.
    Deleting a question deletes its choices (and its answers, of which
    there are none here) with it. *)
Definition question_delete (is_staff : bool) (request_method : Method)
    (question_pk : pk) (db : DB) : Response * list Message * DB :=
  match List.find (λ q, bool_decide (question_id q = question_pk))
                  (questions db) with
  | None => (Http404, [], db)
  | Some question =>
      if negb is_staff
      then (Redirect "quiz_list_for_course", [MsgError "Not allowed."], db)
      else if bool_decide (request_method = POST) then
        let has_answers :=
          existsb (λ a, bool_decide (question_id (answer_question a)
                                      = question_id question))
                  (answers db) in
        if has_answers
        then (Redirect "question_list",
              [MsgError "No puedes borrar esta pregunta: ya tiene intentos/respuestas."],
              db)
        else
          (Redirect "question_list", [MsgSuccess "Pregunta borrada."],
           set_questions
             (filter (λ q, question_id q ≠ question_id question)
                     (questions db))
             (delete_choices question db))
      else (Redirect "question_list", [], db)
  end.

(** The fields of the POST of [question_edit].  [edit_points] and
    [edit_correct_choice] are the integers [int] reads from the fields
    [points] and [correct_choice], [None] when the field is empty, absent
    or not an integer; the text of the question is not part of [Question]
    here. *)
Record EditForm := {
  edit_points : option Z;
  edit_choice1 : string;
  edit_choice2 : string;
  edit_choice3 : string;
  edit_choice4 : string;
  edit_correct_choice : option Z;
  edit_true_is_correct : bool;
}.

(** [question.save(update_fields=["text", "points"])]: the row is
    rewritten, and the answers that refer to it see the new row. *)
Definition save_question (question : Question) (db : DB) : DB :=
  set_answers
    (map (λ a,
            if bool_decide (question_id (answer_question a)
                            = question_id question)
            then {| answer_attempt := answer_attempt a;
                    answer_question := question;
                    selected_choice := selected_choice a |}
            else a)
         (answers db))
    (set_questions
       (map (λ q, if bool_decide (question_id q = question_id question)
                  then question else q)
            (questions db))
       db).

(** The loop of [question_edit] over the stripped texts. *)
Fixpoint replace_choices (question : Question) (correct_idx idx : Z)
    (choices_txt : list string) (db : DB) : DB :=
  match choices_txt with
  | [] => db
  | txt :: rest =>
      let db :=
        if bool_decide (txt = "") then db
        else create_choice question (bool_decide (idx = correct_idx)) db in
      replace_choices question correct_idx (idx + 1) rest db
  end.

(** [question_edit].  [None] is the exception of [question.save]: the
    IntegrityError of negative points (a PositiveSmallIntegerField) or the
    OverflowError of points beyond the 64 bits of the column; nothing is
    written then. *)
Definition question_edit (is_staff : bool) (request_method : Method)
    (form : EditForm) (question_pk : pk) (db : DB)
    : option (Response * list Message * DB) :=
  match List.find (λ q, bool_decide (question_id q = question_pk))
                  (questions db) with
  | None => Some (Http404, [], db)
  | Some question =>
      if negb is_staff
      then Some (Redirect "quiz_list_for_course", [MsgError "Not allowed."],
                 db)
      else
        let has_answers :=
          existsb (λ a, bool_decide (question_id (answer_question a)
                                      = question_id question))
                  (answers db) in
        if bool_decide (request_method = POST) then
          let points' :=
            match edit_points form with
            | Some n => n
            | None => Z.of_N (points question)
            end in
          if (points' <? 0) || (sqlite_max_int <? points') then None
          else
            let question :=
              {| question_id := question_id question;
                 question_quiz := question_quiz question;
                 question_type := question_type question;
                 points := Z.to_N points' |} in
            let db := save_question question db in
            let db :=
              if negb has_answers then
                match question_type question with
                | Kind.MULTIPLE =>
                    let db := delete_choices question db in
                    let choices_txt :=
                      [strip (edit_choice1 form); strip (edit_choice2 form);
                       strip (edit_choice3 form); strip (edit_choice4 form)]
                    in
                    let correct_idx :=
                      default 1 (edit_correct_choice form) - 1 in
                    replace_choices question correct_idx 0 choices_txt db
                | Kind.TRUE_FALSE =>
                    let true_is_correct := edit_true_is_correct form in
                    let db := delete_choices question db in
                    create_choice question (negb true_is_correct)
                      (create_choice question true_is_correct db)
                | Kind.SHORT_TEXT => db
                end
              else db in
            Some (Redirect "question_list", [MsgSuccess "Question updated."],
                  db)
        else Some (Render "question_edit.html" 200, [], db)
  end.

End WithStrip.
End views_quiz_builder.

(** Every stored choice belongs to a stored question (the foreign key of
    [Choice.question]). *)
Definition choices_have_questions (db : DB) : Prop :=
  ∀ c, c ∈ choices db → choice_question c ∈ map question_id (questions db).

(** [get_object_or_404(Quiz, pk=quiz_pk)] and
    [get_object_or_404(Question, pk=question_pk)] *)
Definition stored_quiz (quiz_pk : pk) (db : DB) : option Quiz :=
  List.find (λ q, bool_decide (quiz_id q = quiz_pk)) (quizzes db).

Definition stored_question (question_pk : pk) (db : DB) : option Question :=
  List.find (λ q, bool_decide (question_id q = question_pk)) (questions db).

(** The [is_correct] flags of the choices the loop of [quiz_add_question]
    creates, in order. *)
Fixpoint choice_flags (strip : string → string) (correct_idx idx : Z)
    (choices_txt : list string) : list bool :=
  match choices_txt with
  | [] => []
  | txt :: rest =>
      (if bool_decide (strip txt = "") then []
       else [bool_decide (idx = correct_idx)])
      ++ choice_flags strip correct_idx (idx + 1) rest
  end.

(** Every answer that selected a choice selected a stored choice of the
    question it answers. *)
Definition answers_select_stored_choices (db : DB) : Prop :=
  ∀ a c, a ∈ answers db → selected_choice a = Some c →
         c ∈ choices db ∧ choice_question c = question_id (answer_question a).

(** ** The quiz list of a course ([core/views_quiz.py]) *)

(** [order_by("id")]; keys are unique, so [order_by("-id")] is the reverse. *)
Fixpoint insert_by_id {A} (key : A → pk) (x : A) (l : list A) : list A :=
  match l with
  | [] => [x]
  | y :: rest =>
      if (key x <=? key y)%positive then x :: l
      else y :: insert_by_id key x rest
  end.

Definition order_by_id {A} (key : A → pk) (l : list A) : list A :=
  fold_right (insert_by_id key) [] l.

(** A quiz of the list with the attributes the view attaches to it. *)
Record QuizRow := {
  row_quiz : Quiz;
  used_attempts : N;
  allowed_attempts : N;
  attempts_left : Z;
  recent_attempts : list QuizAttempt;
  last_score : option Float.float;
  last_passed : option bool;
}.

(** The body of the loop over the quizzes. *)
Definition quiz_row (user : pk) (db : DB) (q : Quiz) : QuizRow :=
  let used := attempts_used q user db in
  let allowed := or_1 (attempts_allowed q) in
  let recent :=
    take 5
      (rev (order_by_id attempt_id
              (filter (λ a, quiz_id (attempt_quiz a) = quiz_id q
                            ∧ attempt_user a = user)
                      (attempts db)))) in
  {| row_quiz := q;
     used_attempts := used;
     allowed_attempts := allowed;
     attempts_left := Z.max 0 (Z.of_N allowed - Z.of_N used);
     recent_attempts := recent;
     last_score := match recent with a :: _ => score a | [] => None end;
     last_passed :=
       match recent with a :: _ => Some (passed a) | [] => None end |}.

(** [quiz_list_for_course]: the context of the page (course, quizzes,
    manage mode); [None] is the 404.  [manage] is the query parameter. *)
Definition quiz_list_for_course (request : Request) (manage : option string)
    (course_id : pk) (db : DB) : option (pk * list QuizRow * bool) :=
  course ← List.find (λ c, bool_decide (c = course_id)) (courses db);
  let quizzes :=
    order_by_id quiz_id
      (filter (λ q, quiz_course q = course ∧ quiz_active q = true)
              (quizzes db)) in
  Some (course,
        map (quiz_row (user_id (request_user request)) db) quizzes,
        bool_decide (manage = Some "1"%string)).

(** ** The admin action on attempts ([core/admin.py]) *)

(** The loop of [admin_grade_attempts] from the [i]-th selected attempt on;
    [clock i] holds the two clock readings of the [i]-th grading and
    [graded] is the counter. *)
Fixpoint admin_grade_loop (queryset : list QuizAttempt)
    (clock : nat → datetime * datetime) (i graded : nat) (db : DB)
    : option (nat * DB) :=
  match queryset with
  | [] => Some (graded, db)
  | attempt :: rest =>
      '(_, db) ← grade_attempt attempt (clock i).1 (clock i).2 db;
      admin_grade_loop rest clock (S i) (graded + 1) db
  end.

(** [admin_grade_attempts]: the number the message reports and the
    database afterwards. *)
Definition admin_grade_attempts (queryset : list QuizAttempt)
    (clock : nat → datetime * datetime) (db : DB) : option (nat * DB) :=
  admin_grade_loop queryset clock 0 0 db.

(** * Worked inputs *)

Module Example.

(** The counters of a database that has not assigned a key yet. *)
Definition no_keys : Sequences :=
  {| seq_departments := 0; seq_questions := 0; seq_choices := 0;
     seq_attempts := 0 |}.

Definition empty_db : DB :=
  {| users := []; departments := []; courses := []; rules := [];
     materials := []; material_progress := []; enrollments := ∅;
     quizzes := []; questions := []; choices := []; attempts := [];
     answers := []; sequences := no_keys |}.

(** A quiz whose questions weigh 1, 2 and 3 points. *)
Definition quiz_at (pass : N) : Quiz :=
  {| quiz_id := 1; quiz_course := 1; pass_score := pass;
     attempts_allowed := 1; quiz_active := true |}.

Definition q1 : Question :=
  {| question_id := 1; question_quiz := 1;
     question_type := Kind.MULTIPLE; points := 1 |}.
Definition q2 : Question :=
  {| question_id := 2; question_quiz := 1;
     question_type := Kind.TRUE_FALSE; points := 2 |}.
Definition q3 : Question :=
  {| question_id := 3; question_quiz := 1;
     question_type := Kind.MULTIPLE; points := 3 |}.

Definition right (q : pk) (c : pk) : Choice :=
  {| choice_id := c; choice_question := q; is_correct := true |}.
Definition wrong (q : pk) (c : pk) : Choice :=
  {| choice_id := c; choice_question := q; is_correct := false |}.

Definition attempt_at (pass : N) : QuizAttempt :=
  {| attempt_id := 1; attempt_quiz := quiz_at pass; attempt_user := 1;
     finished_at := None; score := None; passed := false |}.

(** The 1-point and 2-point questions answered correctly, the 3-point one
    wrongly. *)
Definition db_at (pass : N) (enr : gmap (pk * pk) Enrollment) : DB :=
  {| users := []; departments := []; courses := [1%positive]; rules := [];
     materials := []; material_progress := []; enrollments := enr;
     quizzes := [quiz_at pass]; questions := [q1; q2; q3];
     choices := [right 1 1; wrong 1 2; right 2 3; wrong 2 4;
                 right 3 5; wrong 3 6];
     attempts := [attempt_at pass];
     answers :=
       [ {| answer_attempt := 1; answer_question := q1;
            selected_choice := Some (right 1 1) |};
         {| answer_attempt := 1; answer_question := q2;
            selected_choice := Some (right 2 3) |};
         {| answer_attempt := 1; answer_question := q3;
            selected_choice := Some (wrong 3 6) |} ];
     sequences :=
       {| seq_departments := 0; seq_questions := 3; seq_choices := 6;
          seq_attempts := 1 |} |}.

(** Pass score 60, nobody enrolled. *)
Definition quiz : Quiz := quiz_at 60.
Definition attempt : QuizAttempt := attempt_at 60.
Definition graded_db : DB := db_at 60 ∅.

(** The same attempt with a wrong choice for question 1, nothing selected
    for question 2 and a wrong choice for question 3. *)
Definition missed_db : DB :=
  set_answers
    [ {| answer_attempt := 1; answer_question := q1;
         selected_choice := Some (wrong 1 2) |};
      {| answer_attempt := 1; answer_question := q2;
         selected_choice := None |};
      {| answer_attempt := 1; answer_question := q3;
         selected_choice := Some (wrong 3 6) |} ]
    graded_db.

(** The same attempt with the right choice for every question. *)
Definition full_db : DB :=
  set_answers
    [ {| answer_attempt := 1; answer_question := q1;
         selected_choice := Some (right 1 1) |};
      {| answer_attempt := 1; answer_question := q2;
         selected_choice := Some (right 2 3) |};
      {| answer_attempt := 1; answer_question := q3;
         selected_choice := Some (right 3 5) |} ]
    graded_db.

(** A quiz without questions, and an attempt at it. *)
Definition bare_quiz : Quiz :=
  {| quiz_id := 2; quiz_course := 1; pass_score := 70;
     attempts_allowed := 1; quiz_active := true |}.

Definition bare_attempt : QuizAttempt :=
  {| attempt_id := 2; attempt_quiz := bare_quiz; attempt_user := 1;
     finished_at := None; score := None; passed := false |}.

(** The quiz without questions and the attempt at it, which has no answer. *)
Definition bare_db : DB :=
  {| users := []; departments := []; courses := [1%positive]; rules := [];
     materials := []; material_progress := []; enrollments := ∅;
     quizzes := [bare_quiz]; questions := []; choices := [];
     attempts := [bare_attempt]; answers := [];
     sequences :=
       {| seq_departments := 0; seq_questions := 0; seq_choices := 0;
          seq_attempts := 2 |} |}.

(** Both quizzes; the attempt at the quiz without questions has an answer
    row for the 3-point question of the other quiz, with the right choice
    selected. *)
Definition stray_db : DB :=
  {| users := []; departments := []; courses := [1%positive]; rules := [];
     materials := []; material_progress := []; enrollments := ∅;
     quizzes := [quiz_at 60; bare_quiz]; questions := [q1; q2; q3];
     choices := [right 1 1; wrong 1 2; right 2 3; wrong 2 4;
                 right 3 5; wrong 3 6];
     attempts := [bare_attempt];
     answers :=
       [ {| answer_attempt := 2; answer_question := q3;
            selected_choice := Some (right 3 5) |} ];
     sequences :=
       {| seq_departments := 0; seq_questions := 3; seq_choices := 6;
          seq_attempts := 2 |} |}.

End Example.

Module ExampleCompleted.

(** User 1 completed course 1 at time 3. *)
Definition enrollment : Enrollment :=
  set_completed_at (Some 3)
    (set_progress 100 (set_status Status.COMPLETED Enrollment_defaults)).

(** The quiz of [Example] with pass score 50, which the attempt reaches. *)
Definition db : DB :=
  Example.db_at 50 {[ (1%positive, 1%positive) := enrollment ]}.

Definition fresh_db : DB :=
  Example.db_at 50 {[ (1%positive, 1%positive) := Enrollment_defaults ]}.

End ExampleCompleted.

Module ExampleOverdue.

(** An enrollment of user 1 in course 1, due on day 10; the course has no
    material. *)
Definition enrollment : Enrollment := set_due_date (Some 10) Enrollment_defaults.

Definition db : DB :=
  set_enrollments {[ (1%positive, 1%positive) := enrollment ]} Example.empty_db.

(** A clock reading on day 20. *)
Definition now : datetime := 20 * 86400000000.

End ExampleOverdue.

Module Example300.

Definition material (i : nat) : CourseMaterial :=
  {| material_id := Pos.of_nat i; material_course := 1 |}.

Definition done (i : nat) : MaterialProgress :=
  {| mp_user := 1; mp_material := material i; is_completed := true |}.

(** Course 1 with 300 materials, 299 of them completed by user 1, who has
    no enrollment row yet. *)
Definition db : DB :=
  {| users := []; departments := []; courses := [1%positive]; rules := [];
     materials := map material (seq 1 300);
     material_progress := map done (seq 1 299);
     enrollments := ∅; quizzes := []; questions := []; choices := [];
     attempts := []; answers := []; sequences := Example.no_keys |}.

End Example300.

Module ExampleSession.

Definition learner : User :=
  {| user_id := 7; is_superuser := false;
     profile := Some {| department := None; role := ROLE_LEARNER |} |}.

Definition admin : User :=
  {| user_id := 1; is_superuser := true; profile := None |}.

Definition request : AuthRequest :=
  {| user := Some learner;
     session := {| impersonator_id := None; is_impersonating := None;
                   auth_user_id := Some 7%positive |} |}.

End ExampleSession.

Module ExampleLimit.

(** The quiz of [Example] allows one attempt, and user 1 has used it. *)
Definition db : DB := Example.graded_db.

Definition learner : User :=
  {| user_id := 1; is_superuser := false;
     profile := Some {| department := None; role := ROLE_LEARNER |} |}.

Definition post : Request :=
  {| request_user := learner; method := POST; post_choice := λ _, None |}.

End ExampleLimit.

Module ExampleBulk.

Definition admin : User :=
  {| user_id := 1; is_superuser := true; profile := None |}.

Definition learner : User :=
  {| user_id := 2; is_superuser := false;
     profile := Some {| department := Some 1%positive;
                        role := ROLE_LEARNER |} |}.

(** Department 1 with one learner, course 1, nobody enrolled. *)
Definition db : DB :=
  {| users := [admin; learner]; departments := [1%positive];
     courses := [1%positive]; rules := []; materials := [];
     material_progress := []; enrollments := ∅; quizzes := [];
     questions := []; choices := []; attempts := []; answers := [];
     sequences := set_seq_departments 1 Example.no_keys |}.

(** The bulk form posted by the admin with initial progress 100. *)
Definition bulk_form : views.Form :=
  {| views.form_user := admin; views.form_method := POST;
     views.post_user_id := views.Absent;
     views.post_course_id := views.Absent;
     views.post_progress := views.Absent;
     views.post_department_id := Some 1;
     views.post_initial_progress := Some 100 |}.

(** The single-enrollment form posted with progress 100. *)
Definition create_form : views.Form :=
  {| views.form_user := admin; views.form_method := POST;
     views.post_user_id := views.IntText 2;
     views.post_course_id := views.IntText 1;
     views.post_progress := views.IntText 100;
     views.post_department_id := None;
     views.post_initial_progress := None |}.

End ExampleBulk.

Module ExampleRules.

Definition newcomer : User :=
  {| user_id := 5; is_superuser := false;
     profile := Some {| department := None; role := ROLE_LEARNER |} |}.

(** A rule for everybody: course 9, due in [days] days. *)
Definition rule (days : option N) : CourseAssignmentRule :=
  {| rule_department := None; rule_role := None; rule_course := 9;
     due_in_days := days; rule_required := true; active := true |}.

Definition db (days : option N) : DB :=
  {| users := [newcomer]; departments := []; courses := [9%positive];
     rules := [rule days]; materials := []; material_progress := [];
     enrollments := ∅; quizzes := []; questions := []; choices := [];
     attempts := []; answers := []; sequences := Example.no_keys |}.

(** A clock reading on day 20. *)
Definition now : datetime := 20 * 86400000000 + 17.

End ExampleRules.

Module ExampleHalf.

Definition material (i : pk) : CourseMaterial :=
  {| material_id := i; material_course := 1 |}.

Definition done (i : pk) : MaterialProgress :=
  {| mp_user := 1; mp_material := material i; is_completed := true |}.

(** Course 1 with four materials, two of them completed by user 1; user 1
    passes the quiz of the course (pass score 50) and is enrolled. *)
Definition db : DB :=
  set_material_progress [done 1; done 2]
    (set_materials [material 1; material 2; material 3; material 4]
       ExampleCompleted.fresh_db).

(** The same course with every material completed and a due date (day 10)
    that has passed on day 20. *)
Definition all_done_db : DB :=
  set_material_progress [done 1; done 2; done 3; done 4]
    (set_enrollments
       {[ (1%positive, 1%positive) := ExampleOverdue.enrollment ]} db).

End ExampleHalf.

Module ExampleTake.

(** The quiz of [Example] with pass score 50, before anybody has attempted
    a quiz. *)
Definition db : DB :=
  set_sequences
    {| seq_departments := 0; seq_questions := 3; seq_choices := 6;
       seq_attempts := 0 |}
    (set_answers [] (set_attempts [] (Example.db_at 50 ∅))).

(** User 1 posts the right choice for question 1, the right choice of
    question 2 under the field of question 3, and nothing for question 2. *)
Definition post : Request :=
  {| request_user := ExampleLimit.learner; method := POST;
     post_choice := λ q, if decide (q = 1%positive) then Some 1
                         else if decide (q = 3%positive) then Some 3
                         else None |}.

Definition get : Request :=
  {| request_user := ExampleLimit.learner; method := GET;
     post_choice := λ _, None |}.

(** The database after the POST, and the answer to question 1 stored in
    it. *)
Definition taken : DB :=
  default Example.empty_db (snd <$> quiz_take post 1 8 9 db).

Definition first_answer : QuizAnswer :=
  {| answer_attempt := 1; answer_question := Example.q1;
     selected_choice := Some (Example.right 1 1) |}.

End ExampleTake.

Module ExampleSignal.

(** A user row just saved, without profile. *)
Definition newcomer : User :=
  {| user_id := 5; is_superuser := false; profile := None |}.

(** An active rule for department 3 and course 8, and one for everybody
    and course 9. *)
Definition department_rule : CourseAssignmentRule :=
  {| rule_department := Some 3%positive; rule_role := None; rule_course := 8;
     due_in_days := None; rule_required := true; active := true |}.

Definition db : DB :=
  {| users := [newcomer]; departments := [3%positive];
     courses := [8%positive; 9%positive];
     rules := [department_rule; ExampleRules.rule (Some 7%N)];
     materials := []; material_progress := []; enrollments := ∅;
     quizzes := []; questions := []; choices := []; attempts := [];
     answers := []; sequences := set_seq_departments 3 Example.no_keys |}.

End ExampleSignal.

Module ExampleDepartment.

Definition member (i : pk) : User :=
  {| user_id := i; is_superuser := false;
     profile := Some {| department := Some 1%positive;
                        role := ROLE_LEARNER |} |}.

Definition manager : User :=
  {| user_id := 10; is_superuser := false;
     profile := Some {| department := Some 2%positive;
                        role := ROLE_MANAGER |} |}.

(** Department 1 has five members, three of them already enrolled in
    course 1; the manager belongs to department 2. *)
Definition db : DB :=
  {| users := [member 1; member 2; member 3; member 4; member 5; manager];
     departments := [1%positive; 2%positive];
     courses := [1%positive]; rules := []; materials := [];
     material_progress := [];
     enrollments :=
       {[ (1%positive, 1%positive) := Enrollment_defaults;
          (2%positive, 1%positive) := Enrollment_defaults;
          (3%positive, 1%positive) := Enrollment_defaults ]};
     quizzes := []; questions := []; choices := []; attempts := [];
     answers := []; sequences := set_seq_departments 2 Example.no_keys |}.

(** The bulk form for department 1, posted with initial progress 250. *)
Definition form (u : User) : views.Form :=
  {| views.form_user := u; views.form_method := POST;
     views.post_user_id := views.Absent;
     views.post_course_id := views.Absent;
     views.post_progress := views.Absent;
     views.post_department_id := Some 1;
     views.post_initial_progress := Some 250 |}.

End ExampleDepartment.

Module ExampleImpersonation.

Definition role_admin : User :=
  {| user_id := 3; is_superuser := false;
     profile := Some {| department := None; role := ROLE_ADMIN |} |}.

Definition table : list User :=
  [ExampleSession.admin; role_admin; ExampleSession.learner].

(** A request of [u], not impersonating. *)
Definition request_of (u : User) : AuthRequest :=
  {| user := Some u;
     session := {| impersonator_id := None; is_impersonating := None;
                   auth_user_id := Some (user_id u) |} |}.

(** The learner's session while user 99, who is not in the table, is
    recorded as impersonator. *)
Definition orphaned : AuthRequest :=
  {| user := Some ExampleSession.learner;
     session := {| impersonator_id := Some 99%positive;
                   is_impersonating := Some "1";
                   auth_user_id := Some 7%positive |} |}.

End ExampleImpersonation.

Module ExampleBuilder.

(** [str.strip] on ASCII text. *)
Definition is_space (a : Ascii.ascii) : bool :=
  let n := Ascii.nat_of_ascii a in
  ((9 <=? n) && (n <=? 13) || (28 <=? n) && (n <=? 32))%nat.

Fixpoint lstrip (s : string) : string :=
  match s with
  | EmptyString => EmptyString
  | String a rest => if is_space a then lstrip rest else s
  end.

Definition strip (s : string) : string :=
  String.rev (lstrip (String.rev (lstrip s))).

(** A multiple-choice question with texts for choices 1, 2 and 4, the
    fourth being the correct one. *)
Definition form : forms.QuestionCreateForm :=
  {| forms.question_type := Kind.MULTIPLE;
     forms.text := "2 + 2 = ?";
     forms.points := 5;
     forms.choice1 := "3";
     forms.choice2 := "5";
     forms.choice3 := "";
     forms.choice4 := "4";
     forms.correct_choice := Some 4;
     forms.true_is_correct := false |}.

(** The database of [ExampleTake] without the answers to question 3. *)
Definition db : DB :=
  set_answers
    [ {| answer_attempt := 1; answer_question := Example.q1;
         selected_choice := Some (Example.right 1 1) |} ]
    (Example.db_at 50 ∅).

(** An edit of question 3 that keeps texts for choices 1 and 4 and marks
    the blank choice 2 as the correct one. *)
Definition edit : views_quiz_builder.EditForm :=
  {| views_quiz_builder.edit_points := Some 0;
     views_quiz_builder.edit_choice1 := "7";
     views_quiz_builder.edit_choice2 := " ";
     views_quiz_builder.edit_choice3 := "";
     views_quiz_builder.edit_choice4 := "9";
     views_quiz_builder.edit_correct_choice := Some 2;
     views_quiz_builder.edit_true_is_correct := false |}.

End ExampleBuilder.

(** * Properties *)

(** ** Python number facts *)

Lemma truediv_nonzero a b : b ≠ 0 → Float.truediv a b = Some (Float.nearest a b).
Proof.
  intros Hb. unfold Float.truediv.
  destruct (Z.eqb_spec b 0); [contradiction | reflexivity].
Qed.

Lemma or_1_max x : or_1 x = N.max x 1.
Proof. unfold or_1. destruct (N.eqb_spec x 0); lia. Qed.

Lemma or_1_nonzero x : Z.of_N (or_1 x) ≠ 0.
Proof. rewrite or_1_max. lia. Qed.

Lemma nearest_zero d : Float.nearest 0 d = 0%Q.
Proof. reflexivity. Qed.

Lemma round2_zero : Float.round2 0%Q = 0%Q.
Proof. reflexivity. Qed.

Lemma ge_int_zero (k : N) :
  Float.ge_int 0%Q (Z.of_N k) = bool_decide (0 >= Z.of_N k).
Proof.
  unfold Float.ge_int, Qle_bool. simpl.
  rewrite Z.mul_1_r.
  destruct (Z.leb_spec (Z.of_N k) 0); case_bool_decide; lia.
Qed.

(** ** Grading: the loop against the sums of the specification *)

Lemma sum_points_acc qs acc :
  fold_left (λ a q, (a + points q)%N) qs acc
  = (acc + Spec.sum_N (map points qs))%N.
Proof.
  revert acc. induction qs as [|q qs IH]; intros acc; simpl.
  - lia.
  - rewrite IH. lia.
Qed.

Lemma sum_points_spec qs : sum_points qs = Spec.sum_N (map points qs).
Proof. unfold sum_points. rewrite sum_points_acc. lia. Qed.

Lemma grade_answer_spec acc a :
  grade_answer acc a
  = if decide (Spec.earns_points a)
    then (acc + points (answer_question a))%N else acc.
Proof.
  unfold grade_answer.
  destruct (decide (Spec.earns_points a)) as [[Hk (c & Hc & Hok)]|Hno].
  - rewrite Hc, Hok. destruct Hk as [-> | ->]; reflexivity.
  - destruct (question_type (answer_question a)) eqn:Hk;
      try reflexivity;
      destruct (selected_choice a) as [c|] eqn:Hc; try reflexivity;
      destruct (is_correct c) eqn:Hok; try reflexivity;
      exfalso; apply Hno; split; eauto.
Qed.

Lemma obtained_points_acc answers acc :
  fold_left grade_answer answers acc = (acc + Spec.obtained answers)%N.
Proof.
  revert acc. induction answers as [|a l IH]; intros acc; simpl.
  - unfold Spec.obtained. simpl. lia.
  - rewrite IH, grade_answer_spec. unfold Spec.obtained.
    rewrite filter_cons.
    destruct (decide (Spec.earns_points a)); simpl; lia.
Qed.

Lemma obtained_points_spec answers :
  obtained_points answers = Spec.obtained answers.
Proof. unfold obtained_points. rewrite obtained_points_acc. lia. Qed.

Lemma grade_attempt_eq attempt t1 t2 db :
  attempt_stored attempt db →
  grade_attempt attempt t1 t2 db
  = Some (graded attempt t1 db,
          match enrollments db !! (attempt_user attempt,
                                   quiz_course (attempt_quiz attempt)) with
          | Some enr =>
              if passed (graded attempt t1 db)
              then set_enrollments
                     (<[(attempt_user attempt, quiz_course (attempt_quiz attempt))
                        := mark_completed t2 enr]> (enrollments db))
                     (update_attempt (graded attempt t1 db) db)
              else update_attempt (graded attempt t1 db) db
          | None => update_attempt (graded attempt t1 db) db
          end).
Proof.
  intros Hst. unfold grade_attempt.
  rewrite truediv_nonzero by apply or_1_nonzero.
  cbn [mbind option_bind].
  fold (graded_score attempt db). fold (graded attempt t1 db).
  unfold save_attempt.
  change (attempt_id (graded attempt t1 db)) with (attempt_id attempt).
  rewrite (bool_decide_eq_true_2 _ Hst). cbn [mbind option_bind].
  change (enrollments (update_attempt (graded attempt t1 db) db))
    with (enrollments db).
  change (attempt_user (graded attempt t1 db)) with (attempt_user attempt).
  destruct (enrollments db !! _) as [enr|]; [|reflexivity].
  destruct (passed _); reflexivity.
Qed.

(** Grading an attempt that has no row raises, and only that does. *)
Lemma grade_attempt_unstored attempt t1 t2 db :
  ¬ attempt_stored attempt db → grade_attempt attempt t1 t2 db = None.
Proof.
  intros Hst. unfold grade_attempt.
  rewrite truediv_nonzero by apply or_1_nonzero.
  cbn [mbind option_bind]. unfold save_attempt.
  rewrite bool_decide_eq_false_2 by exact Hst. reflexivity.
Qed.

Lemma grade_attempt_stored attempt t1 t2 db result db' :
  grade_attempt attempt t1 t2 db = Some (result, db') →
  attempt_stored attempt db.
Proof.
  intros Hg. destruct (decide (attempt_stored attempt db)) as [H|H];
    [exact H|].
  rewrite (grade_attempt_unstored _ _ _ _ H) in Hg. discriminate Hg.
Qed.

Lemma grade_attempt_inv attempt t1 t2 db result db' :
  grade_attempt attempt t1 t2 db = Some (result, db') →
  Some (graded attempt t1 db,
        match enrollments db !! (attempt_user attempt,
                                 quiz_course (attempt_quiz attempt)) with
        | Some enr =>
            if passed (graded attempt t1 db)
            then set_enrollments
                   (<[(attempt_user attempt, quiz_course (attempt_quiz attempt))
                      := mark_completed t2 enr]> (enrollments db))
                   (update_attempt (graded attempt t1 db) db)
            else update_attempt (graded attempt t1 db) db
        | None => update_attempt (graded attempt t1 db) db
        end)
  = Some (result, db').
Proof.
  intros Hg. rewrite <- Hg. symmetry. apply grade_attempt_eq.
  exact (grade_attempt_stored _ _ _ _ _ _ Hg).
Qed.

Lemma grade_attempt_result attempt t1 t2 db result db' :
  grade_attempt attempt t1 t2 db = Some (result, db') →
  result = graded attempt t1 db.
Proof. intros H. apply grade_attempt_inv in H. injection H as <- _. reflexivity. Qed.

(** ** C1: the score and the pass flag *)

(** C1, as stated, fails for a quiz without questions: the score is
    computed from the answers of the attempt, and an answer row of the
    attempt for a question of another quiz earns its points.  Here the quiz
    has no question, the attempt is graded 300.0 instead of 0.0 and passes
    the pass score of 70. *)
Lemma grade_attempt_score_stray_answer :
  quiz_questions Example.bare_quiz Example.stray_db = []
  ∧ pass_score Example.bare_quiz = 70%N
  ∧ (r ← grade_attempt Example.bare_attempt 0 0 Example.stray_db;
     Some (score r.1, passed r.1))
    = Some (Some 300%Q, true).
Proof. split; [|split]; vm_compute; reflexivity. Qed.

(** C1 (amended). For an attempt that has a row, [grade_attempt] returns;
    the score it stores is round(100 * obtained / max(total_points, 1), 2),
    with total_points the sum of the points of the quiz's questions and
    obtained the sum of the points of exactly the MULTIPLE / TRUE_FALSE
    answers whose selected choice is correct, and [passed] is
    [score >= pass_score].  When the quiz has no question and the answers of
    the attempt are answers to the quiz's questions, the score is 0.0 and
    [passed] is [0 >= pass_score].  With weights 1, 2, 3 and only the first
    two answered correctly the score is 50.0, which fails a pass score of
    60.  For an attempt without a row the function raises. *)
Theorem grade_attempt_score :
  (∀ attempt t_finished t_completed db,
     attempt_stored attempt db →
     let quiz := attempt_quiz attempt in
     let total_points := Spec.total_points quiz db in
     let obtained := Spec.obtained (attempt_answers attempt db) in
     ∃ x result db',
       Float.truediv (100 * Z.of_N obtained) (Z.of_N (N.max total_points 1))
         = Some x
       ∧ grade_attempt attempt t_finished t_completed db = Some (result, db')
       ∧ score result = Some (Float.round2 x)
       ∧ passed result
         = Float.ge_int (Float.round2 x) (Z.of_N (pass_score quiz))
       ∧ (quiz_questions quiz db = [] →
          (∀ a, a ∈ attempt_answers attempt db →
                answer_question a ∈ quiz_questions quiz db) →
          score result = Some 0%Q
          ∧ passed result = bool_decide (0 >= Z.of_N (pass_score quiz))))
  ∧ (∀ t_finished t_completed,
       ∃ result db',
         grade_attempt Example.attempt t_finished t_completed Example.graded_db
           = Some (result, db')
         ∧ map points (quiz_questions Example.quiz Example.graded_db)
           = [1; 2; 3]%N
         ∧ Spec.obtained (attempt_answers Example.attempt Example.graded_db)
           = 3%N
         ∧ score result = Some 50%Q
         ∧ pass_score Example.quiz = 60%N
         ∧ passed result = false)
  ∧ (∀ attempt t_finished t_completed db,
       ¬ attempt_stored attempt db →
       grade_attempt attempt t_finished t_completed db = None).
Proof.
  split; [|split].
  - intros attempt t1 t2 db Hst quiz total_points obtained.
    rewrite (grade_attempt_eq _ _ _ _ Hst).
    eexists _, _, _. split; [|split; [reflexivity|]].
    { apply truediv_nonzero. lia. }
    assert (Hscore : graded_score attempt db
                     = Float.round2 (Float.nearest (100 * Z.of_N obtained)
                                       (Z.of_N (N.max total_points 1)))).
    { unfold graded_score. rewrite obtained_points_spec, sum_points_spec, or_1_max.
      reflexivity. }
    simpl. rewrite <- Hscore. split; [reflexivity|]. split; [reflexivity|].
    intros Hnoq Hans.
    assert (Hnil : attempt_answers attempt db = []).
    { destruct (attempt_answers attempt db) as [|a l]; [reflexivity|].
      specialize (Hans a (list_elem_of_here a l)).
      fold quiz in Hans. rewrite Hnoq in Hans. inversion Hans. }
    assert (H0 : graded_score attempt db = 0%Q).
    { rewrite Hscore. subst obtained. rewrite Hnil. reflexivity. }
    rewrite H0. split; [reflexivity|]. apply ge_int_zero.
  - intros t1 t2. rewrite grade_attempt_eq by (vm_compute; left).
    eexists _, _. split; [reflexivity|].
    repeat split; vm_compute; reflexivity.
  - intros attempt t1 t2 db. apply grade_attempt_unstored.
Qed.

Lemma grade_attempt_score_witness :
  ∃ result db',
    grade_attempt Example.bare_attempt 0 0 Example.bare_db = Some (result, db')
    ∧ score result = Some 0%Q
    ∧ passed result = false.
Proof.
  destruct (proj1 grade_attempt_score Example.bare_attempt 0 0 Example.bare_db)
    as (x & result & db' & _ & Hrun & _ & _ & Hzero).
  - vm_compute. left.
  - exists result, db'. split; [exact Hrun|].
    apply Hzero.
    + reflexivity.
    + intros a Ha. vm_compute in Ha. inversion Ha.
Defined.

(** ** C8: grading and the enrollment *)

Lemma mark_completed_fields now e :
  status (mark_completed now e) = Status.COMPLETED
  ∧ progress (mark_completed now e) = 100
  ∧ completed_at (mark_completed now e) = Some (default now (completed_at e))
  ∧ due_date (mark_completed now e) = due_date e
  ∧ required (mark_completed now e) = required e
  ∧ auto_enrolled (mark_completed now e) = auto_enrolled e
  ∧ assigned_by (mark_completed now e) = assigned_by e.
Proof. unfold mark_completed. destruct e as [? [t|] ? ? ? ? ?]; simpl; tauto. Qed.

(** C8. For an attempt that has a row, [grade_attempt] returns whether or
    not the learner is enrolled: the attempt gets its score, pass flag and
    [finished_at], and the row of the attempt is saved with them.  Without an
    enrollment for (attempt.user, quiz.course) the enrollment table is left
    as it was, also when the attempt passed; with one and a passed attempt
    the enrollment becomes COMPLETED at 100 and [completed_at] is set only if
    it was null. *)
Theorem grade_attempt_enrollment attempt t_finished t_completed db :
  attempt_stored attempt db →
  let key := (attempt_user attempt, quiz_course (attempt_quiz attempt)) in
  ∃ result db',
    grade_attempt attempt t_finished t_completed db = Some (result, db')
    ∧ is_Some (score result)
    ∧ passed result
      = from_option
          (λ s, Float.ge_int s (Z.of_N (pass_score (attempt_quiz attempt))))
          false (score result)
    ∧ finished_at result = Some t_finished
    ∧ attempts db'
      = map (λ r, if decide (attempt_id r = attempt_id attempt)
                  then result else r) (attempts db)
    ∧ result ∈ attempts db'
    ∧ (enrollments db !! key = None → enrollments db' = enrollments db)
    ∧ (∀ enr, enrollments db !! key = Some enr →
         if passed result then
           ∃ enr',
             enrollments db' = <[key := enr']> (enrollments db)
             ∧ status enr' = Status.COMPLETED
             ∧ progress enr' = 100
             ∧ completed_at enr'
               = Some (default t_completed (completed_at enr))
             ∧ due_date enr' = due_date enr
         else enrollments db' = enrollments db).
Proof.
  intros Hst key. rewrite (grade_attempt_eq _ _ _ _ Hst). fold key.
  eexists _, _. split; [reflexivity|].
  split; [simpl; eauto|]. split; [reflexivity|]. split; [reflexivity|].
  assert (Hrows : attempts
                    match enrollments db !! key with
                    | Some enr =>
                        if passed (graded attempt t_finished db)
                        then set_enrollments
                               (<[key := mark_completed t_completed enr]>
                                  (enrollments db))
                               (update_attempt (graded attempt t_finished db) db)
                        else update_attempt (graded attempt t_finished db) db
                    | None => update_attempt (graded attempt t_finished db) db
                    end
                  = map (λ r, if decide (attempt_id r = attempt_id attempt)
                              then graded attempt t_finished db else r)
                        (attempts db)).
  { destruct (enrollments db !! key) as [enr|];
      [destruct (passed _)|]; reflexivity. }
  split; [exact Hrows|]. split; [|split].
  - rewrite Hrows.
    apply list_elem_of_fmap in Hst as (r & Hid & Hr).
    apply list_elem_of_fmap. exists r. split; [|exact Hr].
    rewrite decide_True by (symmetry; exact Hid). reflexivity.
  - intros ->. reflexivity.
  - intros enr ->.
    destruct (passed (graded attempt t_finished db)); [|reflexivity].
    exists (mark_completed t_completed enr).
    pose proof (mark_completed_fields t_completed enr) as (?&?&?&?&_).
    repeat split; assumption.
Qed.

Lemma grade_attempt_enrollment_witness :
  (∃ result db',
     grade_attempt (Example.attempt_at 50) 5 6 (Example.db_at 50 ∅)
       = Some (result, db')
     ∧ passed result = true
     ∧ result ∈ attempts db'
     ∧ enrollments db' = ∅)
  ∧ (∃ result db',
       grade_attempt (Example.attempt_at 50) 5 6 ExampleCompleted.fresh_db
         = Some (result, db')
       ∧ passed result = true
       ∧ ∃ enr',
           enrollments db'
           = <[(1%positive, 1%positive) := enr']>
               (enrollments ExampleCompleted.fresh_db)
           ∧ status enr' = Status.COMPLETED
           ∧ progress enr' = 100
           ∧ completed_at enr' = Some 6).
Proof.
  split.
  - destruct (grade_attempt_enrollment (Example.attempt_at 50) 5 6
                (Example.db_at 50 ∅))
      as (result & db' & Hrun & _ & _ & _ & _ & Hin & Hnone & _).
    { vm_compute. left. }
    exists result, db'. split; [exact Hrun|].
    split.
    { rewrite (grade_attempt_result _ _ _ _ _ _ Hrun). vm_compute. reflexivity. }
    split; [exact Hin|].
    apply Hnone. vm_compute. reflexivity.
  - destruct (grade_attempt_enrollment (Example.attempt_at 50) 5 6
                ExampleCompleted.fresh_db)
      as (result & db' & Hrun & _ & _ & _ & _ & _ & _ & Hsome).
    { vm_compute. left. }
    assert (Hlook : enrollments ExampleCompleted.fresh_db
                      !! (attempt_user (Example.attempt_at 50),
                          quiz_course (attempt_quiz (Example.attempt_at 50)))
                    = Some Enrollment_defaults)
      by (vm_compute; reflexivity).
    specialize (Hsome Enrollment_defaults Hlook).
    assert (Hpass : passed result = true).
    { rewrite (grade_attempt_result _ _ _ _ _ _ Hrun).
      vm_compute. reflexivity. }
    rewrite Hpass in Hsome.
    destruct Hsome as (enr' & Htbl & Hs & Hp & Hc & _).
    exists result, db'. split; [exact Hrun|]. split; [exact Hpass|].
    exists enr'. repeat split; assumption.
Defined.

(** ** Recomputing an enrollment *)

Lemma compute_percent_eq user course db :
  compute_percent user course db = Some (percent_of user course db).
Proof.
  unfold compute_percent, percent_of.
  destruct (Z.eqb_spec (course_materials_count course db) 0) as [|Hne];
    [reflexivity|].
  rewrite truediv_nonzero by exact Hne. reflexivity.
Qed.

Lemma recompute_eq user course now db :
  recompute_enrollment_progress_for user course now db
  = Some (set_enrollments
            (<[(user, course) :=
                 recomputed (percent_of user course db) now
                   (default Enrollment_defaults
                            (enrollments db !! (user, course)))]>
               (enrollments db))
            db).
Proof.
  unfold recompute_enrollment_progress_for.
  rewrite compute_percent_eq. simpl. unfold get_or_create.
  destruct (enrollments db !! (user, course)) as [e|]; simpl.
  - reflexivity.
  - rewrite insert_insert_eq. reflexivity.
Qed.

Lemma percent_of_set_enrollments user course tbl db :
  percent_of user course (set_enrollments tbl db) = percent_of user course db.
Proof. reflexivity. Qed.

Lemma recomputed_due_date p now e : due_date (recomputed p now e) = due_date e.
Proof.
  unfold recomputed, derive_status.
  destruct e as [pr [t|] st [d|] rq au ab]; simpl;
    repeat (match goal with |- context [if ?b then _ else _] => destruct b end);
    reflexivity.
Qed.

Lemma recomputed_progress p now e : progress (recomputed p now e) = p.
Proof. reflexivity. Qed.

(** The status written, by cases on the percentage and the due date. *)
Lemma recomputed_status p now e :
  status (recomputed p now e)
  = if from_option (λ due, (p <? 100) && (due <? date_of now)) false (due_date e)
    then Status.OVERDUE
    else if p =? 0 then Status.ASSIGNED
    else if p <? 100 then Status.IN_PROGRESS
    else Status.COMPLETED.
Proof.
  unfold recomputed, derive_status.
  destruct e as [pr [t|] st [d|] rq au ab]; simpl;
    repeat (match goal with |- context [if ?b then _ else _] => destruct b end);
    reflexivity.
Qed.

(** [completed_at] is written only in the COMPLETED branch, and only when it
    was null. *)
Lemma recomputed_completed_at p now e :
  completed_at (recomputed p now e)
  = match completed_at e with
    | Some t => Some t
    | None =>
        if from_option (λ due, (p <? 100) && (due <? date_of now)) false
                       (due_date e)
        then None
        else if (p =? 0) || (p <? 100) then None else Some now
    end.
Proof.
  unfold recomputed, derive_status.
  destruct e as [pr [t|] st [d|] rq au ab]; simpl;
    repeat (match goal with |- context [if ?b then _ else _] => destruct b eqn:? end);
    simpl in *; try reflexivity; try discriminate.
Qed.

Lemma recomputed_idem p now now' e :
  date_of now' = date_of now →
  recomputed p now' (recomputed p now e) = recomputed p now e.
Proof.
  intros Hd. unfold recomputed, derive_status. rewrite Hd.
  destruct e as [pr [t|] st [d|] rq au ab]; simpl;
    repeat (match goal with |- context [if ?b then _ else _] => destruct b eqn:? end);
    simpl in *; try reflexivity; try discriminate; try congruence.
Qed.

(** ** C2: a course without materials *)

(** C2, as stated, fails: with no material in the course and a due date in
    the past the status written is OVERDUE, not ASSIGNED. *)
Lemma recompute_without_materials_overdue :
  course_materials_count 1 ExampleOverdue.db = 0
  ∧ (db' ← recompute_enrollment_progress_for 1 1 ExampleOverdue.now
                                              ExampleOverdue.db;
     e ← enrollments db' !! (1%positive, 1%positive);
     Some (progress e, status e))
    = Some (0, Status.OVERDUE)
  ∧ Status.OVERDUE ≠ Status.ASSIGNED.
Proof. split; [|split]; [reflexivity | vm_compute; reflexivity | discriminate]. Qed.

(** C2 (amended). For a course without materials the function returns, the
    enrollment's progress is 0, and its status is OVERDUE when the enrollment
    has a due date before the current date and ASSIGNED otherwise; it is never
    COMPLETED and never IN_PROGRESS. *)
Theorem recompute_without_materials user course now db :
  course_materials_count course db = 0 →
  ∃ db' e,
    recompute_enrollment_progress_for user course now db = Some db'
    ∧ enrollments db' !! (user, course) = Some e
    ∧ progress e = 0
    ∧ status e
      = (if from_option (λ due, due <? date_of now) false
              (enrollments db !! (user, course) ≫= due_date)
         then Status.OVERDUE else Status.ASSIGNED)
    ∧ status e ≠ Status.COMPLETED
    ∧ status e ≠ Status.IN_PROGRESS.
Proof.
  intros Hzero. rewrite recompute_eq.
  eexists _, _. split; [reflexivity|]. simpl.
  split; [apply lookup_insert_eq|].
  assert (Hp : percent_of user course db = 0).
  { unfold percent_of. rewrite Hzero. reflexivity. }
  rewrite Hp, recomputed_status, recomputed_progress.
  split; [reflexivity|].
  assert (Hdue : due_date (default Enrollment_defaults
                                   (enrollments db !! (user, course)))
                 = enrollments db !! (user, course) ≫= due_date).
  { destruct (enrollments db !! (user, course)); reflexivity. }
  rewrite Hdue.
  destruct (enrollments db !! (user, course) ≫= due_date) as [due|]; simpl;
    [destruct (due <? date_of now)|]; repeat split; discriminate.
Qed.

Lemma recompute_without_materials_witness :
  ∃ db' e,
    recompute_enrollment_progress_for 1 1 ExampleOverdue.now Example.empty_db
      = Some db'
    ∧ enrollments db' !! (1%positive, 1%positive) = Some e
    ∧ progress e = 0
    ∧ status e = Status.ASSIGNED.
Proof.
  destruct (recompute_without_materials 1 1 ExampleOverdue.now Example.empty_db)
    as (db' & e & Hrun & Hlook & Hp & Hs & _).
  - reflexivity.
  - exists db', e. repeat split; assumption.
Defined.

(** ** C6: recomputing twice *)

(** C6. The function returns, and calling it again on the database it left,
    with the same material progress and on the same day, leaves every table,
    hence the enrollment's progress, status, due date and [completed_at],
    exactly as the first call did. *)
Theorem recompute_idempotent user course now now' db :
  date_of now' = date_of now →
  ∃ db',
    recompute_enrollment_progress_for user course now db = Some db'
    ∧ material_progress db' = material_progress db
    ∧ recompute_enrollment_progress_for user course now' db' = Some db'.
Proof.
  intros Hd. rewrite recompute_eq. eexists. split; [reflexivity|].
  split; [reflexivity|].
  rewrite recompute_eq. f_equal. simpl.
  rewrite percent_of_set_enrollments, lookup_insert_eq. simpl.
  rewrite recomputed_idem by exact Hd.
  rewrite insert_insert_eq. reflexivity.
Qed.

Lemma recompute_idempotent_witness :
  ∃ db',
    recompute_enrollment_progress_for 1 1 ExampleOverdue.now ExampleOverdue.db
      = Some db'
    ∧ recompute_enrollment_progress_for 1 1 (ExampleOverdue.now + 5) db'
      = Some db'.
Proof.
  destruct (recompute_idempotent 1 1 ExampleOverdue.now (ExampleOverdue.now + 5)
              ExampleOverdue.db) as (db' & Hrun & _ & Hagain).
  - reflexivity.
  - exists db'. split; assumption.
Defined.

(** ** C10: completion before every material is done *)

Lemma percent_299_of_300 : Float.round (Float.nearest (100 * 299) 300) = 100.
Proof. vm_compute. reflexivity. Qed.

(** C10. With 299 of 300 materials completed the function writes progress
    100, status COMPLETED and a completion timestamp, although one material
    is not completed; such a database exists.  COMPLETED therefore does not
    mean that every material of the course is completed. *)
Theorem recompute_completed_before_all_done :
  (∀ user course now db,
     course_materials_count course db = 300 →
     completed_count user course db = 299 →
     ∃ db' e,
       recompute_enrollment_progress_for user course now db = Some db'
       ∧ enrollments db' !! (user, course) = Some e
       ∧ progress e = 100
       ∧ status e = Status.COMPLETED
       ∧ is_Some (completed_at e))
  ∧ (∃ user course now db db' e,
       completed_count user course db < course_materials_count course db
       ∧ recompute_enrollment_progress_for user course now db = Some db'
       ∧ enrollments db' !! (user, course) = Some e
       ∧ progress e = 100
       ∧ status e = Status.COMPLETED
       ∧ completed_at e = Some now).
Proof.
  assert (Hp : ∀ user course db,
             course_materials_count course db = 300 →
             completed_count user course db = 299 →
             percent_of user course db = 100).
  { intros user course db Ht Hd. unfold percent_of. rewrite Ht, Hd.
    exact percent_299_of_300. }
  split.
  - intros user course now db Ht Hd. rewrite recompute_eq.
    eexists _, _. split; [reflexivity|]. simpl.
    split; [apply lookup_insert_eq|].
    rewrite (Hp _ _ _ Ht Hd).
    rewrite recomputed_status, recomputed_completed_at, recomputed_progress.
    split; [reflexivity|].
    destruct (due_date _); simpl; (split; [reflexivity|]);
      destruct (completed_at _); eauto.
  - exists 1%positive, 1%positive, 7, Example300.db.
    assert (Ht : course_materials_count 1 Example300.db = 300)
      by (vm_compute; reflexivity).
    assert (Hd : completed_count 1 1 Example300.db = 299)
      by (vm_compute; reflexivity).
    rewrite recompute_eq. eexists _, _.
    split; [rewrite Ht, Hd; lia|].
    split; [reflexivity|]. simpl. split; [apply lookup_insert_eq|].
    rewrite (Hp _ _ _ Ht Hd). repeat split.
Qed.

Lemma recompute_completed_before_all_done_witness :
  ∃ db' e,
    recompute_enrollment_progress_for 1 1 7 Example300.db = Some db'
    ∧ enrollments db' !! (1%positive, 1%positive) = Some e
    ∧ progress e = 100
    ∧ status e = Status.COMPLETED
    ∧ is_Some (completed_at e).
Proof.
  apply (proj1 recompute_completed_before_all_done 1%positive 1%positive 7
               Example300.db); vm_compute; reflexivity.
Defined.

(** ** C5: [completed_at] is written once *)

Lemma step_total op db :
  grades_stored [op] db → is_Some (step op db).
Proof.
  intros Hst.
  destruct op as [u c now | a t1 t2 | rows | rows]; simpl.
  - rewrite recompute_eq. eauto.
  - rewrite grade_attempt_eq by (apply (Hst a t1 t2); left). simpl. eauto.
  - eauto.
  - eauto.
Qed.

(** No operation adds or removes an attempt row. *)
Lemma step_attempt_ids op db db' :
  step op db = Some db' →
  map attempt_id (attempts db') = map attempt_id (attempts db).
Proof.
  destruct op as [u c now | a t1 t2 | rows | rows]; simpl; intros Hstep.
  - rewrite recompute_eq in Hstep. injection Hstep as <-. reflexivity.
  - destruct (grade_attempt a t1 t2 db) as [[result db1]|] eqn:Hg;
      [|discriminate]. simpl in Hstep. injection Hstep as <-.
    apply grade_attempt_inv in Hg. injection Hg as _ <-.
    assert (Hids : map attempt_id (attempts (update_attempt (graded a t1 db) db))
                   = map attempt_id (attempts db)).
    { cbn [attempts update_attempt set_attempts]. rewrite map_map.
      apply map_ext. intros r. destruct (decide _) as [He|]; [|reflexivity].
      symmetry. exact He. }
    destruct (enrollments db !! _) as [enr|];
      [destruct (Float.ge_int _ _)|]; exact Hids.
  - injection Hstep as <-. reflexivity.
  - injection Hstep as <-. reflexivity.
Qed.

Lemma step_keeps_completed_at op db db' key e t :
  step op db = Some db' →
  enrollments db !! key = Some e →
  completed_at e = Some t →
  ∃ e', enrollments db' !! key = Some e' ∧ completed_at e' = Some t.
Proof.
  intros Hstep Hlook Ht.
  destruct op as [u c now | a t1 t2 | rows | rows]; simpl in Hstep.
  - rewrite recompute_eq in Hstep. injection Hstep as <-. simpl.
    destruct (decide ((u, c) = key)) as [->|Hne].
    + rewrite lookup_insert_eq, Hlook. simpl. eexists. split; [reflexivity|].
      rewrite recomputed_completed_at, Ht. reflexivity.
    + rewrite lookup_insert_ne by exact Hne. eauto.
  - destruct (grade_attempt a t1 t2 db) as [[result db1]|] eqn:Hg;
      [|discriminate]. simpl in Hstep. injection Hstep as <-.
    apply grade_attempt_inv in Hg. injection Hg as _ <-.
    set (k := (attempt_user a, quiz_course (attempt_quiz a))).
    destruct (enrollments db !! k) as [enr|] eqn:Hk; [|simpl; eauto].
    destruct (Float.ge_int _ _); [|simpl; eauto]. simpl.
    destruct (decide (k = key)) as [<-|Hne].
    + rewrite lookup_insert_eq. eexists. split; [reflexivity|].
      assert (enr = e) as -> by congruence.
      pose proof (mark_completed_fields t2 e) as (_ & _ & Hc & _).
      rewrite Hc, Ht. reflexivity.
    + rewrite lookup_insert_ne by exact Hne. eauto.
  - injection Hstep as <-. simpl. eauto.
  - injection Hstep as <-. simpl. eauto.
Qed.

(** When a step turns a null [completed_at] into a timestamp, that timestamp
    is the step's own clock reading and the row it wrote is COMPLETED at 100
    percent or more. *)
Lemma step_first_completion op db db' key e' t :
  step op db = Some db' →
  enrollments db !! key ≫= completed_at = None →
  enrollments db' !! key = Some e' →
  completed_at e' = Some t →
  completion_time op = Some t
  ∧ status e' = Status.COMPLETED
  ∧ 100 <= progress e'.
Proof.
  intros Hstep Hnull Hlook Ht.
  destruct op as [u c now | a t1 t2 | rows | rows]; simpl in Hstep.
  - rewrite recompute_eq in Hstep. injection Hstep as <-. simpl in Hlook.
    destruct (decide ((u, c) = key)) as [<-|Hne].
    + rewrite lookup_insert_eq in Hlook. injection Hlook as <-.
      rewrite recomputed_completed_at in Ht.
      rewrite recomputed_status, recomputed_progress. simpl.
      assert (Hc : completed_at (default Enrollment_defaults
                                         (enrollments db !! (u, c))) = None).
      { destruct (enrollments db !! (u, c)); [exact Hnull | reflexivity]. }
      rewrite Hc in Ht.
      destruct (from_option _ false _); [discriminate|].
      destruct (Z.eqb_spec (percent_of u c db) 0); [discriminate|].
      destruct (Z.ltb_spec (percent_of u c db) 100); [discriminate|].
      simpl in Ht. split; [congruence|]. split; [reflexivity | lia].
    + rewrite lookup_insert_ne in Hlook by exact Hne.
      rewrite Hlook in Hnull. simpl in Hnull. congruence.
  - destruct (grade_attempt a t1 t2 db) as [[result db1]|] eqn:Hg;
      [|discriminate]. simpl in Hstep. injection Hstep as <-.
    apply grade_attempt_inv in Hg. injection Hg as _ <-.
    set (k := (attempt_user a, quiz_course (attempt_quiz a))) in *.
    assert (Hsame : enrollments db !! key = Some e' → False).
    { intros H. rewrite H in Hnull. simpl in Hnull. congruence. }
    destruct (enrollments db !! k) as [enr|] eqn:Hk;
      [|simpl in Hlook; tauto].
    destruct (Float.ge_int _ _); [|simpl in Hlook; tauto].
    simpl in Hlook.
    destruct (decide (k = key)) as [<-|Hne].
    + rewrite lookup_insert_eq in Hlook. injection Hlook as <-.
      pose proof (mark_completed_fields t2 enr) as (Hs & Hp & Hc & _).
      rewrite Hk in Hnull. simpl in Hnull.
      rewrite Hc, Hnull in Ht. simpl in Ht.
      rewrite Hs, Hp. split; [simpl; congruence|]. split; [reflexivity | lia].
    + rewrite lookup_insert_ne in Hlook by exact Hne. tauto.
  - injection Hstep as <-. simpl in Hlook.
    rewrite Hlook in Hnull. simpl in Hnull. congruence.
  - injection Hstep as <-. simpl in Hlook.
    rewrite Hlook in Hnull. simpl in Hnull. congruence.
Qed.

(** A recomputation that finds 100 percent or more and a null
    [completed_at] writes its clock reading. *)
Lemma recompute_writes_completed_at user course now db :
  100 <= percent_of user course db →
  enrollments db !! (user, course) ≫= completed_at = None →
  ∃ db' e',
    step (Recompute user course now) db = Some db'
    ∧ enrollments db' !! (user, course) = Some e'
    ∧ completed_at e' = Some now
    ∧ status e' = Status.COMPLETED
    ∧ progress e' = percent_of user course db.
Proof.
  intros Hp Hnull. cbn [step]. rewrite recompute_eq.
  eexists _, _. split; [reflexivity|].
  cbn [enrollments set_enrollments].
  split; [apply lookup_insert_eq|].
  rewrite recomputed_completed_at, recomputed_status, recomputed_progress.
  assert (Hc : completed_at (default Enrollment_defaults
                                     (enrollments db !! (user, course))) = None).
  { destruct (enrollments db !! (user, course)); [exact Hnull | reflexivity]. }
  rewrite Hc.
  destruct (Z.ltb_spec (percent_of user course db) 100); [lia|].
  destruct (Z.eqb_spec (percent_of user course db) 0); [lia|].
  destruct (due_date _); cbn; repeat split.
Qed.

(** A passed attempt of an enrolled learner whose [completed_at] is null
    writes the clock reading of the completion. *)
Lemma grade_writes_completed_at a t1 t2 db enr :
  attempt_stored a db →
  passed (graded a t1 db) = true →
  enrollments db !! (attempt_user a, quiz_course (attempt_quiz a)) = Some enr →
  completed_at enr = None →
  ∃ db' e',
    step (Grade a t1 t2) db = Some db'
    ∧ enrollments db' !! (attempt_user a, quiz_course (attempt_quiz a))
      = Some e'
    ∧ completed_at e' = Some t2
    ∧ status e' = Status.COMPLETED
    ∧ progress e' = 100.
Proof.
  intros Hst Hpass Hlook Hnull. cbn [step].
  rewrite (grade_attempt_eq _ _ _ _ Hst), Hlook, Hpass.
  eexists _, _. split; [reflexivity|].
  cbn [snd enrollments set_enrollments].
  split; [apply lookup_insert_eq|].
  pose proof (mark_completed_fields t2 enr) as (Hs & Hp & Hc & _).
  rewrite Hc, Hnull. repeat split; assumption.
Qed.

(** C5. Any sequence of recomputations and gradings of stored attempts, with
    arbitrary writes to the materials and to the material progress in
    between, runs to the end and leaves a [completed_at] that was set
    exactly as it was.  [completed_at] is written on the first transition to
    100 percent: a recomputation that finds 100 percent or more, and a
    passed attempt of an enrolled learner, write their own clock reading
    into a null [completed_at]; and a step that sets a null [completed_at]
    stores its own clock reading and leaves the enrollment COMPLETED with
    progress at 100 or above. *)
Theorem completed_at_write_once :
  (∀ ops db key e t,
     grades_stored ops db →
     enrollments db !! key = Some e →
     completed_at e = Some t →
     ∃ db' e',
       run ops db = Some db'
       ∧ enrollments db' !! key = Some e'
       ∧ completed_at e' = Some t)
  ∧ (∀ op db db' key e' t,
       step op db = Some db' →
       enrollments db !! key ≫= completed_at = None →
       enrollments db' !! key = Some e' →
       completed_at e' = Some t →
       completion_time op = Some t
       ∧ status e' = Status.COMPLETED
       ∧ 100 <= progress e')
  ∧ (∀ user course now db,
       100 <= percent_of user course db →
       enrollments db !! (user, course) ≫= completed_at = None →
       ∃ db' e',
         step (Recompute user course now) db = Some db'
         ∧ enrollments db' !! (user, course) = Some e'
         ∧ completed_at e' = Some now
         ∧ status e' = Status.COMPLETED
         ∧ progress e' = percent_of user course db)
  ∧ (∀ a t_finished t_completed db enr,
       attempt_stored a db →
       passed (graded a t_finished db) = true →
       enrollments db !! (attempt_user a, quiz_course (attempt_quiz a))
         = Some enr →
       completed_at enr = None →
       ∃ db' e',
         step (Grade a t_finished t_completed) db = Some db'
         ∧ enrollments db' !! (attempt_user a, quiz_course (attempt_quiz a))
           = Some e'
         ∧ completed_at e' = Some t_completed
         ∧ status e' = Status.COMPLETED
         ∧ progress e' = 100).
Proof.
  split; [|split; [exact step_first_completion|
           split; [exact recompute_writes_completed_at
                  |exact grade_writes_completed_at]]].
  induction ops as [|op ops IH]; intros db key e t Hst Hlook Ht; simpl.
  - eauto.
  - destruct (step_total op db) as [db1 Hstep].
    { intros a t1 t2 Ha. apply list_elem_of_singleton in Ha.
      apply (Hst a t1 t2). rewrite Ha. left. }
    rewrite Hstep. simpl.
    destruct (step_keeps_completed_at _ _ _ _ _ _ Hstep Hlook Ht)
      as (e1 & Hlook1 & Ht1).
    apply (IH db1 key e1 t); [|exact Hlook1|exact Ht1].
    intros a t1 t2 Ha. unfold attempt_stored.
    rewrite (step_attempt_ids _ _ _ Hstep).
    apply (Hst a t1 t2). right. exact Ha.
Qed.

Lemma completed_at_write_once_witness :
  (∃ db' e',
     run [WriteMaterials []; Recompute 1 1 7; Grade (Example.attempt_at 50) 8 9]
         ExampleCompleted.db = Some db'
     ∧ enrollments db' !! (1%positive, 1%positive) = Some e'
     ∧ completed_at e' = Some 3)
  ∧ (completion_time (Grade (Example.attempt_at 50) 8 9) = Some 9
     ∧ status (mark_completed 9 Enrollment_defaults) = Status.COMPLETED
     ∧ 100 <= progress (mark_completed 9 Enrollment_defaults))
  ∧ (∃ db' e',
       step (Recompute 1 1 7) Example300.db = Some db'
       ∧ enrollments db' !! (1%positive, 1%positive) = Some e'
       ∧ completed_at e' = Some 7
       ∧ status e' = Status.COMPLETED
       ∧ progress e' = percent_of 1 1 Example300.db)
  ∧ (∃ db' e',
       step (Grade (Example.attempt_at 50) 8 9) ExampleCompleted.fresh_db
       = Some db'
       ∧ enrollments db' !! (1%positive, 1%positive) = Some e'
       ∧ completed_at e' = Some 9
       ∧ status e' = Status.COMPLETED
       ∧ progress e' = 100).
Proof.
  split; [|split; [|split]].
  - apply (proj1 completed_at_write_once _ ExampleCompleted.db
                 (1%positive, 1%positive) ExampleCompleted.enrollment 3).
    + intros a t1 t2 Ha.
      repeat (apply elem_of_cons in Ha as [Ha|Ha]; [try discriminate Ha|]).
      * injection Ha as -> _ _. vm_compute. left.
      * inversion Ha.
    + vm_compute. reflexivity.
    + vm_compute. reflexivity.
  - apply (proj1 (proj2 completed_at_write_once)
                 (Grade (Example.attempt_at 50) 8 9)
                 ExampleCompleted.fresh_db
                 (set_enrollments
                    {[ (1%positive, 1%positive)
                       := mark_completed 9 Enrollment_defaults ]}
                    (update_attempt
                       (graded (Example.attempt_at 50) 8
                               ExampleCompleted.fresh_db)
                       ExampleCompleted.fresh_db))
                 (1%positive, 1%positive)
                 (mark_completed 9 Enrollment_defaults) 9);
      vm_compute; reflexivity.
  - apply (proj1 (proj2 (proj2 completed_at_write_once)) 1%positive 1%positive
                 7 Example300.db); vm_compute; [discriminate | reflexivity].
  - apply (proj2 (proj2 (proj2 completed_at_write_once))
                 (Example.attempt_at 50) 8 9 ExampleCompleted.fresh_db
                 Enrollment_defaults).
    + vm_compute. left.
    + vm_compute. reflexivity.
    + vm_compute. reflexivity.
    + reflexivity.
Defined.

(** ** C9: impersonation by a non-admin *)

Lemma extra_views_is_admin_spec u :
  extra_views._is_admin u = true ↔ Spec.resolves_to_admin u.
Proof.
  unfold extra_views._is_admin, extra_views._role_of, Spec.resolves_to_admin.
  rewrite orb_true_iff, bool_decide_eq_true. split.
  - intros [Hs | Hr]; [left; exact Hs|].
    destruct (profile u) as [p|]; [right; eauto | discriminate].
  - intros [Hs | (p & -> & Hr)]; [left; exact Hs | right; exact Hr].
Qed.

Lemma impersonation_is_admin_spec u :
  impersonation._is_admin u = true ↔ Spec.resolves_to_admin u.
Proof.
  unfold impersonation._is_admin, Spec.resolves_to_admin.
  rewrite orb_true_iff. split.
  - intros [Hs | Hr]; [left; exact Hs|].
    destruct (profile u) as [p|]; [|discriminate].
    right. exists p. split; [reflexivity|].
    apply bool_decide_eq_true in Hr. exact Hr.
  - intros [Hs | (p & -> & Hr)]; [left; exact Hs|].
    right. apply bool_decide_eq_true. exact Hr.
Qed.

(** C9. A logged-in user who is neither a superuser nor of profile role ADMIN
    is refused by both implementations, whatever [login] does and whatever
    the target: the routed view answers with the error message
    "Not authorized." and a redirect, the decorated one with the redirect of
    [user_passes_test]; the request comes back as it was, so neither the
    stored impersonator nor the authenticated identity has changed. *)
Theorem impersonate_start_refuses_non_admin
    login user_table target_id request u :
  user request = Some u →
  ¬ Spec.resolves_to_admin u →
  extra_views.impersonate_start login user_table target_id request
    = (Redirect "user_list", [MsgError "Not authorized."], request)
  ∧ impersonation.impersonate_start login user_table target_id request
    = (Redirect "login", [], request).
Proof.
  intros Hu Hno.
  unfold extra_views.impersonate_start, impersonation.impersonate_start,
    login_required, user_passes_test.
  rewrite Hu.
  destruct (extra_views._is_admin u) eqn:He.
  { exfalso. apply Hno, extra_views_is_admin_spec, He. }
  destruct (impersonation._is_admin u) eqn:Hi.
  { exfalso. apply Hno, impersonation_is_admin_spec, Hi. }
  split; reflexivity.
Qed.

Lemma impersonate_start_refuses_non_admin_witness :
  extra_views.impersonate_start auth.login
    [ExampleSession.learner; ExampleSession.admin] 1 ExampleSession.request
    = (Redirect "user_list", [MsgError "Not authorized."],
       ExampleSession.request)
  ∧ impersonation.impersonate_start auth.login
      [ExampleSession.learner; ExampleSession.admin] 1 ExampleSession.request
    = (Redirect "login", [], ExampleSession.request).
Proof.
  apply (impersonate_start_refuses_non_admin auth.login
           [ExampleSession.learner; ExampleSession.admin] 1
           ExampleSession.request ExampleSession.learner).
  - reflexivity.
  - intros [Hs | (p & Hp & Hr)].
    + discriminate Hs.
    + injection Hp as <-. discriminate Hr.
Defined.

(** ** C7: the attempt limit *)

Lemma max_key_ge (used : list pk) x :
  x ∈ used → (Npos x <= max_key used)%N.
Proof.
  intros Hin. unfold max_key.
  induction Hin as [x l | x y l Hin IH]; simpl; lia.
Qed.

(** A new key is larger than every key of the table. *)
Lemma next_pk_above (last : N) (used : list pk) x :
  x ∈ used → (x < next_pk last used)%positive.
Proof.
  intros Hin. apply max_key_ge in Hin. unfold next_pk.
  assert (H : (Npos x < Npos (N.succ_pos (N.max last (max_key used))))%N)
    by (rewrite N.succ_pos_spec; lia).
  exact H.
Qed.

(** A new key is larger than the counter of the table. *)
Lemma next_pk_after (last : N) (used : list pk) :
  (last < Npos (next_pk last used))%N.
Proof. unfold next_pk. rewrite N.succ_pos_spec. lia. Qed.

Lemma next_pk_fresh (last : N) (used : list pk) x :
  x ∈ used → x ≠ next_pk last used.
Proof. intros Hin. pose proof (next_pk_above last used x Hin). lia. Qed.

Lemma create_answers_attempts request attempt qs db :
  attempts (fold_left (create_answer request attempt) qs db) = attempts db.
Proof.
  revert db. induction qs as [|q qs IH]; intros db; simpl; [reflexivity|].
  rewrite IH. reflexivity.
Qed.

(** The attempt [quiz_take] creates has its row when it is graded. *)
Lemma created_attempt_stored request attempt qs db :
  attempt_stored attempt
    (fold_left (create_answer request attempt) qs (insert_attempt attempt db)).
Proof.
  unfold attempt_stored. rewrite create_answers_attempts.
  cbn [attempts insert_attempt set_sequences set_attempts].
  rewrite map_app. apply elem_of_app. right. left.
Qed.

Lemma save_fresh_attempt (last : N) (rows : list QuizAttempt) a a' :
  attempt_id a' = attempt_id a →
  attempt_id a = next_pk last (map attempt_id rows) →
  map (λ r, if decide (attempt_id r = attempt_id a') then a' else r)
      (rows ++ [a])
  = rows ++ [a'].
Proof.
  intros Hid Hfresh. rewrite map_app. simpl.
  rewrite decide_True by (symmetry; exact Hid).
  f_equal.
  rewrite <- (map_id rows) at 2. apply map_ext_in.
  intros r Hr. rewrite decide_False; [reflexivity|].
  rewrite Hid, Hfresh. apply next_pk_fresh.
  apply list_elem_of_In, in_map, Hr.
Qed.

Lemma grade_attempt_attempts attempt t1 t2 db result db' :
  grade_attempt attempt t1 t2 db = Some (result, db') →
  attempts db'
  = map (λ r, if decide (attempt_id r = attempt_id result) then result else r)
        (attempts db)
  ∧ attempt_id result = attempt_id attempt
  ∧ attempt_quiz result = attempt_quiz attempt
  ∧ attempt_user result = attempt_user attempt.
Proof.
  intros H. apply grade_attempt_inv in H. injection H as <- <-.
  split; [|repeat split].
  destruct (enrollments db !! _) as [enr|];
    [destruct (Float.ge_int _ _)|]; reflexivity.
Qed.

Lemma create_answers_tables request attempt qs db :
  questions (fold_left (create_answer request attempt) qs db) = questions db
  ∧ ∃ new,
      answers (fold_left (create_answer request attempt) qs db)
      = answers db ++ new
      ∧ ∀ a, a ∈ new →
             answer_attempt a = attempt_id attempt ∧ answer_question a ∈ qs.
Proof.
  revert db. induction qs as [|q qs IH]; intros db; simpl.
  - split; [reflexivity|]. exists []. split; [by rewrite app_nil_r|].
    intros a Ha. inversion Ha.
  - destruct (IH (create_answer request attempt db q)) as (Hq & new & Ha & Hnew).
    split; [rewrite Hq; reflexivity|].
    eexists (_ :: new). split.
    + rewrite Ha. simpl. rewrite <- app_assoc. reflexivity.
    + intros a Hin. apply elem_of_cons in Hin as [->|Hin].
      * split; [reflexivity | left].
      * destruct (Hnew a Hin) as [? ?]. split; [assumption | by right].
Qed.

Lemma grade_attempt_tables attempt t1 t2 db result db' :
  grade_attempt attempt t1 t2 db = Some (result, db') →
  questions db' = questions db ∧ answers db' = answers db.
Proof.
  intros H. apply grade_attempt_inv in H. injection H as _ <-.
  destruct (enrollments db !! _) as [enr|];
    [destruct (Float.ge_int _ _)|]; split; reflexivity.
Qed.

(** The answers [quiz_take] stores for the attempt it creates are answers to
    the quiz's questions, provided every stored answer belongs to a stored
    attempt (the foreign key of [QuizAnswer.attempt]). *)
Lemma quiz_take_answers_of_quiz request quiz_pk t1 t2 db quiz response db' :
  method request = POST →
  List.find (λ q, bool_decide (quiz_id q = quiz_pk) && quiz_active q)
            (quizzes db) = Some quiz →
  (∀ a, a ∈ answers db → answer_attempt a ∈ map attempt_id (attempts db)) →
  quiz_take request quiz_pk t1 t2 db = Some (response, db') →
  ∀ a, a ∈ answers db' →
       answer_attempt a
       = next_pk (seq_attempts (sequences db)) (map attempt_id (attempts db)) →
       answer_question a ∈ quiz_questions quiz db'.
Proof.
  intros Hm Hq Hfk. unfold quiz_take. rewrite Hq, Hm.
  rewrite (bool_decide_eq_false_2 (POST = GET)) by discriminate.
  rewrite andb_false_r.
  rewrite (bool_decide_eq_true_2 (POST = POST)) by reflexivity.
  set (attempt := {| attempt_id := next_pk (seq_attempts (sequences db))
                                           (map attempt_id (attempts db));
                     attempt_quiz := quiz;
                     attempt_user := user_id (request_user request);
                     finished_at := None; score := None; passed := false |}).
  set (db1 := insert_attempt attempt db).
  destruct (create_answers_tables request attempt (quiz_questions quiz db1) db1)
    as (Hqs & new & Hans & Hnew).
  destruct (grade_attempt attempt t1 t2 _) as [[result db3]|] eqn:Hg;
    [|discriminate].
  apply grade_attempt_tables in Hg as [Hq3 Ha3].
  simpl. intros H. injection H as _ <-.
  intros a Ha Hid. rewrite Ha3, Hans in Ha.
  unfold quiz_questions. rewrite Hq3, Hqs.
  apply elem_of_app in Ha as [Hold | Hin].
  - exfalso. apply Hfk in Hold. rewrite Hid in Hold.
    exact (next_pk_fresh _ _ _ Hold eq_refl).
  - apply (Hnew a Hin).
Qed.

(** A POST to an active quiz always stores one more attempt of the user at
    that quiz: the count is not compared with [attempts_allowed] on POST. *)
Lemma quiz_take_post_adds_attempt request quiz_pk t1 t2 db quiz :
  method request = POST →
  List.find (λ q, bool_decide (quiz_id q = quiz_pk) && quiz_active q)
            (quizzes db) = Some quiz →
  ∃ db',
    quiz_take request quiz_pk t1 t2 db = Some (Redirect "quiz_result", db')
    ∧ attempts_used quiz (user_id (request_user request)) db'
      = (attempts_used quiz (user_id (request_user request)) db + 1)%N.
Proof.
  intros Hm Hq. unfold quiz_take. rewrite Hq, Hm.
  rewrite (bool_decide_eq_false_2 (POST = GET)) by discriminate.
  rewrite andb_false_r.
  rewrite (bool_decide_eq_true_2 (POST = POST)) by reflexivity.
  set (user := user_id (request_user request)).
  set (attempt := {| attempt_id := next_pk (seq_attempts (sequences db))
                                           (map attempt_id (attempts db));
                     attempt_quiz := quiz; attempt_user := user;
                     finished_at := None; score := None; passed := false |}).
  set (db1 := insert_attempt attempt db).
  set (db2 := fold_left (create_answer request attempt)
                        (quiz_questions quiz db1) db1).
  destruct (grade_attempt attempt t1 t2 db2) as [[result db3]|] eqn:Hg.
  2:{ rewrite grade_attempt_eq in Hg by apply created_attempt_stored.
      discriminate Hg. }
  apply grade_attempt_attempts in Hg as (Hatt & Hid & Hquiz & Huser).
  simpl. eexists. split; [reflexivity|].
  unfold attempts_used. rewrite Hatt.
  unfold db2. rewrite create_answers_attempts. unfold db1. simpl.
  rewrite (save_fresh_attempt _ (attempts db) attempt result Hid eq_refl).
  rewrite filter_app, length_app.
  rewrite filter_cons_True by (rewrite Hquiz, Huser; split; reflexivity).
  simpl. lia.
Qed.

(** C7 does not hold of the code: the limit is only checked on GET.  With one
    attempt allowed and one attempt already stored, a POST is graded, stored
    and answered with the redirect to the result page; the user then has two
    attempts at the quiz. *)
Theorem quiz_take_post_exceeds_limit :
  attempts_allowed Example.quiz = 1%N
  ∧ attempts_used Example.quiz 1 ExampleLimit.db = 1%N
  ∧ ∃ db',
      quiz_take ExampleLimit.post 1 8 9 ExampleLimit.db
        = Some (Redirect "quiz_result", db')
      ∧ attempts_used Example.quiz 1 db' = 2%N.
Proof.
  split; [reflexivity|]. split; [vm_compute; reflexivity|].
  destruct (quiz_take_post_adds_attempt ExampleLimit.post 1 8 9 ExampleLimit.db
              Example.quiz) as (db' & Hrun & Hused).
  - reflexivity.
  - vm_compute. reflexivity.
  - exists db'. split; [exact Hrun|].
    change (user_id (request_user ExampleLimit.post)) with 1%positive in Hused.
    rewrite Hused. vm_compute. reflexivity.
Qed.

(** ** C3: progress 100 and status COMPLETED *)

(** [recompute_enrollment_progress_for] and [mark_completed] write status
    and progress together. *)
Lemma recomputed_100_completed p now e :
  progress (recomputed p now e) = 100 →
  status (recomputed p now e) = Status.COMPLETED.
Proof.
  rewrite recomputed_progress, recomputed_status. intros ->.
  destruct (due_date e); reflexivity.
Qed.

(** The creation paths write progress and [completed_at] and leave the
    status at its default. *)
Lemma bulk_enroll_user_created course p now created skipped tbl u :
  tbl !! (user_id u, course) = None →
  100 <= p →
  ∃ e,
    views.bulk_enroll_user course p now (created, skipped, tbl) u
    = (S created, skipped, <[(user_id u, course) := e]> tbl)
    ∧ progress e = p
    ∧ status e = Status.ASSIGNED
    ∧ completed_at e = Some now.
Proof.
  intros Hnone Hp. unfold views.bulk_enroll_user, get_or_create.
  rewrite Hnone. destruct (Z.leb_spec 100 p); [|lia].
  eexists. split; [rewrite insert_insert_eq; reflexivity|].
  repeat split.
Qed.

(** C3 does not hold of the code: a bulk enrollment with initial progress
    100, and likewise a manual enrollment created with progress 100, stores
    a row with progress 100 and [completed_at] set whose status is still
    ASSIGNED. *)
Theorem enrollment_created_at_100_is_assigned :
  (let '(response, messages, db') :=
     views.course_bulk_enroll ExampleBulk.bulk_form 1 5 ExampleBulk.db in
   response = Redirect "enrollments_list"
   ∧ messages = [MsgBulkEnrollOK 1 1 0]
   ∧ (e ← enrollments db' !! (2%positive, 1%positive);
      Some (progress e, status e, completed_at e))
     = Some (100, Status.ASSIGNED, Some 5))
  ∧ (r ← views.enrollment_create ExampleBulk.create_form 5 ExampleBulk.db;
     e ← enrollments r.2 !! (2%positive, 1%positive);
     Some (r.1.1, progress e, status e, completed_at e))
    = Some (Redirect "enrollments_list", 100, Status.ASSIGNED, Some 5).
Proof. split; vm_compute; repeat split; reflexivity. Qed.

(** ** C4: the auto-enrollment rules *)

(** The queryset built by [assign_by_rules] selects the rules the
    specification describes. *)
Lemma rules_for_spec u r : rules_for u r = true ↔ Spec.rule_matches u r.
Proof.
  unfold rules_for, Spec.rule_matches, QuerySet.distinct, QuerySet.union,
    QuerySet.filter, QuerySet.all.
  destruct (profile u) as [[dept ro]|]; simpl;
    [destruct dept as [d|]; simpl|];
    repeat rewrite ?orb_true_iff, ?andb_true_iff, ?bool_decide_eq_true;
    intuition congruence.
Qed.

Lemma rows_matching u (table : list CourseAssignmentRule) :
  QuerySet.rows (rules_for u) table = filter (Spec.rule_matches u) table.
Proof.
  unfold QuerySet.rows.
  induction table as [|r table IH]; [reflexivity|].
  simpl. rewrite filter_cons, IH.
  destruct (rules_for u r) eqn:Hr.
  - rewrite decide_True by (apply rules_for_spec, Hr). reflexivity.
  - rewrite decide_False; [reflexivity|].
    intros Hm. apply rules_for_spec in Hm. congruence.
Qed.

Lemma assign_course_lookup u c due req tbl k :
  (assign_course u c due None req true tbl).2 !! k
  = if decide (k = (u, c)) then Some (upsert due req (tbl !! k)) else tbl !! k.
Proof.
  unfold assign_course, get_or_create.
  destruct (decide (k = (u, c))) as [->|Hne].
  - destruct (tbl !! (u, c)) as [e|] eqn:He; simpl.
    + destruct due as [d|], (due_date e) as [d'|] eqn:Hd; simpl;
        rewrite ?lookup_insert_eq, ?He; rewrite ?Hd; reflexivity.
    + rewrite lookup_insert_eq. reflexivity.
  - destruct (tbl !! (u, c)) as [e|] eqn:He; simpl.
    + destruct (bool_decide (is_Some due)
                && negb (bool_decide (is_Some (due_date e)))); simpl;
        rewrite ?lookup_insert_ne by congruence; reflexivity.
    + rewrite lookup_insert_ne by congruence. reflexivity.
Qed.

Lemma assign_rules_other uid today rs tbl u c :
  u ≠ uid ∨ (∀ r, r ∈ rs → rule_course r ≠ c) →
  fold_left (assign_rule uid today) rs tbl !! (u, c) = tbl !! (u, c).
Proof.
  revert tbl. induction rs as [|r rs IH]; intros tbl Hno; [reflexivity|].
  simpl. rewrite IH.
  - unfold assign_rule. rewrite assign_course_lookup.
    rewrite decide_False; [reflexivity|].
    intros Heq. injection Heq as -> ->.
    destruct Hno as [Hu | Hc]; [congruence|].
    apply (Hc r); [left | reflexivity].
  - destruct Hno as [Hu | Hc]; [left; exact Hu | right].
    intros r' Hr'. apply Hc. right. exact Hr'.
Qed.

(** Only the rules for the course act on the pair. *)
Lemma assign_rules_course uid today rs tbl c :
  fold_left (assign_rule uid today) rs tbl !! (uid, c)
  = fold_left (λ o r, Some (upsert (due_of today r) (rule_required r) o))
              (filter (λ r, rule_course r = c) rs) (tbl !! (uid, c)).
Proof.
  revert tbl. induction rs as [|r rs IH]; intros tbl; [reflexivity|].
  simpl. rewrite IH. unfold assign_rule. rewrite assign_course_lookup.
  rewrite filter_cons.
  destruct (decide (rule_course r = c)) as [<-|Hne].
  - rewrite decide_True by reflexivity. reflexivity.
  - rewrite decide_False by congruence. reflexivity.
Qed.

Lemma upserts_existing today rs e :
  fold_left (λ o r, Some (upsert (due_of today r) (rule_required r) o))
            rs (Some e)
  = Some (backfill (first_due today rs) e).
Proof.
  revert e. induction rs as [|r rs IH]; intros e; simpl.
  - unfold backfill. destruct (due_date e); reflexivity.
  - rewrite IH. f_equal. unfold backfill.
    destruct (due_of today r) as [d|], (due_date e) as [d'|] eqn:Hd; simpl;
      rewrite ?Hd; reflexivity.
Qed.

Lemma upserts_new today r rs :
  fold_left (λ o r, Some (upsert (due_of today r) (rule_required r) o))
            (r :: rs) None
  = Some {| progress := 0; completed_at := None; status := Status.ASSIGNED;
            due_date := first_due today (r :: rs);
            required := rule_required r; auto_enrolled := true;
            assigned_by := None |}.
Proof.
  simpl. rewrite upserts_existing. f_equal. unfold backfill. simpl.
  destruct (due_of today r) as [d|]; [reflexivity|].
  destruct (first_due today rs); reflexivity.
Qed.

(** The due date the code computes, in range and out of range. *)
Lemma rule_due_in_range today r :
  due_in_range today r → rule_due today r = Some (due_of today r).
Proof.
  unfold due_in_range, rule_due, due_of, add_days.
  destruct (due_in_days r) as [n|]; [|reflexivity].
  destruct (N.eqb_spec n 0) as [->|Hn]; [reflexivity|].
  intros [H0 | [Hn1 Hn2]]; [contradiction|].
  destruct (Z.ltb_spec 999999999 (Z.of_N n)); [lia|].
  destruct (Z.ltb_spec date_max (today + Z.of_N n)); [lia|].
  reflexivity.
Qed.

Lemma rule_due_overflow today r :
  ¬ due_in_range today r → rule_due today r = None.
Proof.
  unfold due_in_range, rule_due, add_days.
  destruct (due_in_days r) as [n|]; [|tauto].
  destruct (N.eqb_spec n 0) as [->|Hn]; [tauto|].
  intros Hno.
  destruct (Z.ltb_spec 999999999 (Z.of_N n)); [reflexivity|].
  destruct (Z.ltb_spec date_max (today + Z.of_N n)); [reflexivity|].
  exfalso. apply Hno. right. lia.
Qed.

Lemma assign_rows_in_range user today rows db :
  (∀ r, r ∈ rows → due_in_range today r) →
  assign_rows user today rows db
  = Returned (set_enrollments
                (fold_left (assign_rule (user_id user) today) rows
                           (enrollments db))
                db).
Proof.
  revert db. induction rows as [|r rows IH]; intros db Hin.
  - destruct db; reflexivity.
  - cbn [assign_rows fold_left].
    rewrite (rule_due_in_range today r) by (apply Hin; left).
    unfold assign_rule at 2.
    destruct (assign_course _ _ _ _ _ _ _) as [[obj created] tbl].
    rewrite IH by (intros r' Hr'; apply Hin; right; exact Hr').
    reflexivity.
Qed.

Lemma assign_rows_overflow user today rows db :
  (∃ r, r ∈ rows ∧ ¬ due_in_range today r) →
  ∃ db', assign_rows user today rows db = Raised db'.
Proof.
  revert db. induction rows as [|r rows IH]; intros db (r0 & Hin & Hno).
  - inversion Hin.
  - cbn [assign_rows].
    destruct (decide (due_in_range today r)) as [Hr|Hr].
    + rewrite (rule_due_in_range today r Hr).
      destruct (assign_course _ _ _ _ _ _ _) as [[obj created] tbl].
      apply IH. exists r0. split; [|exact Hno].
      apply elem_of_cons in Hin as [->|Hin]; [contradiction | exact Hin].
    + rewrite (rule_due_overflow today r Hr). eauto.
Qed.

Lemma assign_by_rules_returns user now db :
  (∀ r, r ∈ filter (Spec.rule_matches user) (rules db) →
        due_in_range (date_of now) r) →
  assign_by_rules user now db
  = Returned (set_enrollments (assigned user now db) db).
Proof.
  intros Hin. unfold assign_by_rules. cbv zeta.
  rewrite rows_matching. apply assign_rows_in_range, Hin.
Qed.

Lemma backfill_fields d e :
  set_due_date None (backfill d e) = set_due_date None e
  ∧ due_date (backfill d e)
    = match due_date e with Some x => Some x | None => d end.
Proof.
  unfold backfill. destruct e as [? ? ? [x|] ? ? ?], d as [y|]; simpl;
    split; reflexivity.
Qed.

(** The row of a pair after the loop, from the row before and the matching
    rules for the course. *)
Lemma assign_by_rules_lookup user now db u c :
  assigned user now db !! (u, c)
  = if decide (u = user_id user) then
      match filter (λ r, rule_course r = c)
                   (filter (Spec.rule_matches user) (rules db)) with
      | [] => enrollments db !! (u, c)
      | r :: rs =>
          Some match enrollments db !! (u, c) with
               | Some e => backfill (first_due (date_of now) (r :: rs)) e
               | None =>
                   {| progress := 0; completed_at := None;
                      status := Status.ASSIGNED;
                      due_date := first_due (date_of now) (r :: rs);
                      required := rule_required r; auto_enrolled := true;
                      assigned_by := None |}
               end
      end
    else enrollments db !! (u, c).
Proof.
  unfold assigned.
  destruct (decide (u = user_id user)) as [->|Hne].
  - rewrite assign_rules_course.
    destruct (filter _ (filter _ _)) as [|r rs]; [reflexivity|].
    destruct (enrollments db !! (user_id user, c)) as [e|].
    + apply upserts_existing.
    + apply upserts_new.
  - apply assign_rules_other. left. exact Hne.
Qed.

(** C4, as stated, fails for a rule whose [due_in_days] is 0: it is set, the
    due date of the specification is today, and the enrollment is created
    without a due date. *)
Lemma assign_by_rules_due_in_zero_days :
  due_in_days (ExampleRules.rule (Some 0%N)) = Some 0%N
  ∧ Spec.due_date_of_rule (date_of ExampleRules.now)
                          (ExampleRules.rule (Some 0%N)) = Some 20
  ∧ match assign_by_rules ExampleRules.newcomer ExampleRules.now
                          (ExampleRules.db (Some 0%N)) with
    | Returned db' =>
        due_date <$> enrollments db' !! (5%positive, 9%positive)
    | Raised _ => None
    end
    = Some None.
Proof. split; [|split]; vm_compute; reflexivity. Qed.

(** C4 (amended). The rules [assign_by_rules] applies are the active rules
    whose department is null or the user's and whose role is null or the
    user's.  The due date of a rule is today + due_in_days when due_in_days
    is set and not 0, and null otherwise; when that sum is not a date (after
    9999-12-31, or due_in_days above 999999999) the computation raises, and
    so does [assign_by_rules] when a matching rule is such.  When the due
    dates of the matching rules are dates the function returns and changes
    only the enrollment table: afterwards a pair (u, c) has an enrollment
    exactly when it had one or u is the user and some matching rule is for
    c.  A row that existed keeps every field, except that a null due date of
    a row of the user is filled with the first non-null due date of the
    matching rules for its course; a non-null due date stays.  A new row is
    auto-enrolled, takes [required] from the first matching rule for the
    course and that same first non-null due date.  A user without department
    and without an enrollment, under a single active rule with both filters
    null and due_in_days = 7, is enrolled in the rule's course with due date
    today + 7. *)
Theorem assign_by_rules_enrollments user now db :
  let today := date_of now in
  let uid := user_id user in
  let matching := filter (Spec.rule_matches user) (rules db) in
  let rules_of c := filter (λ r, rule_course r = c) matching in
  let before := enrollments db in
  QuerySet.rows (rules_for user) (rules db) = matching
  ∧ (∀ r, due_in_range today r →
          rule_due today r
          = Some match due_in_days r with
                 | Some 0%N => None
                 | Some n => Some (today + Z.of_N n)
                 | None => None
                 end)
  ∧ (∀ r, ¬ due_in_range today r → rule_due today r = None)
  ∧ ((∃ r, r ∈ matching ∧ ¬ due_in_range today r) →
     ∃ db', assign_by_rules user now db = Raised db')
  ∧ ((∀ r, r ∈ matching → due_in_range today r) →
     ∃ db',
       assign_by_rules user now db = Returned db'
       ∧ db' = set_enrollments (enrollments db') db
       ∧ let after := enrollments db' in
         (∀ u c, is_Some (after !! (u, c))
                 ↔ is_Some (before !! (u, c))
                   ∨ (u = uid ∧ ∃ r, r ∈ matching ∧ rule_course r = c))
         ∧ (∀ u c e, before !! (u, c) = Some e →
              ∃ e', after !! (u, c) = Some e'
                    ∧ set_due_date None e' = set_due_date None e
                    ∧ due_date e'
                      = match due_date e with
                        | Some d => Some d
                        | None => if decide (u = uid)
                                  then first_due today (rules_of c) else None
                        end)
         ∧ (∀ c r rs, before !! (uid, c) = None → rules_of c = r :: rs →
              after !! (uid, c)
              = Some {| progress := 0; completed_at := None;
                        status := Status.ASSIGNED;
                        due_date := first_due today (r :: rs);
                        required := rule_required r; auto_enrolled := true;
                        assigned_by := None |})
         ∧ (∀ r, profile user ≫= department = None →
                 rules db = [r] →
                 rule_department r = None → rule_role r = None →
                 active r = true →
                 due_in_days r = Some 7%N →
                 before !! (uid, rule_course r) = None →
                 ∃ e, after !! (uid, rule_course r) = Some e
                      ∧ due_date e = Some (today + 7)
                      ∧ auto_enrolled e = true
                      ∧ required e = rule_required r)).
Proof.
  intros today uid matching rules_of before.
  split; [apply rows_matching|].
  split.
  { intros r Hr. rewrite (rule_due_in_range today r Hr). f_equal.
    unfold due_of. destruct (due_in_days r) as [[|p]|]; reflexivity. }
  split; [intros r; apply rule_due_overflow|].
  split.
  { intros Hex. unfold assign_by_rules. cbv zeta. rewrite rows_matching.
    apply assign_rows_overflow, Hex. }
  intros Hrange.
  exists (set_enrollments (assigned user now db) db).
  split; [apply assign_by_rules_returns, Hrange|].
  split; [reflexivity|].
  cbn [enrollments set_enrollments].
  set (after := assigned user now db).
  assert (Hlook : ∀ u c, after !! (u, c)
            = if decide (u = uid) then
                match rules_of c with
                | [] => before !! (u, c)
                | r :: rs =>
                    Some match before !! (u, c) with
                         | Some e => backfill (first_due today (r :: rs)) e
                         | None =>
                             {| progress := 0; completed_at := None;
                                status := Status.ASSIGNED;
                                due_date := first_due today (r :: rs);
                                required := rule_required r;
                                auto_enrolled := true; assigned_by := None |}
                         end
                end
              else before !! (u, c))
    by (intros u c; apply assign_by_rules_lookup).
  split.
  { intros u c. rewrite Hlook.
    destruct (decide (u = uid)) as [->|Hne]; [|tauto].
    destruct (rules_of c) as [|r rs] eqn:Hrs.
    - split; [tauto|]. intros [H|[_ (r & Hr & Hc)]]; [exact H|].
      exfalso. assert (Hin : r ∈ rules_of c)
        by (apply list_elem_of_filter; split; assumption).
      rewrite Hrs in Hin. inversion Hin.
    - split; [|eauto]. intros _. right. split; [reflexivity|].
      assert (Hin : r ∈ rules_of c) by (rewrite Hrs; left).
      apply list_elem_of_filter in Hin as [Hc Hm]. eauto. }
  split.
  { intros u c e He. rewrite Hlook, He.
    destruct (decide (u = uid)) as [->|Hne].
    - destruct (rules_of c) as [|r rs].
      + exists e. split; [reflexivity|]. split; [reflexivity|].
        destruct (due_date e); reflexivity.
      + eexists. split; [reflexivity|].
        apply backfill_fields.
    - exists e. split; [reflexivity|]. split; [reflexivity|].
      destruct (due_date e); reflexivity. }
  split.
  { intros c r rs Hnone Hrs. rewrite Hlook, Hnone, Hrs.
    rewrite decide_True by reflexivity. reflexivity. }
  intros r Hdept Hrules Hd Hr Ha Hdays Hnone.
  assert (Hm : matching = [r]).
  { unfold matching. rewrite Hrules, filter_cons, filter_nil.
    rewrite decide_True; [reflexivity|].
    split; [exact Ha|]. split; left; assumption. }
  assert (Hrs : rules_of (rule_course r) = [r]).
  { unfold rules_of. rewrite Hm, filter_cons, filter_nil.
    rewrite decide_True by reflexivity. reflexivity. }
  rewrite Hlook, Hnone, Hrs. rewrite decide_True by reflexivity.
  eexists. split; [reflexivity|]. simpl.
  unfold due_of. rewrite Hdays. simpl. repeat split.
Qed.

Lemma assign_by_rules_enrollments_witness :
  ∃ db' e,
    assign_by_rules ExampleRules.newcomer ExampleRules.now
                    (ExampleRules.db (Some 7%N)) = Returned db'
    ∧ enrollments db' !! (5%positive, 9%positive) = Some e
    ∧ due_date e = Some (20 + 7)
    ∧ auto_enrolled e = true
    ∧ required e = true.
Proof.
  pose proof (assign_by_rules_enrollments ExampleRules.newcomer
                ExampleRules.now (ExampleRules.db (Some 7%N)))
    as (_ & _ & _ & _ & Hret).
  destruct Hret as (db' & Hrun & _ & _ & _ & _ & Hex).
  - intros r Hr. apply list_elem_of_filter in Hr as [_ Hr].
    apply list_elem_of_singleton in Hr. rewrite Hr.
    right. vm_compute. split; discriminate.
  - exists db'.
    destruct (Hex (ExampleRules.rule (Some 7%N)))
      as (e & Hlook & Hdue & Hauto & Hreq); try reflexivity.
    exists e. repeat split; assumption.
Defined.

(** * Further properties *)

(** ** Rounding stays between integer bounds *)

Lemma rne_le n d k : 0 < d → n <= k * d → Float.rne n d <= k.
Proof.
  intros Hd Hn. unfold Float.rne.
  pose proof (Z.div_mod n d ltac:(lia)) as Hdm.
  pose proof (Z.mod_pos_bound n d Hd) as Hr.
  assert (Hq : n / d <= k) by (apply Z.div_le_upper_bound; lia).
  destruct (Z.compare_spec (2 * (n mod d)) d); [destruct (Z.even (n / d))| |];
    try lia; nia.
Qed.

Lemma rne_ge n d k : 0 < d → k * d <= n → k <= Float.rne n d.
Proof.
  intros Hd Hn. unfold Float.rne.
  assert (Hq : k <= n / d) by (apply Z.div_le_lower_bound; lia).
  destruct (Z.compare_spec (2 * (n mod d)) d); [destruct (Z.even (n / d))| |];
    lia.
Qed.

Lemma floor_log2_ratio_le n d K :
  0 < n → 0 < d → n <= K * d → Float.floor_log2_ratio n d <= Z.log2 K + 1.
Proof.
  intros Hn Hd HK. unfold Float.floor_log2_ratio.
  assert (0 < K) by nia.
  assert (Z.log2 n <= Z.log2 K + Z.log2 d + 1).
  { etransitivity; [apply Z.log2_le_mono, HK|].
    apply Z.log2_mul_above; lia. }
  destruct (0 <=? _); destruct (_ <? _); lia.
Qed.

Lemma scale2_neg m e :
  e < 0 → (Float.scale2 m e == m # Z.to_pos (2 ^ (- e)))%Q.
Proof.
  intros He. unfold Float.scale2.
  destruct (Z.leb_spec 0 e); [lia|]. apply Qred_correct.
Qed.

(** The binary64 quotient of two non-negative ints lies between any two
    small integers that bound the exact quotient. *)
Lemma nearest_bounds n d k K :
  0 <= n → 0 < d → 0 <= k → K < 2 ^ 51 →
  k * d <= n → n <= K * d →
  (inject_Z k <= Float.nearest n d)%Q ∧ (Float.nearest n d <= inject_Z K)%Q.
Proof.
  intros Hn Hd Hk HK Hlo Hhi. unfold Float.nearest.
  destruct (Z.eq_dec n 0) as [->|Hn0].
  { simpl. unfold Qle. simpl. nia. }
  assert (Hs : Z.sgn n * Z.sgn d = 1) by (rewrite !Z.sgn_pos; lia).
  rewrite Hs. simpl.
  rewrite (Z.abs_eq n), (Z.abs_eq d) by lia.
  unfold Float.nearest_pos.
  set (e := Float.floor_log2_ratio n d - 52).
  assert (He : e < 0).
  { assert (0 < K) by nia.
    pose proof (floor_log2_ratio_le n d K ltac:(lia) Hd Hhi).
    assert (Z.log2 K < 51) by (apply Z.log2_lt_pow2; lia).
    unfold e. lia. }
  destruct (Z.leb_spec 0 e); [lia|].
  rewrite scale2_neg by exact He.
  set (P := 2 ^ (- e)).
  assert (HP : 0 < P) by (apply Z.pow_pos_nonneg; lia).
  unfold Qle. simpl. rewrite Z2Pos.id by exact HP.
  split.
  - rewrite Z.mul_1_r. apply rne_ge; [exact Hd | nia].
  - rewrite Z.mul_1_r. apply rne_le; [exact Hd | nia].
Qed.

Lemma round_bounds (x : Float.float) k K :
  (inject_Z k <= x)%Q → (x <= inject_Z K)%Q →
  k <= Float.round x ∧ Float.round x <= K.
Proof.
  unfold Qle, Float.round. simpl. intros Hlo Hhi. split.
  - apply rne_ge; lia.
  - apply rne_le; lia.
Qed.

Lemma round2_bounds (x : Float.float) k K :
  0 <= k → K < 2 ^ 51 →
  (inject_Z k <= x)%Q → (x <= inject_Z K)%Q →
  (inject_Z k <= Float.round2 x)%Q ∧ (Float.round2 x <= inject_Z K)%Q.
Proof.
  unfold Float.round2. intros Hk HK Hlo Hhi.
  unfold Qle in Hlo, Hhi. simpl in Hlo, Hhi.
  apply nearest_bounds; try lia.
  - apply (rne_ge _ _ 0); lia.
  - apply rne_ge; lia.
  - apply rne_le; lia.
Qed.

Lemma Qred_inject_Z k : Qred (inject_Z k) = inject_Z k.
Proof.
  unfold Qred, inject_Z.
  pose proof (Z.ggcd_gcd k 1) as Hg.
  pose proof (Z.ggcd_correct_divisors k 1) as Hc.
  destruct (Z.ggcd k 1) as [g [a b]]. simpl in *.
  rewrite Z.gcd_1_r in Hg. subst g. destruct Hc as [-> Hb].
  assert (b = 1) by lia. subst b. f_equal. lia.
Qed.

Lemma nearest_canonical n d : Qred (Float.nearest n d) = Float.nearest n d.
Proof.
  unfold Float.nearest, Float.nearest_pos, Float.scale2.
  destruct (_ =? 0); [reflexivity|].
  destruct (0 <? _); apply Qred_complete, Qred_correct.
Qed.

(** A quotient that is a small non-negative integer is computed exactly. *)
Lemma nearest_exact d k :
  0 < d → 0 <= k → k < 2 ^ 51 → Float.nearest (k * d) d = inject_Z k.
Proof.
  intros Hd Hk HK.
  destruct (nearest_bounds (k * d) d k k) as [Hlo Hhi]; try lia.
  rewrite <- nearest_canonical, <- Qred_inject_Z.
  apply Qred_complete, Qle_antisym; assumption.
Qed.

Lemma round_inject_Z k : Float.round (inject_Z k) = k.
Proof.
  destruct (round_bounds (inject_Z k) k k) as [? ?]; try apply Qle_refl. lia.
Qed.

Lemma round2_inject_Z k :
  0 <= k → k < 2 ^ 51 → Float.round2 (inject_Z k) = inject_Z k.
Proof.
  intros Hk HK. unfold Float.round2. simpl.
  replace (Float.rne (100 * k) 1) with (k * 100).
  - apply nearest_exact; lia.
  - symmetry. pose proof (rne_le (100 * k) 1 (k * 100)).
    pose proof (rne_ge (100 * k) 1 (k * 100)). lia.
Qed.

Lemma ge_int_inject_Z a b : Float.ge_int (inject_Z a) b = (b <=? a).
Proof.
  unfold Float.ge_int, Qle_bool. simpl. rewrite !Z.mul_1_r. reflexivity.
Qed.

(** ** The recomputed percentage *)

Lemma nearest_nonneg n d : 0 <= n → 0 < d → (0 <= Float.nearest n d)%Q.
Proof.
  intros Hn Hd. unfold Float.nearest.
  destruct (Z.eq_dec n 0) as [->|Hn0]; [apply Qle_refl|].
  assert (Hs : Z.sgn n * Z.sgn d = 1) by (rewrite !Z.sgn_pos; lia).
  rewrite Hs. simpl. rewrite (Z.abs_eq n), (Z.abs_eq d) by lia.
  unfold Float.nearest_pos, Float.scale2. rewrite Qred_correct.
  set (e := Float.floor_log2_ratio n d - 52).
  destruct (Z.leb_spec 0 e).
  - assert (0 < 2 ^ e) by (apply Z.pow_pos_nonneg; lia).
    assert (0 <= Float.rne n (d * 2 ^ e)) by (apply rne_ge; nia).
    unfold Qle. simpl. nia.
  - assert (0 < 2 ^ (- e)) by (apply Z.pow_pos_nonneg; lia).
    assert (0 <= Float.rne (n * 2 ^ (- e)) d) by (apply rne_ge; nia).
    unfold Qle. simpl. lia.
Qed.

Lemma round_nonneg (x : Float.float) : (0 <= x)%Q → 0 <= Float.round x.
Proof.
  unfold Qle, Float.round. simpl. intros Hx. apply rne_ge; lia.
Qed.

Lemma percent_of_nonneg user course db : 0 <= percent_of user course db.
Proof.
  unfold percent_of.
  destruct (Z.eqb_spec (course_materials_count course db) 0); [lia|].
  apply round_nonneg, nearest_nonneg;
    unfold completed_count, course_materials_count in *; lia.
Qed.

Lemma NoDup_fmap_eq {A B} (f : A → B) (l : list A) x y :
  NoDup (f <$> l) → x ∈ l → y ∈ l → f x = f y → x = y.
Proof.
  induction l as [|a l IH]; intros Hnd Hx Hy Hf; [inversion Hx|].
  rewrite fmap_cons in Hnd. apply NoDup_cons in Hnd as [Hna Hnd].
  apply elem_of_cons in Hx as [->|Hx]; apply elem_of_cons in Hy as [->|Hy].
  - reflexivity.
  - exfalso. apply Hna. rewrite Hf. apply list_elem_of_fmap_2, Hy.
  - exfalso. apply Hna. rewrite <- Hf. apply list_elem_of_fmap_2, Hx.
  - apply IH; assumption.
Qed.

(** Under the constraints of the schema a user has completed at most as many
    materials of a course as the course has. *)
Lemma completed_le_materials user course db :
  material_progress_constraints db →
  completed_count user course db <= course_materials_count course db.
Proof.
  intros [Huniq Hfk]. unfold completed_count, course_materials_count.
  apply inj_le.
  set (L := filter _ (material_progress db)).
  set (M := filter _ (materials db)).
  rewrite <- (length_fmap mp_material L).
  apply submseteq_length, NoDup_submseteq.
  - apply NoDup_fmap_2_strong.
    + intros p1 p2 H1 H2 Hm.
      apply list_elem_of_filter in H1 as [(Hu1 & _ & _) H1].
      apply list_elem_of_filter in H2 as [(Hu2 & _ & _) H2].
      apply (NoDup_fmap_eq _ _ _ _ Huniq H1 H2). simpl. congruence.
    + apply NoDup_filter. exact (NoDup_fmap_1 _ _ Huniq).
  - intros m Hm. apply list_elem_of_fmap in Hm as (p & -> & Hp).
    apply list_elem_of_filter in Hp as [(_ & Hc & _) Hp].
    apply list_elem_of_filter. split; [exact Hc | apply Hfk, Hp].
Qed.

Lemma percent_of_le_100 user course db :
  completed_count user course db <= course_materials_count course db →
  percent_of user course db <= 100.
Proof.
  intros Hle. unfold percent_of.
  destruct (Z.eqb_spec (course_materials_count course db) 0); [lia|].
  assert (0 <= completed_count user course db)
    by (unfold completed_count; lia).
  destruct (nearest_bounds (100 * completed_count user course db)
              (course_materials_count course db) 0 100) as [Hlo Hhi];
    try lia.
  apply (round_bounds _ 0 100); assumption.
Qed.

Lemma percent_of_all_done user course db :
  course_materials_count course db ≠ 0 →
  completed_count user course db = course_materials_count course db →
  percent_of user course db = 100.
Proof.
  intros Hne Hall. unfold percent_of. rewrite Hall.
  destruct (Z.eqb_spec (course_materials_count course db) 0); [lia|].
  rewrite nearest_exact; [apply round_inject_Z | | lia | lia].
  unfold course_materials_count in *. lia.
Qed.

(** ** Recomputing: what is written and what is left alone *)

(** X1. [recompute_enrollment_progress_for] always returns.  It changes no
    table but the enrollments, and there no row but the one of the pair,
    which afterwards exists; of that row it keeps the due date and the
    [required], [auto_enrolled] and [assigned_by] fields (those of a fresh
    row when none existed). *)
Theorem recompute_frame user course now db :
  ∃ db' e',
    recompute_enrollment_progress_for user course now db = Some db'
    ∧ db' = set_enrollments (enrollments db') db
    ∧ (∀ key, key ≠ (user, course) →
              enrollments db' !! key = enrollments db !! key)
    ∧ enrollments db' !! (user, course) = Some e'
    ∧ set_completed_at None (set_progress 0 (set_status Status.ASSIGNED e'))
      = set_completed_at None
          (set_progress 0
             (set_status Status.ASSIGNED
                (default Enrollment_defaults
                         (enrollments db !! (user, course))))).
Proof.
  rewrite recompute_eq. eexists _, _. split; [reflexivity|].
  split; [reflexivity|]. simpl. split; [|split].
  - intros key Hne. apply lookup_insert_ne. congruence.
  - apply lookup_insert_eq.
  - unfold recomputed, derive_status.
    destruct (default _ _) as [pr [t|] st [d|] rq au ab]; simpl;
      repeat (match goal with
              | |- context [if ?b then _ else _] => destruct b
              end); reflexivity.
Qed.

(** Closes the cases of a status table once the comparisons are decided. *)
Ltac status_cases :=
  repeat split; intros;
  repeat match goal with
         | H : _ ∧ _ |- _ => destruct H
         | H : ∃ _, _ |- _ => destruct H
         | H : Some _ = Some _ |- _ => injection H as H; subst
         end;
  repeat split;
  try discriminate; try lia;
  try (eexists; split; [reflexivity | lia]);
  try (intros (? & Heq & ?); try discriminate; injection Heq as Heq; subst;
       lia);
  try (exfalso;
       match goal with H : ¬ _ |- _ => apply H end;
       eexists; split; [reflexivity | lia]).

(** X2. After a recomputation the status of the row is a function of its
    progress and of whether its due date has passed: OVERDUE exactly when
    progress is below 100 and the due date is before today, COMPLETED
    exactly when progress is 100 or more, and otherwise ASSIGNED at
    progress 0 and IN_PROGRESS strictly between 0 and 100. *)
Theorem recompute_status_by_progress user course now db :
  ∃ db' e',
    recompute_enrollment_progress_for user course now db = Some db'
    ∧ enrollments db' !! (user, course) = Some e'
    ∧ let overdue := ∃ due, due_date e' = Some due ∧ due < date_of now in
      0 <= progress e'
      ∧ (status e' = Status.OVERDUE ↔ progress e' < 100 ∧ overdue)
      ∧ (status e' = Status.COMPLETED ↔ 100 <= progress e')
      ∧ (status e' = Status.ASSIGNED ↔ progress e' = 0 ∧ ¬ overdue)
      ∧ (status e' = Status.IN_PROGRESS
         ↔ 0 < progress e' < 100 ∧ ¬ overdue).
Proof.
  rewrite recompute_eq. eexists _, _. split; [reflexivity|]. simpl.
  split; [apply lookup_insert_eq|].
  pose proof (percent_of_nonneg user course db) as Hp.
  rewrite recomputed_progress, recomputed_status, recomputed_due_date.
  set (p := percent_of user course db) in *.
  split; [exact Hp|].
  destruct (due_date _) as [due|]; simpl.
  - destruct (Z.ltb_spec p 100), (Z.ltb_spec due (date_of now)),
      (Z.eqb_spec p 0); simpl; status_cases.
  - destruct (Z.ltb_spec p 100), (Z.eqb_spec p 0); simpl; status_cases.
Qed.

(** X3. When the material-progress rows respect the constraints of the
    schema (one row per user and material, each for a material of the
    material table), the progress written by a recomputation lies between 0
    and 100. *)
Theorem recompute_progress_bounds user course now db :
  material_progress_constraints db →
  ∃ db' e',
    recompute_enrollment_progress_for user course now db = Some db'
    ∧ enrollments db' !! (user, course) = Some e'
    ∧ 0 <= progress e' <= 100.
Proof.
  intros Hc. rewrite recompute_eq. eexists _, _. split; [reflexivity|].
  simpl. split; [apply lookup_insert_eq|].
  rewrite recomputed_progress. split.
  - apply percent_of_nonneg.
  - apply percent_of_le_100, completed_le_materials, Hc.
Qed.

Lemma recompute_progress_bounds_witness :
  ∃ db' e',
    recompute_enrollment_progress_for 1 1 7 ExampleHalf.db = Some db'
    ∧ enrollments db' !! (1%positive, 1%positive) = Some e'
    ∧ 0 <= progress e' <= 100.
Proof.
  apply (recompute_progress_bounds 1 1 7 ExampleHalf.db).
  split.
  - refine (bool_decide_unpack _ _). vm_compute. exact I.
  - apply Forall_forall.
    refine (bool_decide_unpack _ _). vm_compute. exact I.
Defined.

(** X4. When the course has materials and the user has completed as many as
    the course has, the recomputation writes progress 100 and status
    COMPLETED, also when the due date has passed, and [completed_at] is set
    afterwards. *)
Theorem recompute_all_done user course now db :
  course_materials_count course db ≠ 0 →
  completed_count user course db = course_materials_count course db →
  ∃ db' e',
    recompute_enrollment_progress_for user course now db = Some db'
    ∧ enrollments db' !! (user, course) = Some e'
    ∧ progress e' = 100
    ∧ status e' = Status.COMPLETED
    ∧ is_Some (completed_at e').
Proof.
  intros Hne Hall. rewrite recompute_eq. eexists _, _.
  split; [reflexivity|]. simpl. split; [apply lookup_insert_eq|].
  rewrite (percent_of_all_done _ _ _ Hne Hall).
  rewrite recomputed_status, recomputed_completed_at, recomputed_progress.
  split; [reflexivity|].
  destruct (due_date _); simpl; (split; [reflexivity|]);
    destruct (completed_at _); eauto.
Qed.

Lemma recompute_all_done_witness :
  ∃ db' e',
    recompute_enrollment_progress_for 1 1 ExampleOverdue.now
      ExampleHalf.all_done_db = Some db'
    ∧ enrollments db' !! (1%positive, 1%positive) = Some e'
    ∧ progress e' = 100
    ∧ status e' = Status.COMPLETED
    ∧ is_Some (completed_at e').
Proof.
  apply (recompute_all_done 1 1 ExampleOverdue.now ExampleHalf.all_done_db);
    vm_compute; [discriminate | reflexivity].
Defined.

Lemma grade_attempt_other_tables attempt t1 t2 db result db' :
  grade_attempt attempt t1 t2 db = Some (result, db') →
  materials db' = materials db
  ∧ material_progress db' = material_progress db.
Proof.
  intros H. apply grade_attempt_inv in H. injection H as _ <-.
  destruct (enrollments db !! _) as [enr|];
    [destruct (Float.ge_int _ _)|]; split; reflexivity.
Qed.

Lemma percent_of_tables user course db db' :
  materials db' = materials db →
  material_progress db' = material_progress db →
  percent_of user course db' = percent_of user course db.
Proof.
  intros Hm Hp.
  unfold percent_of, course_materials_count, completed_count.
  rewrite Hm, Hp. reflexivity.
Qed.

(** X5. A passed quiz completes the enrollment, but the next recomputation
    derives the status from the materials again: when the user has not
    completed enough materials to reach 100 percent, the enrollment that the
    quiz had set to COMPLETED leaves that status (and gets the materials'
    percentage as progress), while [completed_at] keeps the time of the
    quiz completion or an earlier one. *)
Theorem recompute_after_passed_quiz attempt t_finished t_completed now db
    result db1 enr :
  let user := attempt_user attempt in
  let course := quiz_course (attempt_quiz attempt) in
  grade_attempt attempt t_finished t_completed db = Some (result, db1) →
  passed result = true →
  enrollments db !! (user, course) = Some enr →
  percent_of user course db < 100 →
  ∃ e1 db2 e2,
    enrollments db1 !! (user, course) = Some e1
    ∧ status e1 = Status.COMPLETED ∧ progress e1 = 100
    ∧ recompute_enrollment_progress_for user course now db1 = Some db2
    ∧ enrollments db2 !! (user, course) = Some e2
    ∧ status e2 ≠ Status.COMPLETED
    ∧ progress e2 = percent_of user course db
    ∧ completed_at e2 = completed_at e1
    ∧ completed_at e2 = Some (default t_completed (completed_at enr)).
Proof.
  intros user course Hg Hpass Henr Hlt.
  destruct (grade_attempt_other_tables _ _ _ _ _ _ Hg) as [Hm Hmp].
  pose proof (grade_attempt_result _ _ _ _ _ _ Hg) as Hres.
  apply grade_attempt_inv in Hg. fold user course in Hg.
  rewrite Henr, <- Hres, Hpass in Hg. injection Hg as <-.
  pose proof (mark_completed_fields t_completed enr) as (Hs & Hp & Hc & _).
  exists (mark_completed t_completed enr).
  rewrite recompute_eq. eexists _, _.
  cbn [enrollments set_enrollments].
  split; [apply lookup_insert_eq|]. split; [exact Hs|]. split; [exact Hp|].
  split; [reflexivity|].
  cbn [enrollments set_enrollments].
  split; [apply lookup_insert_eq|].
  rewrite lookup_insert_eq. cbn [default from_option id].
  rewrite percent_of_set_enrollments.
  change (percent_of user course (update_attempt result db))
    with (percent_of user course db).
  rewrite recomputed_status, recomputed_progress, recomputed_completed_at.
  rewrite Hc. split; [|split; [reflexivity | split; reflexivity]].
  destruct (from_option _ false _); [simpl; discriminate|].
  destruct (Z.eqb_spec (percent_of user course db) 0); [simpl; discriminate|].
  destruct (Z.ltb_spec (percent_of user course db) 100);
    [simpl; discriminate | lia].
Qed.

Lemma recompute_after_passed_quiz_witness :
  ∃ e1 db2 e2,
    enrollments
      (default Example.empty_db
         (snd <$> grade_attempt (Example.attempt_at 50) 5 6 ExampleHalf.db))
      !! (1%positive, 1%positive) = Some e1
    ∧ status e1 = Status.COMPLETED ∧ progress e1 = 100
    ∧ recompute_enrollment_progress_for 1 1 7
        (default Example.empty_db
           (snd <$> grade_attempt (Example.attempt_at 50) 5 6 ExampleHalf.db))
      = Some db2
    ∧ enrollments db2 !! (1%positive, 1%positive) = Some e2
    ∧ status e2 ≠ Status.COMPLETED
    ∧ progress e2 = percent_of 1 1 ExampleHalf.db
    ∧ completed_at e2 = completed_at e1
    ∧ completed_at e2 = Some 6.
Proof.
  apply (recompute_after_passed_quiz (Example.attempt_at 50) 5 6 7
           ExampleHalf.db
           (graded (Example.attempt_at 50) 5 ExampleHalf.db)
           _ Enrollment_defaults).
  - rewrite grade_attempt_eq by (vm_compute; left). reflexivity.
  - vm_compute. reflexivity.
  - vm_compute. reflexivity.
  - vm_compute. reflexivity.
Defined.

(** ** Taking a quiz: what a POST stores *)

Lemma create_answers_stored request attempt qs db :
  answers (fold_left (create_answer request attempt) qs db)
  = answers db ++ map (stored_answer request attempt db) qs.
Proof.
  revert db. induction qs as [|q qs IH]; intros db; simpl.
  - by rewrite app_nil_r.
  - rewrite IH. simpl. rewrite <- app_assoc. reflexivity.
Qed.

Lemma obtained_stored_le request attempt db qs :
  (Spec.obtained (map (stored_answer request attempt db) qs)
   <= Spec.sum_N (map points qs))%N.
Proof.
  unfold Spec.obtained. induction qs as [|q qs IH]; simpl; [lia|].
  rewrite filter_cons.
  destruct (decide (Spec.earns_points _)); simpl; lia.
Qed.

Lemma filter_fresh_answers db (aid : pk) :
  answers_have_attempts db →
  aid = next_pk (seq_attempts (sequences db)) (map attempt_id (attempts db)) →
  filter (λ a, answer_attempt a = aid) (answers db) = [].
Proof.
  intros Hfk ->. apply elem_of_nil_inv. intros a Ha.
  apply list_elem_of_filter in Ha as [Hid Ha].
  apply Hfk in Ha. rewrite Hid in Ha.
  exact (next_pk_fresh _ _ _ Ha eq_refl).
Qed.

Lemma filter_all {A} (P : A → Prop) `{∀ x, Decision (P x)} (l : list A) :
  (∀ x, x ∈ l → P x) → filter P l = l.
Proof.
  induction l as [|x l IH]; intros Hall; [reflexivity|].
  rewrite filter_cons_True by (apply Hall; left).
  f_equal. apply IH. intros y Hy. apply Hall. by right.
Qed.

(** The score of an attempt whose answers earn no more than the quiz's
    total lies between 0 and 100. *)
Lemma graded_score_bounds attempt db :
  (Spec.obtained (attempt_answers attempt db)
   <= Spec.total_points (attempt_quiz attempt) db)%N →
  (0 <= graded_score attempt db)%Q ∧ (graded_score attempt db <= 100)%Q.
Proof.
  intros Hle. unfold graded_score.
  rewrite obtained_points_spec, sum_points_spec, or_1_max.
  unfold Spec.total_points in Hle.
  apply (round2_bounds _ 0 100); try lia;
    apply (nearest_bounds _ _ 0 100); lia.
Qed.

Lemma create_answers_fold request attempt qs rows db :
  fold_left (create_answer request attempt) qs (set_answers rows db)
  = set_answers (rows ++ map (stored_answer request attempt db) qs) db.
Proof.
  revert rows. induction qs as [|q qs IH]; intros rows; simpl.
  - by rewrite app_nil_r.
  - change (create_answer request attempt (set_answers rows db) q)
      with (set_answers (rows ++ [stored_answer request attempt db q]) db).
    rewrite IH, <- app_assoc. reflexivity.
Qed.

(** The database [quiz_take] hands to [grade_attempt] on a POST. *)
Lemma quiz_take_post_eq request quiz_pk t1 t2 db quiz :
  method request = POST →
  active_quiz quiz_pk db = Some quiz →
  let attempt := new_attempt quiz (user_id (request_user request)) db in
  let db2 :=
    set_answers
      (answers db
       ++ map (stored_answer request attempt db) (quiz_questions quiz db))
      (insert_attempt attempt db) in
  quiz_take request quiz_pk t1 t2 db
  = '(_, db') ← grade_attempt attempt t1 t2 db2;
    Some (Redirect "quiz_result", db').
Proof.
  intros Hm Hq attempt db2. unfold quiz_take, active_quiz in *.
  rewrite Hq, Hm.
  rewrite (bool_decide_eq_false_2 (POST = GET)) by discriminate.
  rewrite andb_false_r.
  rewrite (bool_decide_eq_true_2 (POST = POST)) by reflexivity.
  fold attempt. cbv zeta.
  set (db1 := insert_attempt attempt db).
  assert (H : fold_left (create_answer request attempt)
                (quiz_questions quiz db1) db1 = db2)
    by exact (create_answers_fold request attempt (quiz_questions quiz db)
                (answers db) db1).
  transitivity
    ('(_, db') ← grade_attempt attempt t1 t2
                   (fold_left (create_answer request attempt)
                              (quiz_questions quiz db1) db1);
     Some (Redirect "quiz_result", db')); [reflexivity|].
  rewrite H. reflexivity.
Qed.

Lemma ge_int_above (s : Float.float) k K :
  (s <= inject_Z K)%Q → K < k → Float.ge_int s k = false.
Proof.
  intros Hs Hk. unfold Float.ge_int.
  destruct (Qle_bool (inject_Z k) s) eqn:Hb; [|reflexivity].
  apply Qle_bool_iff in Hb.
  pose proof (Qle_trans _ _ _ Hb Hs) as H.
  unfold Qle in H. simpl in H. lia.
Qed.

Lemma stored_attempt_answers request quiz db :
  answers_have_attempts db →
  let attempt := new_attempt quiz (user_id (request_user request)) db in
  let new := map (stored_answer request attempt db) (quiz_questions quiz db) in
  filter (λ a, answer_attempt a = attempt_id attempt) (answers db ++ new)
  = new.
Proof.
  intros Hfk attempt new. rewrite filter_app.
  rewrite (filter_fresh_answers db (attempt_id attempt) Hfk eq_refl). simpl.
  apply filter_all. intros a Ha.
  apply list_elem_of_In, in_map_iff in Ha as (q & <- & _). reflexivity.
Qed.

Lemma grade_attempt_writes attempt t1 t2 db result db' :
  grade_attempt attempt t1 t2 db = Some (result, db') →
  db' = set_enrollments (enrollments db') (set_attempts (attempts db') db).
Proof.
  intros H. apply grade_attempt_inv in H. injection H as _ <-.
  destruct (enrollments db !! _) as [enr|];
    [destruct (Float.ge_int _ _)|]; reflexivity.
Qed.

(** The attempt is stored in the database [quiz_take] hands to
    [grade_attempt]. *)
Lemma quiz_take_attempt_stored request quiz db rows :
  let attempt := new_attempt quiz (user_id (request_user request)) db in
  attempt_stored attempt (set_answers rows (insert_attempt attempt db)).
Proof.
  intros attempt. unfold attempt_stored.
  cbn [attempts set_answers insert_attempt set_sequences set_attempts].
  rewrite map_app. apply elem_of_app. right. left.
Qed.

(** X6. A POST to an active quiz, in a database where every answer belongs
    to a stored attempt, stores exactly one new attempt, already graded:
    its key is larger than every key of the table and than every key the
    table has held, it carries the quiz and the user, [finished_at] is the
    grading time, the score lies between 0 and 100, [passed] compares it
    with the pass score (so a pass score above 100 is never reached), and
    one answer row per question of the quiz is appended. *)
Theorem quiz_take_post_stores_graded_attempt request quiz_pk t1 t2 db quiz :
  method request = POST →
  active_quiz quiz_pk db = Some quiz →
  answers_have_attempts db →
  ∃ db' result s,
    quiz_take request quiz_pk t1 t2 db = Some (Redirect "quiz_result", db')
    ∧ attempts db' = attempts db ++ [result]
    ∧ (∀ k, k ∈ map attempt_id (attempts db) →
            (k < attempt_id result)%positive)
    ∧ (seq_attempts (sequences db) < Npos (attempt_id result))%N
    ∧ seq_attempts (sequences db') = Npos (attempt_id result)
    ∧ attempt_quiz result = quiz
    ∧ attempt_user result = user_id (request_user request)
    ∧ finished_at result = Some t1
    ∧ score result = Some s
    ∧ (0 <= s)%Q ∧ (s <= 100)%Q
    ∧ passed result = Float.ge_int s (Z.of_N (pass_score quiz))
    ∧ ((100 < pass_score quiz)%N → passed result = false)
    ∧ answers db'
      = answers db
        ++ map (stored_answer request result db) (quiz_questions quiz db).
Proof.
  intros Hm Hq Hfk.
  set (attempt := new_attempt quiz (user_id (request_user request)) db).
  rewrite (quiz_take_post_eq _ _ _ _ _ _ Hm Hq). fold attempt.
  set (new := map (stored_answer request attempt db) (quiz_questions quiz db)).
  set (db2 := set_answers (answers db ++ new) (insert_attempt attempt db)).
  destruct (grade_attempt attempt t1 t2 db2) as [[result db3]|] eqn:Hg.
  2:{ rewrite grade_attempt_eq in Hg by apply quiz_take_attempt_stored.
      discriminate Hg. }
  pose proof (grade_attempt_result _ _ _ _ _ _ Hg) as Hres.
  destruct (grade_attempt_attempts _ _ _ _ _ _ Hg) as (Hatt & Hid & Hquiz & Huser).
  destruct (grade_attempt_tables _ _ _ _ _ _ Hg) as [_ Hans].
  pose proof (grade_attempt_writes _ _ _ _ _ _ Hg) as Hw.
  assert (Hb : (0 <= graded_score attempt db2)%Q
               ∧ (graded_score attempt db2 <= 100)%Q).
  { apply graded_score_bounds.
    unfold attempt_answers.
    change (answers db2) with (answers db ++ new).
    unfold new, attempt.
    rewrite (stored_attempt_answers request quiz db Hfk).
    apply obtained_stored_le. }
  exists db3, result, (graded_score attempt db2).
  split; [reflexivity|].
  split.
  { rewrite Hatt. change (attempts db2) with (attempts db ++ [attempt]).
    apply (save_fresh_attempt (seq_attempts (sequences db)));
      [exact Hid | reflexivity]. }
  split.
  { intros k Hk. rewrite Hid. apply next_pk_above, Hk. }
  split; [rewrite Hid; apply next_pk_after|].
  split; [rewrite Hw, Hid; reflexivity|].
  split; [exact Hquiz|]. split; [exact Huser|].
  rewrite Hres. split; [reflexivity|]. split; [reflexivity|].
  split; [apply Hb|]. split; [apply Hb|]. split; [reflexivity|].
  split; [|exact Hans].
  intros Hpass. apply (ge_int_above _ _ 100); [apply Hb | simpl; lia].
Qed.

Lemma stored_answer_choice request attempt db q c :
  selected_choice (stored_answer request attempt db q) = Some c →
  c ∈ choices db
  ∧ choice_question c = question_id q
  ∧ post_choice request (question_id q) = Some (Z.pos (choice_id c)).
Proof.
  unfold stored_answer, get_choice. simpl.
  destruct (post_choice request (question_id q)) as [k|]; [|discriminate].
  intros Hf. apply find_some in Hf as [Hin Hc].
  apply bool_decide_eq_true in Hc as [<- Hq].
  split; [apply list_elem_of_In, Hin|]. split; [exact Hq | reflexivity].
Qed.

Lemma quiz_take_post_stores_graded_attempt_witness :
  ∃ db' result s,
    quiz_take ExampleTake.post 1 8 9 ExampleTake.db
      = Some (Redirect "quiz_result", db')
    ∧ attempts db' = [result]
    ∧ attempt_id result = 1%positive
    ∧ attempt_user result = 1%positive
    ∧ finished_at result = Some 8
    ∧ score result = Some s
    ∧ (0 <= s)%Q ∧ (s <= 100)%Q
    ∧ length (answers db') = 3%nat.
Proof.
  destruct (quiz_take_post_stores_graded_attempt ExampleTake.post 1 8 9
              ExampleTake.db (Example.quiz_at 50))
    as (db' & result & s & Hrun & Hatt & _ & _ & _ & _ & Hu & Hf & Hs & H0
        & H100 & _ & _ & Hans).
  - reflexivity.
  - vm_compute. reflexivity.
  - intros a Ha. inversion Ha.
  - assert (Hdb : ExampleTake.taken = db')
      by (unfold ExampleTake.taken; rewrite Hrun; reflexivity).
    assert (Hid : map attempt_id (attempts ExampleTake.taken) = [1%positive])
      by (vm_compute; reflexivity).
    rewrite Hdb, Hatt in Hid. injection Hid as Hid.
    exists db', result, s. repeat split; try assumption.
    rewrite Hans. vm_compute. reflexivity.
Defined.

(** X7. The choice stored with an answer by [quiz_take] is a choice of the
    answered question: a posted choice key that is unknown, not an int, or
    the key of a choice of another question is stored as no selection.  So
    every answer of the attempt the POST appends that has a selected choice
    has a choice of the choice table whose question is the answered one and
    whose key is the one posted for that question. *)
Theorem quiz_take_selected_choices request quiz_pk t1 t2 db quiz response db' :
  method request = POST →
  active_quiz quiz_pk db = Some quiz →
  answers_have_attempts db →
  quiz_take request quiz_pk t1 t2 db = Some (response, db') →
  ∃ result,
    attempts db' = attempts db ++ [result]
    ∧ ∀ a c,
        a ∈ answers db' →
        answer_attempt a = attempt_id result →
        selected_choice a = Some c →
        c ∈ choices db'
        ∧ choice_question c = question_id (answer_question a)
        ∧ question_quiz (answer_question a) = quiz_id quiz
        ∧ post_choice request (question_id (answer_question a))
          = Some (Z.pos (choice_id c)).
Proof.
  intros Hm Hq Hfk.
  rewrite (quiz_take_post_eq _ _ _ _ _ _ Hm Hq).
  set (attempt := new_attempt quiz (user_id (request_user request)) db).
  destruct (grade_attempt attempt t1 t2 _) as [[result db3]|] eqn:Hg;
    [|discriminate].
  simpl. intros H. injection H as _ <-.
  pose proof (grade_attempt_writes _ _ _ _ _ _ Hg) as Hw.
  destruct (grade_attempt_attempts _ _ _ _ _ _ Hg) as (Hatt & Hid & _ & _).
  exists result. split.
  { rewrite Hatt.
    apply (save_fresh_attempt (seq_attempts (sequences db)));
      [exact Hid | reflexivity]. }
  rewrite Hw. cbn [answers choices set_enrollments set_attempts set_answers
                   insert_attempt set_sequences].
  intros a c Ha Haid Hsel. rewrite Hid in Haid.
  apply elem_of_app in Ha as [Hold | Hnew].
  - exfalso. apply Hfk in Hold. rewrite Haid in Hold.
    exact (next_pk_fresh _ _ _ Hold eq_refl).
  - apply list_elem_of_In, in_map_iff in Hnew as (q & <- & Hin).
    destruct (stored_answer_choice _ _ _ _ _ Hsel) as (Hc & Hcq & Hp).
    split; [exact Hc|]. split; [exact Hcq|]. split; [|exact Hp].
    apply list_elem_of_In, list_elem_of_filter in Hin as [Hqq _]. exact Hqq.
Qed.

Lemma quiz_take_selected_choices_witness :
  Example.right 1 1 ∈ choices ExampleTake.taken
  ∧ choice_question (Example.right 1 1)
    = question_id (answer_question ExampleTake.first_answer)
  ∧ question_quiz (answer_question ExampleTake.first_answer)
    = quiz_id (Example.quiz_at 50)
  ∧ post_choice ExampleTake.post
                (question_id (answer_question ExampleTake.first_answer))
    = Some (Z.pos (choice_id (Example.right 1 1))).
Proof.
  destruct (quiz_take_selected_choices ExampleTake.post 1 8 9 ExampleTake.db
              (Example.quiz_at 50) (Redirect "quiz_result") ExampleTake.taken
              eq_refl)
    as (result & Hatt & Hsel).
  - vm_compute. reflexivity.
  - intros x Hx. inversion Hx.
  - vm_compute. reflexivity.
  - apply (Hsel ExampleTake.first_answer (Example.right 1 1)).
    + vm_compute. constructor.
    + assert (Hid : map attempt_id (attempts ExampleTake.taken)
                    = map attempt_id (attempts ExampleTake.db ++ [result]))
        by (rewrite <- Hatt; reflexivity).
      change (attempts ExampleTake.db) with (@nil QuizAttempt) in Hid.
      cbn [app map] in Hid.
      assert (Hone : map attempt_id (attempts ExampleTake.taken)
                     = [1%positive]) by (vm_compute; reflexivity).
      rewrite Hone in Hid. injection Hid as <-. reflexivity.
    + reflexivity.
Defined.

(** X8. [quiz_take] writes only on POST to an active quiz.  An unknown or
    inactive quiz gives a 404 and an unchanged database for every method; a
    request other than POST leaves the database unchanged too, and is
    answered with the 403 page exactly when it is a GET and the user's
    attempts have reached [attempts_allowed] (1 when that field is 0). *)
Theorem quiz_take_reads_only request quiz_pk t1 t2 db :
  (active_quiz quiz_pk db = None →
   quiz_take request quiz_pk t1 t2 db = Some (Http404, db))
  ∧ (∀ quiz,
       active_quiz quiz_pk db = Some quiz →
       method request ≠ POST →
       ∃ response,
         quiz_take request quiz_pk t1 t2 db = Some (response, db)
         ∧ response ≠ Http404
         ∧ (response = Render "quiz_no_attempts.html" 403
            ↔ method request = GET
              ∧ (N.max (attempts_allowed quiz) 1
                 <= attempts_used quiz (user_id (request_user request)) db)%N)).
Proof.
  unfold quiz_take, active_quiz. split.
  - intros ->. reflexivity.
  - intros quiz -> Hm. rewrite or_1_max.
    destruct (method request) eqn:Hmeth; [|congruence|].
    + destruct (N.leb_spec (N.max (attempts_allowed quiz) 1)
                  (attempts_used quiz (user_id (request_user request)) db));
        simpl; eexists; (split; [reflexivity|]); (split; [discriminate|]).
      * split; [intros _; split; [reflexivity | assumption] | reflexivity].
      * split; [discriminate | intros [_ ?]; lia].
    + rewrite andb_false_r. simpl. eexists. split; [reflexivity|].
      split; [discriminate|].
      split; [discriminate | intros [? _]; discriminate].
Qed.

Lemma quiz_take_reads_only_witness :
  ∃ response,
    quiz_take ExampleTake.get 1 8 9 ExampleLimit.db
      = Some (response, ExampleLimit.db)
    ∧ response = Render "quiz_no_attempts.html" 403.
Proof.
  destruct (proj2 (quiz_take_reads_only ExampleTake.get 1 8 9 ExampleLimit.db)
              Example.quiz) as (response & Hrun & _ & Hiff).
  - vm_compute. reflexivity.
  - discriminate.
  - exists response. split; [exact Hrun|]. apply Hiff.
    split; [reflexivity|]. vm_compute. discriminate.
Defined.

(** ** Grading again, and the ends of the scale *)

Lemma mark_completed_idem t t' e :
  mark_completed t' (mark_completed t e) = mark_completed t e.
Proof. unfold mark_completed. destruct e as [? [?|] ? ? ? ? ?]; reflexivity. Qed.

(** A graded attempt has its row afterwards. *)
Lemma grade_attempt_keeps_stored attempt t1 t2 db result db' :
  grade_attempt attempt t1 t2 db = Some (result, db') →
  attempt_stored result db'.
Proof.
  intros Hg. pose proof (grade_attempt_stored _ _ _ _ _ _ Hg) as Hst.
  destruct (grade_attempt_attempts _ _ _ _ _ _ Hg) as (Hatt & Hid & _ & _).
  unfold attempt_stored in *. rewrite Hatt, Hid, map_map.
  apply list_elem_of_fmap in Hst as (r & Hr & Hin).
  apply list_elem_of_fmap. exists r. split; [|exact Hin].
  destruct (decide _); congruence.
Qed.

(** X9. Grading an attempt that has been graded (the admin action grades
    whatever is selected) computes the same score and pass flag, overwrites
    [finished_at] with the new grading time and leaves every enrollment as
    the first grading left it. *)
Theorem grade_attempt_again attempt t1 t2 t1' t2' db result db1 :
  grade_attempt attempt t1 t2 db = Some (result, db1) →
  ∃ result' db2,
    grade_attempt result t1' t2' db1 = Some (result', db2)
    ∧ score result' = score result
    ∧ passed result' = passed result
    ∧ finished_at result' = Some t1'
    ∧ enrollments db2 = enrollments db1.
Proof.
  intros Hg.
  pose proof (grade_attempt_result _ _ _ _ _ _ Hg) as Hres.
  pose proof (grade_attempt_writes _ _ _ _ _ _ Hg) as Hw.
  pose proof (grade_attempt_keeps_stored _ _ _ _ _ _ Hg) as Hst.
  apply grade_attempt_inv in Hg. injection Hg as _ Hdb.
  rewrite (grade_attempt_eq _ _ _ _ Hst). eexists _, _. split; [reflexivity|].
  assert (Hs : graded_score result db1 = graded_score attempt db).
  { rewrite Hw, Hres. reflexivity. }
  assert (Hq : attempt_quiz result = attempt_quiz attempt)
    by (rewrite Hres; reflexivity).
  assert (Hp : passed (graded result t1' db1) = passed result).
  { rewrite Hres at 2. unfold graded. simpl. rewrite Hs, Hq. reflexivity. }
  split; [unfold graded; simpl; rewrite Hs, Hres; reflexivity|].
  split; [exact Hp|]. split; [reflexivity|].
  assert (Hu : attempt_user result = attempt_user attempt)
    by (rewrite Hres; reflexivity).
  rewrite Hu, Hq, Hp.
  set (key := (attempt_user attempt, quiz_course (attempt_quiz attempt))) in *.
  rewrite <- Hdb.
  assert (Hpr : Float.ge_int (graded_score attempt db)
                  (Z.of_N (pass_score (attempt_quiz attempt)))
                = passed result) by (rewrite Hres; reflexivity).
  rewrite Hpr.
  destruct (enrollments db !! key) as [enr|] eqn:Hk.
  - rewrite <- Hres.
    destruct (passed result) eqn:Hpass.
    + cbn [enrollments set_enrollments]. rewrite lookup_insert_eq.
      cbn [enrollments set_enrollments].
      rewrite mark_completed_idem. apply insert_insert_eq.
    + cbn [enrollments update_attempt set_attempts]. rewrite Hk.
      reflexivity.
  - cbn [enrollments update_attempt set_attempts]. rewrite Hk. reflexivity.
Qed.

Lemma grade_attempt_again_witness :
  ∃ result' db2,
    grade_attempt (graded (Example.attempt_at 50) 5 ExampleCompleted.fresh_db)
      8 9
      (default Example.empty_db
         (snd <$> grade_attempt (Example.attempt_at 50) 5 6
                                ExampleCompleted.fresh_db))
    = Some (result', db2)
    ∧ score result' = Some 50%Q
    ∧ passed result' = true
    ∧ finished_at result' = Some 8.
Proof.
  destruct (grade_attempt_again (Example.attempt_at 50) 5 6 8 9
              ExampleCompleted.fresh_db
              (graded (Example.attempt_at 50) 5 ExampleCompleted.fresh_db)
              (default Example.empty_db
                 (snd <$> grade_attempt (Example.attempt_at 50) 5 6
                                        ExampleCompleted.fresh_db)))
    as (result' & db2 & Hrun & Hs & Hp & Hf & _).
  - rewrite grade_attempt_eq by (vm_compute; left). reflexivity.
  - exists result', db2. split; [exact Hrun|].
    rewrite Hs, Hp. split; [vm_compute; reflexivity|].
    split; [vm_compute; reflexivity | exact Hf].
Defined.

Lemma graded_score_nonneg attempt db : (0 <= graded_score attempt db)%Q.
Proof.
  unfold graded_score, Float.round2.
  set (x := Float.nearest (100 * _) _).
  assert (Hx : (0 <= x)%Q).
  { apply nearest_nonneg; [lia|].
    pose proof (or_1_nonzero
                  (sum_points (quiz_questions (attempt_quiz attempt) db))).
    lia. }
  apply nearest_nonneg; [|lia].
  unfold Qle in Hx. simpl in Hx. apply (rne_ge _ _ 0); lia.
Qed.

(** X10. The ends of the scale, for an attempt that has a row.  An attempt
    none of whose answers earns points (every question SHORT_TEXT, nothing
    or a wrong choice selected) is graded 0.0 and passes only a pass score
    of 0; an attempt that earns the quiz's whole non-zero total is graded
    100.0 and passes exactly when the pass score is at most 100; and a pass
    score of 0 is passed by every attempt. *)
Theorem grade_attempt_extremes attempt t_finished t_completed db :
  attempt_stored attempt db →
  let quiz := attempt_quiz attempt in
  let answers := attempt_answers attempt db in
  ∃ result db',
    grade_attempt attempt t_finished t_completed db = Some (result, db')
    ∧ ((∀ a, a ∈ answers → ¬ Spec.earns_points a) →
       score result = Some 0%Q
       ∧ passed result = bool_decide (pass_score quiz = 0%N))
    ∧ (Spec.total_points quiz db ≠ 0%N →
       Spec.obtained answers = Spec.total_points quiz db →
       score result = Some 100%Q
       ∧ passed result = bool_decide (pass_score quiz <= 100)%N)
    ∧ (pass_score quiz = 0%N → passed result = true).
Proof.
  intros Hst quiz answers. rewrite (grade_attempt_eq _ _ _ _ Hst).
  eexists _, _. split; [reflexivity|].
  unfold graded. cbn [score passed set_result]. fold quiz.
  split; [|split].
  - intros Hnone.
    assert (Hobt : Spec.obtained answers = 0%N).
    { unfold Spec.obtained.
      replace (filter Spec.earns_points answers) with (@nil QuizAnswer);
        [reflexivity|].
      symmetry. apply elem_of_nil_inv. intros a Ha.
      apply list_elem_of_filter in Ha as [He Ha]. exact (Hnone a Ha He). }
    assert (H0 : graded_score attempt db = 0%Q).
    { unfold graded_score. rewrite obtained_points_spec. fold answers.
      rewrite Hobt. reflexivity. }
    rewrite H0. split; [reflexivity|].
    change 0%Q with (inject_Z 0). rewrite ge_int_inject_Z.
    destruct (Z.leb_spec (Z.of_N (pass_score quiz)) 0);
      case_bool_decide; lia.
  - intros Hne Hall.
    assert (H100 : graded_score attempt db = inject_Z 100).
    { unfold graded_score.
      rewrite obtained_points_spec, sum_points_spec, or_1_max.
      fold answers. rewrite Hall. unfold Spec.total_points in *. fold quiz.
      rewrite N.max_l by lia.
      rewrite nearest_exact by lia. apply round2_inject_Z; lia. }
    rewrite H100. split; [reflexivity|]. rewrite ge_int_inject_Z.
    destruct (Z.leb_spec (Z.of_N (pass_score quiz)) 100);
      case_bool_decide; lia.
  - intros Hp. rewrite Hp. simpl.
    pose proof (graded_score_nonneg attempt db) as H.
    unfold Float.ge_int. apply Qle_bool_iff. exact H.
Qed.

Lemma grade_attempt_extremes_witness :
  (∃ result db',
     grade_attempt Example.attempt 5 6 Example.missed_db = Some (result, db')
     ∧ score result = Some 0%Q
     ∧ passed result = false)
  ∧ (∃ result db',
       grade_attempt Example.attempt 5 6 Example.full_db = Some (result, db')
       ∧ score result = Some 100%Q
       ∧ passed result = true).
Proof.
  split.
  - destruct (grade_attempt_extremes Example.attempt 5 6 Example.missed_db)
      as (result & db' & Hrun & Hzero & _ & _).
    { vm_compute. left. }
    exists result, db'. split; [exact Hrun|].
    apply Hzero. intros a Ha.
    vm_compute in Ha.
    repeat (apply elem_of_cons in Ha as [->|Ha]);
      try (inversion Ha);
      intros [_ (c & Hc & Hok)]; try discriminate Hc;
      injection Hc as <-; discriminate Hok.
  - destruct (grade_attempt_extremes Example.attempt 5 6 Example.full_db)
      as (result & db' & Hrun & _ & Hfull & _).
    { vm_compute. left. }
    exists result, db'. split; [exact Hrun|].
    apply Hfull; vm_compute; [discriminate | reflexivity].
Defined.

(** ** The rule engine applied again, and at user creation *)

Lemma due_of_none today today' r : due_of today r = None → due_of today' r = None.
Proof.
  unfold due_of. destruct (due_in_days r) as [n|]; [|reflexivity].
  destruct (n =? 0)%N; [reflexivity | discriminate].
Qed.

Lemma first_due_member today rs r :
  first_due today rs = None → r ∈ rs → due_of today r = None.
Proof.
  induction rs as [|x rs IH]; intros Hf Hin; [inversion Hin|].
  simpl in Hf. destruct (due_of today x) eqn:Hx; [discriminate|].
  apply elem_of_cons in Hin as [->|Hin]; [exact Hx | exact (IH Hf Hin)].
Qed.

(** A turn of the loop for a pair that has a row whose due date is set, or
    with no due date to fill in, writes nothing. *)
Lemma assign_course_fixed u c due by_user req auto tbl e :
  tbl !! (u, c) = Some e →
  (due_date e = None → due = None) →
  (assign_course u c due by_user req auto tbl).2 = tbl.
Proof.
  intros He Hd. unfold assign_course, get_or_create. rewrite He.
  cbn [negb andb].
  destruct due as [d|]; [|reflexivity].
  destruct (due_date e) as [x|] eqn:Hx.
  - rewrite (bool_decide_eq_true_2 (is_Some (Some x))) by eauto.
    rewrite andb_false_r. reflexivity.
  - discriminate (Hd eq_refl).
Qed.

Lemma set_enrollments_id db : set_enrollments (enrollments db) db = db.
Proof. destruct db; reflexivity. Qed.

Lemma assign_rows_fixed user today rows db :
  (∀ r, r ∈ rows →
        ∃ e, enrollments db !! (user_id user, rule_course r) = Some e
             ∧ (due_date e = None → due_of today r = None)) →
  assign_rows user today rows db
  = if decide (Forall (due_in_range today) rows) then Returned db
    else Raised db.
Proof.
  induction rows as [|r rows IH]; intros Hrows.
  - rewrite decide_True by constructor. reflexivity.
  - cbn [assign_rows].
    destruct (Hrows r) as (e & He & Hd); [left|].
    destruct (decide (due_in_range today r)) as [Hr|Hr].
    + rewrite (rule_due_in_range today r Hr).
      pose proof (assign_course_fixed (user_id user) (rule_course r)
                    (due_of today r) None (rule_required r) true
                    (enrollments db) e He Hd) as Hfix.
      destruct (assign_course _ _ _ _ _ _ _) as [[obj created] tbl].
      simpl in Hfix. subst tbl. rewrite set_enrollments_id.
      rewrite IH by (intros r' Hr'; apply Hrows; right; exact Hr').
      destruct (decide (Forall _ rows)) as [Hall|Hall].
      * rewrite decide_True by (constructor; assumption). reflexivity.
      * rewrite decide_False; [reflexivity|].
        intros Hc. apply Hall. apply Forall_cons in Hc as [_ Hc]. exact Hc.
    + rewrite (rule_due_overflow today r Hr).
      rewrite decide_False; [reflexivity|].
      intros Hc. apply Hr. apply Forall_cons in Hc as [Hc _]. exact Hc.
Qed.

(** X11. Applying the rules to a user a second time, at any later moment
    and as long as the rules and the user are the same, writes nothing: when
    the first run has returned, the second returns the database of the first
    when the due dates of the matching rules are still dates, and raises
    before any write otherwise. *)
Theorem assign_by_rules_idempotent user now now' db db1 :
  let matching := filter (Spec.rule_matches user) (rules db) in
  assign_by_rules user now db = Returned db1 →
  ((∀ r, r ∈ matching → due_in_range (date_of now') r) →
   assign_by_rules user now' db1 = Returned db1)
  ∧ ((∃ r, r ∈ matching ∧ ¬ due_in_range (date_of now') r) →
     assign_by_rules user now' db1 = Raised db1).
Proof.
  intros matching Hrun.
  assert (Hrange : ∀ r, r ∈ matching → due_in_range (date_of now) r).
  { intros r Hr.
    destruct (decide (due_in_range (date_of now) r)) as [H|H]; [exact H|].
    exfalso. unfold assign_by_rules in Hrun. cbv zeta in Hrun.
    rewrite rows_matching in Hrun.
    destruct (assign_rows_overflow user (date_of now) matching db) as [x Hx];
      [exists r; split; assumption|].
    fold matching in Hrun. rewrite Hx in Hrun. discriminate. }
  rewrite (assign_by_rules_returns user now db Hrange) in Hrun.
  injection Hrun as <-.
  assert (Hfix : assign_by_rules user now'
                   (set_enrollments (assigned user now db) db)
                 = if decide (Forall (due_in_range (date_of now')) matching)
                   then Returned (set_enrollments (assigned user now db) db)
                   else Raised (set_enrollments (assigned user now db) db)).
  { unfold assign_by_rules. cbv zeta. rewrite rows_matching.
    change (rules (set_enrollments (assigned user now db) db))
      with (rules db). fold matching.
    apply assign_rows_fixed. intros r Hr.
    cbn [enrollments set_enrollments].
    rewrite assign_by_rules_lookup. rewrite decide_True by reflexivity.
    fold matching.
    assert (Hin : r ∈ filter (λ x, rule_course x = rule_course r) matching)
      by (apply list_elem_of_filter; split; [reflexivity | exact Hr]).
    destruct (filter _ matching) as [|x xs] eqn:Hxs; [inversion Hin|].
    eexists. split; [reflexivity|]. intros Hd.
    apply (due_of_none (date_of now)).
    apply (first_due_member _ (x :: xs)); [|exact Hin].
    destruct (enrollments db !! (user_id user, rule_course r)) as [e|].
    - destruct (backfill_fields (first_due (date_of now) (x :: xs)) e)
        as [_ Hb]. rewrite Hb in Hd.
      destruct (due_date e); [discriminate | exact Hd].
    - exact Hd. }
  rewrite Hfix. split.
  - intros Hall. rewrite decide_True; [reflexivity|].
    apply Forall_forall. exact Hall.
  - intros (r & Hr & Hno). rewrite decide_False; [reflexivity|].
    intros Hall. apply Hno. exact (proj1 (Forall_forall _ _) Hall r Hr).
Qed.

Lemma assign_by_rules_idempotent_witness :
  let db1 := set_enrollments
               (assigned ExampleRules.newcomer ExampleRules.now
                         (ExampleRules.db (Some 7%N)))
               (ExampleRules.db (Some 7%N)) in
  assign_by_rules ExampleRules.newcomer (ExampleRules.now + 86400000000) db1
  = Returned db1
  ∧ assign_by_rules ExampleRules.newcomer (date_max * 86400000000) db1
    = Raised db1.
Proof.
  intros db1. split.
  - apply (assign_by_rules_idempotent ExampleRules.newcomer ExampleRules.now
             (ExampleRules.now + 86400000000) (ExampleRules.db (Some 7%N)));
      [vm_compute; reflexivity|].
    refine (proj1 (Forall_forall _ _) _).
    apply (bool_decide_unpack _). vm_compute. exact I.
  - apply (assign_by_rules_idempotent ExampleRules.newcomer ExampleRules.now
             (date_max * 86400000000) (ExampleRules.db (Some 7%N)));
      [vm_compute; reflexivity|].
    exists (ExampleRules.rule (Some 7%N)). split; [vm_compute; left|].
    apply (bool_decide_unpack _). vm_compute. exact I.
Defined.




(** X13. The receiver of a saved [MaterialProgress] recomputes the
    enrollment of the row's user in the course of the row's material.  When
    100 * done / total is a whole number the floating-point division and
    rounding return exactly that number as progress. *)
Theorem update_enrollment_progress_exact instance now db k :
  let user := mp_user instance in
  let course := material_course (mp_material instance) in
  course_materials_count course db ≠ 0 →
  0 <= k → k < 2 ^ 51 →
  100 * completed_count user course db = k * course_materials_count course db →
  ∃ db' e',
    update_enrollment_progress instance now db = Some db'
    ∧ enrollments db' !! (user, course) = Some e'
    ∧ progress e' = k.
Proof.
  intros user course Hne Hk HK Hdiv. unfold update_enrollment_progress.
  fold user course. rewrite recompute_eq. eexists _, _.
  split; [reflexivity|]. cbn [enrollments set_enrollments].
  split; [apply lookup_insert_eq|].
  rewrite recomputed_progress. unfold percent_of.
  destruct (Z.eqb_spec (course_materials_count course db) 0); [lia|].
  rewrite Hdiv, nearest_exact; [apply round_inject_Z | | lia | lia].
  unfold course_materials_count in *. lia.
Qed.

Lemma update_enrollment_progress_exact_witness :
  ∃ db' e',
    update_enrollment_progress (ExampleHalf.done 2) 7 ExampleHalf.db = Some db'
    ∧ enrollments db' !! (1%positive, 1%positive) = Some e'
    ∧ progress e' = 50.
Proof.
  apply (update_enrollment_progress_exact (ExampleHalf.done 2) 7
           ExampleHalf.db 50); vm_compute; try reflexivity; discriminate.
Defined.

(** ** Bulk enrollment *)

Lemma bulk_enroll_user_eq course p now created skipped tbl x :
  views.bulk_enroll_user course p now (created, skipped, tbl) x
  = match tbl !! (user_id x, course) with
    | Some _ => (created, S skipped, tbl)
    | None =>
        (S created, skipped, <[(user_id x, course) := bulk_row p now]> tbl)
    end.
Proof.
  unfold views.bulk_enroll_user, get_or_create, bulk_row.
  destruct (tbl !! (user_id x, course)); [reflexivity|].
  destruct (100 <=? p); [rewrite insert_insert_eq|]; reflexivity.
Qed.

Lemma filter_ext_elem {A} (P Q : A → Prop)
    `{∀ x, Decision (P x)} `{∀ x, Decision (Q x)} (l : list A) :
  (∀ x, x ∈ l → P x ↔ Q x) → filter P l = filter Q l.
Proof.
  induction l as [|x l IH]; intros Hext; [reflexivity|].
  rewrite !filter_cons.
  assert (Hx : P x ↔ Q x) by (apply Hext; left).
  rewrite IH by (intros y Hy; apply Hext; by right).
  destruct (decide (P x)), (decide (Q x)); tauto.
Qed.

Lemma bulk_enroll_fold course p now us :
  ∀ created skipped tbl,
    NoDup (user_id <$> us) →
    ∃ tbl',
      fold_left (views.bulk_enroll_user course p now) us (created, skipped, tbl)
      = ((length (filter (λ u, tbl !! (user_id u, course) = None) us)
          + created)%nat,
         (length (filter (λ u, is_Some (tbl !! (user_id u, course))) us)
          + skipped)%nat,
         tbl')
      ∧ ∀ u c,
          tbl' !! (u, c)
          = match tbl !! (u, c) with
            | Some e => Some e
            | None =>
                if bool_decide (c = course ∧ u ∈ user_id <$> us)
                then Some (bulk_row p now) else None
            end.
Proof.
  induction us as [|x us IH]; intros created skipped tbl Hnd.
  - exists tbl. split; [reflexivity|].
    intros u c. destruct (tbl !! (u, c)); [reflexivity|].
    rewrite bool_decide_eq_false_2; [reflexivity|].
    intros [_ H]. inversion H.
  - rewrite fmap_cons in Hnd. apply NoDup_cons in Hnd as [Hx Hnd].
    cbn [fold_left]. rewrite bulk_enroll_user_eq, !filter_cons.
    destruct (tbl !! (user_id x, course)) as [e|] eqn:Hlook.
    + rewrite decide_False by (intros H; discriminate).
      rewrite decide_True by eauto.
      destruct (IH created (S skipped) tbl Hnd) as (tbl' & Hfold & Htbl).
      exists tbl'. split.
      * rewrite Hfold. cbn [length]. rewrite Nat.add_succ_comm. reflexivity.
      * intros u c. rewrite Htbl.
        destruct (tbl !! (u, c)) as [e'|] eqn:Huc; [reflexivity|].
        rewrite (bool_decide_ext (c = course ∧ u ∈ user_id <$> us)
                   (c = course ∧ u ∈ user_id <$> x :: us)); [reflexivity|].
        rewrite fmap_cons, elem_of_cons. split; [tauto|].
        intros [-> [->|H]]; [congruence | tauto].
    + rewrite decide_True by reflexivity.
      rewrite decide_False by (intros [? ?]; discriminate).
      destruct (IH (S created) skipped
                  (<[(user_id x, course) := bulk_row p now]> tbl) Hnd)
        as (tbl' & Hfold & Htbl).
      assert (Hsame : ∀ u, u ∈ us →
                <[(user_id x, course) := bulk_row p now]> tbl
                  !! (user_id u, course) = tbl !! (user_id u, course)).
      { intros u Hu. apply lookup_insert_ne. intros Heq.
        injection Heq as Heq. apply Hx. rewrite Heq.
        apply list_elem_of_fmap_2, Hu. }
      exists tbl'. split.
      * rewrite Hfold. cbn [length].
        rewrite (filter_ext_elem
                   (λ u, <[(user_id x, course) := bulk_row p now]> tbl
                           !! (user_id u, course) = None)
                   (λ u, tbl !! (user_id u, course) = None) us)
          by (intros u Hu; rewrite (Hsame u Hu); reflexivity).
        rewrite (filter_ext_elem
                   (λ u, is_Some (<[(user_id x, course) := bulk_row p now]> tbl
                                    !! (user_id u, course)))
                   (λ u, is_Some (tbl !! (user_id u, course))) us)
          by (intros u Hu; rewrite (Hsame u Hu); reflexivity).
        rewrite Nat.add_succ_comm. reflexivity.
      * intros u c. rewrite Htbl.
        destruct (decide ((user_id x, course) = (u, c))) as [Heq|Hne].
        -- injection Heq as <- <-. rewrite lookup_insert_eq, Hlook.
           rewrite bool_decide_eq_true_2; [reflexivity|].
           split; [reflexivity | rewrite fmap_cons; left].
        -- rewrite lookup_insert_ne by exact Hne.
           destruct (tbl !! (u, c)); [reflexivity|].
           rewrite (bool_decide_ext (c = course ∧ u ∈ user_id <$> us)
                      (c = course ∧ u ∈ user_id <$> x :: us));
             [reflexivity|].
           rewrite fmap_cons, elem_of_cons. split; [tauto|].
           intros [-> [->|H]]; [congruence | tauto].
Qed.

Lemma find_pk (table : list pk) (key : pk) :
  key ∈ table → List.find (λ c, bool_decide (c = key)) table = Some key.
Proof.
  induction table as [|x table IH]; intros Hin; [inversion Hin|].
  simpl. case_bool_decide as Hx; [congruence|].
  apply IH. apply elem_of_cons in Hin as [->|Hin]; [congruence | exact Hin].
Qed.

Lemma find_pk_not_in (table : list pk) (key : pk) :
  key ∉ table → List.find (λ c, bool_decide (c = key)) table = None.
Proof.
  induction table as [|x table IH]; intros Hin; [reflexivity|].
  simpl. apply not_elem_of_cons in Hin as [Hne Hin].
  rewrite bool_decide_eq_false_2 by congruence. apply IH, Hin.
Qed.

Lemma clamp_progress_eq posted :
  (let initial := default 0 posted in
   let initial := if initial <? 0 then 0 else initial in
   if 100 <? initial then 100 else initial)
  = clamp_progress posted.
Proof.
  unfold clamp_progress. cbv zeta.
  destruct (Z.ltb_spec (default 0 posted) 0);
    [destruct (Z.ltb_spec 100 0) | destruct (Z.ltb_spec 100 (default 0 posted))];
    lia.
Qed.

Lemma NoDup_filter_ids (P : User → Prop) `{∀ u, Decision (P u)} us :
  NoDup (user_id <$> us) → NoDup (user_id <$> filter P us).
Proof.
  induction us as [|x us IH]; intros Hnd; [constructor|].
  rewrite fmap_cons in Hnd. apply NoDup_cons in Hnd as [Hx Hnd].
  rewrite filter_cons. destruct (decide (P x)); [|apply IH, Hnd].
  rewrite fmap_cons. apply NoDup_cons. split; [|apply IH, Hnd].
  intros Hin. apply Hx.
  apply list_elem_of_fmap in Hin as (y & -> & Hy).
  apply list_elem_of_filter in Hy as [_ Hy].
  apply list_elem_of_fmap_2, Hy.
Qed.

(** X14. A bulk enrollment is carried out for an admin, for a manager of
    the posted department, and also for a user who is neither manager nor
    admin.  With distinct user keys it creates a row for exactly the members
    of the department without an enrollment in the course and reports their
    number as created and the number of the others as skipped; no existing
    row and no other table changes.  The created rows carry the posted
    progress clamped to 0..100, the default status, and [completed_at] when
    that progress is 100. *)
Theorem course_bulk_enroll_effect request course now db d :
  let u := views.form_user request in
  let members := filter (λ m, views.user_department m = Some d) (users db) in
  let p := clamp_progress (views.post_initial_progress request) in
  views.form_method request = POST →
  course ∈ courses db →
  views.get_pk (departments db) (views.post_department_id request) = Some d →
  views._is_admin u = true ∨ views._is_manager u = false
  ∨ views.user_department u = Some d →
  NoDup (user_id <$> users db) →
  ∃ db',
    views.course_bulk_enroll request course now db
    = (Redirect "enrollments_list",
       [MsgBulkEnrollOK d
          (length (filter (λ m, enrollments db !! (user_id m, course) = None)
                          members))
          (length (filter (λ m, is_Some (enrollments db !! (user_id m, course)))
                          members))],
       db')
    ∧ db' = set_enrollments (enrollments db') db
    ∧ 0 <= p <= 100
    ∧ bulk_row p now
      = {| progress := p;
           completed_at := if decide (p = 100) then Some now else None;
           status := Status.ASSIGNED; due_date := None; required := true;
           auto_enrolled := false; assigned_by := None |}
    ∧ ∀ v c,
        enrollments db' !! (v, c)
        = match enrollments db !! (v, c) with
          | Some e => Some e
          | None =>
              if bool_decide (c = course ∧ v ∈ user_id <$> members)
              then Some (bulk_row p now) else None
          end.
Proof.
  intros u members p Hm Hc Hd Hauth Hnd.
  unfold views.course_bulk_enroll.
  rewrite (find_pk _ _ Hc), Hm, Hd.
  rewrite (bool_decide_eq_true_2 (POST = POST)) by reflexivity.
  fold u. rewrite clamp_progress_eq. fold p.
  assert (Hguard : views._is_manager u && negb (views._is_admin u)
                   && (negb (bool_decide (is_Some (views.user_department u)))
                       || negb (bool_decide (is_Some (Some d)))
                       || negb (bool_decide (Some d = views.user_department u)))
                   = false).
  { destruct Hauth as [-> | [-> | Hown]].
    - rewrite andb_false_r. reflexivity.
    - reflexivity.
    - rewrite Hown.
      rewrite (bool_decide_eq_true_2 (is_Some (Some d))) by eauto.
      rewrite (bool_decide_eq_true_2 (Some d = Some d)) by reflexivity.
      simpl. apply andb_false_r. }
  rewrite Hguard. fold members.
  destruct (bulk_enroll_fold course p now members 0%nat 0%nat (enrollments db)
              (NoDup_filter_ids _ _ Hnd)) as (tbl' & Hfold & Htbl).
  rewrite Hfold, !Nat.add_0_r.
  eexists. split; [reflexivity|]. split; [reflexivity|].
  assert (Hp : 0 <= p <= 100) by (unfold p, clamp_progress; lia).
  split; [exact Hp|]. split; [|exact Htbl].
  unfold bulk_row. destruct (Z.leb_spec 100 p), (decide (p = 100));
    try lia; reflexivity.
Qed.

Lemma course_bulk_enroll_effect_witness :
  ∃ db',
    views.course_bulk_enroll (ExampleDepartment.form ExampleBulk.admin) 1 7
                             ExampleDepartment.db
    = (Redirect "enrollments_list", [MsgBulkEnrollOK 1 2 3], db')
    ∧ enrollments db' !! (4%positive, 1%positive)
      = Some (bulk_row 100 7)
    ∧ enrollments db' !! (1%positive, 1%positive) = Some Enrollment_defaults.
Proof.
  destruct (course_bulk_enroll_effect (ExampleDepartment.form ExampleBulk.admin)
              1 7 ExampleDepartment.db 1)
    as (db' & Hrun & _ & _ & _ & Htbl).
  - reflexivity.
  - left.
  - reflexivity.
  - left. reflexivity.
  - refine (bool_decide_unpack _ _). vm_compute. exact I.
  - exists db'. split; [exact Hrun|].
    rewrite !Htbl. split; vm_compute; reflexivity.
Defined.

(** X15. [course_bulk_enroll] writes only on the success redirect: every
    other answer (unknown course, GET, no department, refused manager)
    leaves the database unchanged.  A manager who is not an admin and posts
    a department that is not the manager's own, or has no department, is
    refused with the error message. *)
Theorem course_bulk_enroll_refusals request course now db :
  let u := views.form_user request in
  let result := views.course_bulk_enroll request course now db in
  (result.1.1 ≠ Redirect "enrollments_list" → result.2 = db)
  ∧ (views.form_method request = POST →
     course ∈ courses db →
     views._is_manager u = true →
     views._is_admin u = false →
     views.get_pk (departments db) (views.post_department_id request)
       ≠ views.user_department u
     ∨ views.user_department u = None →
     result
     = (Redirect "course_bulk_enroll",
        [MsgError "Managers can only bulk enroll their own department."],
        db)).
Proof.
  intros u result. unfold result, views.course_bulk_enroll. split.
  - destruct (List.find _ (courses db)); [|reflexivity].
    destruct (bool_decide (views.form_method request = POST)); [|reflexivity].
    cbv zeta. destruct (_ && _ && _); [reflexivity|].
    destruct (views.get_pk _ _); [|reflexivity].
    destruct (fold_left _ _ _) as [[created skipped] tbl]. simpl.
    intros H. congruence.
  - intros Hm Hc Hmgr Hadm Hother.
    rewrite (find_pk _ _ Hc), Hm.
    rewrite (bool_decide_eq_true_2 (POST = POST)) by reflexivity.
    cbv zeta. fold u. rewrite Hmgr, Hadm.
    set (dept := views.get_pk _ _) in *.
    assert (Hg : negb (bool_decide (is_Some (views.user_department u)))
                 || negb (bool_decide (is_Some dept))
                 || negb (bool_decide (dept = views.user_department u))
                 = true).
    { destruct Hother as [Hne | Hnone].
      - rewrite (bool_decide_eq_false_2 _ Hne). simpl.
        rewrite !orb_true_r. reflexivity.
      - rewrite Hnone.
        rewrite (bool_decide_eq_false_2 (is_Some None));
          [reflexivity | apply is_Some_None]. }
    rewrite Hg. reflexivity.
Qed.

Lemma course_bulk_enroll_refusals_witness :
  views.course_bulk_enroll (ExampleDepartment.form ExampleDepartment.manager)
                           1 7 ExampleDepartment.db
  = (Redirect "course_bulk_enroll",
     [MsgError "Managers can only bulk enroll their own department."],
     ExampleDepartment.db).
Proof.
  apply (proj2 (course_bulk_enroll_refusals
                  (ExampleDepartment.form ExampleDepartment.manager) 1 7
                  ExampleDepartment.db)).
  - reflexivity.
  - left.
  - reflexivity.
  - reflexivity.
  - left. vm_compute. discriminate.
Defined.

(** ** Creating one enrollment *)

(** X16. A POST of the single-enrollment form.  A user or course field that
    is empty or not an int raises; an absent field, or a key within 64 bits
    that no row has, is answered 404, the user before the course; nothing is
    written in either case.  For an existing user and course the view
    raises, writing nothing, when the progress field is not an int, the pair
    is already enrolled, or the posted progress is negative or beyond the 64
    bits of the column.  Otherwise it adds one row and changes no other: the
    row has the posted progress as it is (0 for an absent or empty field;
    values above 100 are not clamped, unlike in the bulk form), the default
    status ASSIGNED, and [completed_at] exactly when the progress is 100 or
    more. *)
Theorem enrollment_create_effect request now db :
  let user_field := views.post_user_id request in
  let course_field := views.post_course_id request in
  let no_int f := f = views.Empty ∨ f = views.OtherText in
  let no_row (table : list pk) f :=
    f = views.Absent
    ∨ ∃ k, f = views.IntText k ∧ - 2 ^ 63 <= k <= sqlite_max_int
           ∧ ∀ x, x ∈ table → Zpos x ≠ k in
  let found (table : list pk) f (x : pk) :=
    f = views.IntText (Zpos x) ∧ x ∈ table in
  views.form_method request = POST →
  (no_int user_field → views.enrollment_create request now db = None)
  ∧ (no_row (map user_id (users db)) user_field →
     views.enrollment_create request now db = Some (Http404, [], db))
  ∧ ∀ u, found (map user_id (users db)) user_field u →
      (no_int course_field → views.enrollment_create request now db = None)
      ∧ (no_row (courses db) course_field →
         views.enrollment_create request now db = Some (Http404, [], db))
      ∧ ∀ c, found (courses db) course_field c →
          (views.post_progress request = views.OtherText →
           views.enrollment_create request now db = None)
          ∧ ∀ p,
              views.post_progress request = views.IntText p
              ∨ (p = 0 ∧ (views.post_progress request = views.Absent
                          ∨ views.post_progress request = views.Empty)) →
              (is_Some (enrollments db !! (u, c)) ∨ p < 0
               ∨ sqlite_max_int < p →
               views.enrollment_create request now db = None)
              ∧ (enrollments db !! (u, c) = None →
                 0 <= p <= sqlite_max_int →
                 ∃ db',
                   views.enrollment_create request now db
                   = Some (Redirect "enrollments_list",
                           [MsgSuccess "Enrollment created."], db')
                   ∧ db' = set_enrollments (enrollments db') db
                   ∧ (∀ key, key ≠ (u, c) →
                        enrollments db' !! key = enrollments db !! key)
                   ∧ enrollments db' !! (u, c)
                     = Some {| progress := p;
                               completed_at :=
                                 if 100 <=? p then Some now else None;
                               status := Status.ASSIGNED; due_date := None;
                               required := true; auto_enrolled := false;
                               assigned_by := None |}).
Proof.
  intros user_field course_field no_int no_row found Hm.
  unfold views.enrollment_create. rewrite Hm.
  rewrite (bool_decide_eq_true_2 (POST = POST)) by reflexivity.
  fold user_field course_field.
  assert (Hno : ∀ table f, no_row table f →
                  views.get_object_or_404 table f = Some None).
  { intros table f [-> | (k & -> & _ & Hk)]; [reflexivity|].
    cbn [views.get_object_or_404]. f_equal.
    destruct (List.find (λ p, bool_decide (Zpos p = k)) table) as [x|] eqn:Hx;
      [|reflexivity].
    apply find_some in Hx as [Hin Hx]. apply bool_decide_eq_true in Hx.
    exfalso. apply (Hk x); [|exact Hx].
    apply list_elem_of_In, Hin. }
  assert (Hyes : ∀ table f x, found table f x →
                   views.get_object_or_404 table f = Some (Some x)).
  { intros table f x [-> Hin]. cbn [views.get_object_or_404]. f_equal.
    apply list_elem_of_In in Hin.
    destruct (List.find (λ p, bool_decide (Zpos p = Zpos x)) table) as [y|]
      eqn:Hy.
    - apply find_some in Hy as [_ Hy]. apply bool_decide_eq_true in Hy.
      injection Hy as ->. reflexivity.
    - exfalso. apply (find_none _ _ Hy x) in Hin.
      rewrite bool_decide_eq_true_2 in Hin by reflexivity.
      discriminate. }
  split; [intros [-> | ->]; reflexivity|].
  split; [intros H; rewrite (Hno _ _ H); reflexivity|].
  intros u Hu. rewrite (Hyes _ _ _ Hu). cbn [mbind option_bind].
  split; [intros [-> | ->]; reflexivity|].
  split; [intros H; rewrite (Hno _ _ H); reflexivity|].
  intros c Hc. rewrite (Hyes _ _ _ Hc). cbn [mbind option_bind].
  split; [intros ->; reflexivity|].
  intros p Hp.
  assert (Hpost : views.posted_progress (views.post_progress request)
                  = Some p).
  { destruct Hp as [-> | [-> [-> | ->]]]; reflexivity. }
  rewrite Hpost. cbn [mbind option_bind]. cbv zeta. split.
  - intros [[e He] | Hbad].
    + rewrite He. reflexivity.
    + destruct (enrollments db !! (u, c)); [reflexivity|].
      destruct (Z.ltb_spec p 0); [reflexivity|].
      destruct (Z.ltb_spec sqlite_max_int p); [reflexivity | lia].
  - intros Hnone Hrange. rewrite Hnone.
    destruct (Z.ltb_spec p 0); [lia|].
    destruct (Z.ltb_spec sqlite_max_int p); [lia|]. cbn [orb].
    eexists. split; [reflexivity|]. split; [reflexivity|].
    cbn [enrollments set_enrollments]. split.
    + intros key Hne. apply lookup_insert_ne. congruence.
    + rewrite lookup_insert_eq. f_equal. cbn [progress set_progress].
      destruct (100 <=? p); reflexivity.
Qed.

Lemma enrollment_create_effect_witness :
  views.enrollment_create ExampleBulk.create_form 5 ExampleDepartment.db = None
  ∧ (∃ db',
       views.enrollment_create ExampleBulk.create_form 5 ExampleBulk.db
       = Some (Redirect "enrollments_list",
               [MsgSuccess "Enrollment created."], db')
       ∧ enrollments db' !! (2%positive, 1%positive)
         = Some {| progress := 100; completed_at := Some 5;
                   status := Status.ASSIGNED; due_date := None;
                   required := true; auto_enrolled := false;
                   assigned_by := None |}).
Proof.
  split.
  - destruct (enrollment_create_effect ExampleBulk.create_form 5
                ExampleDepartment.db eq_refl) as (_ & _ & H).
    destruct (H 2%positive) as (_ & _ & H2);
      [split; [reflexivity | right; left]|].
    destruct (H2 1%positive) as (_ & H3); [split; [reflexivity | left]|].
    destruct (H3 100) as [Hfail _]; [left; reflexivity|].
    apply Hfail. left. vm_compute. eauto.
  - destruct (enrollment_create_effect ExampleBulk.create_form 5
                ExampleBulk.db eq_refl) as (_ & _ & H).
    destruct (H 2%positive) as (_ & _ & H2);
      [split; [reflexivity | right; left]|].
    destruct (H2 1%positive) as (_ & H3); [split; [reflexivity | left]|].
    destruct (H3 100) as [_ Hok]; [left; reflexivity|].
    destruct Hok as (db' & Hrun & _ & _ & Hrow);
      [reflexivity | vm_compute; split; discriminate|].
    exists db'. split; [exact Hrun | exact Hrow].
Defined.

(** ** The role helpers *)

(** X17. The three copies of the admin test ([core/views.py],
    [core/extra_views.py], [core/impersonation.py]) decide the same users:
    superusers and users whose profile has role ADMIN.  A manager is a user
    with profile role MANAGER or an admin; a user without profile who is not
    a superuser is neither. *)
Theorem role_helpers_agree u :
  views._is_admin u = extra_views._is_admin u
  ∧ extra_views._is_admin u = impersonation._is_admin u
  ∧ (views._is_admin u = true ↔ Spec.resolves_to_admin u)
  ∧ (views._is_manager u = true
     ↔ Spec.resolves_to_admin u
       ∨ ∃ p, profile u = Some p ∧ role p = ROLE_MANAGER)
  ∧ (profile u = None → is_superuser u = false →
     views._is_admin u = false ∧ views._is_manager u = false).
Proof.
  assert (H1 : views._is_admin u = extra_views._is_admin u) by reflexivity.
  assert (H2 : extra_views._is_admin u = impersonation._is_admin u).
  { unfold extra_views._is_admin, extra_views._role_of, impersonation._is_admin.
    destruct (profile u); reflexivity. }
  split; [exact H1|]. split; [exact H2|].
  split; [rewrite H1; apply extra_views_is_admin_spec|].
  split.
  - unfold views._is_manager. rewrite orb_true_iff, bool_decide_eq_true.
    rewrite H1, extra_views_is_admin_spec. unfold views._role_of.
    split.
    + intros [Hm | Ha]; [right | left; exact Ha].
      destruct (profile u) as [p|]; [eauto | discriminate].
    + intros [Ha | (p & -> & Hm)]; [right; exact Ha | left; exact Hm].
  - unfold views._is_manager, views._is_admin, views._role_of.
    intros -> ->. split; reflexivity.
Qed.

Lemma role_helpers_agree_witness :
  views._is_admin ExampleSession.learner = false
  ∧ views._is_manager ExampleSignal.newcomer = false.
Proof.
  split.
  - reflexivity.
  - apply (proj2 (proj2 (proj2 (proj2
             (role_helpers_agree ExampleSignal.newcomer))))); reflexivity.
Defined.

(** ** Impersonation: what is refused, what is recorded *)

(** X18. The decorated implementation ([core/impersonation.py]) refuses,
    for an admin and whatever [login] does, a start while an impersonator is
    already recorded, a start on a superuser by a user who is not one, and
    an unknown target; the request comes back unchanged each time. *)
Theorem impersonation_start_guards login user_table target_id request u :
  user request = Some u →
  Spec.resolves_to_admin u →
  (is_Some (impersonator_id (session request)) →
   impersonation.impersonate_start login user_table target_id request
   = (Redirect "dashboard",
      [MsgWarning "You are already impersonating. Stop first."], request))
  ∧ (impersonator_id (session request) = None →
     get_user user_table target_id = None →
     impersonation.impersonate_start login user_table target_id request
     = (Http404, [], request))
  ∧ (∀ target,
       impersonator_id (session request) = None →
       get_user user_table target_id = Some target →
       is_superuser target = true → is_superuser u = false →
       impersonation.impersonate_start login user_table target_id request
       = (Redirect "user_list",
          [MsgError "You cannot impersonate a superuser."], request)).
Proof.
  intros Hu Hadmin.
  unfold impersonation.impersonate_start, login_required, user_passes_test.
  rewrite Hu.
  rewrite (proj2 (impersonation_is_admin_spec u) Hadmin).
  split; [|split].
  - intros Hs. rewrite (bool_decide_eq_true_2 _ Hs). reflexivity.
  - intros Hn Ht. rewrite Hn.
    rewrite (bool_decide_eq_false_2 (is_Some None)) by apply is_Some_None.
    rewrite Ht. reflexivity.
  - intros target Hn Ht Hts Hus. rewrite Hn.
    rewrite (bool_decide_eq_false_2 (is_Some None)) by apply is_Some_None.
    rewrite Ht, Hts, Hus. reflexivity.
Qed.

Lemma impersonation_start_guards_witness :
  impersonation.impersonate_start auth.login
    ExampleImpersonation.table 1
    (ExampleImpersonation.request_of ExampleImpersonation.role_admin)
  = (Redirect "user_list", [MsgError "You cannot impersonate a superuser."],
     ExampleImpersonation.request_of ExampleImpersonation.role_admin).
Proof.
  apply (proj2 (proj2 (impersonation_start_guards auth.login
                  ExampleImpersonation.table 1
                  (ExampleImpersonation.request_of
                     ExampleImpersonation.role_admin)
                  ExampleImpersonation.role_admin eq_refl
                  (or_intror (ex_intro _ _ (conj eq_refl eq_refl)))))
               ExampleSession.admin); reflexivity.
Defined.

(** X19. The routed implementation ([core/extra_views.py]) refuses an admin
    only for itself as target or an unknown target.  For every other target,
    superuser or not and whether or not an impersonator is already recorded,
    it calls [login] with the target on a session in which the current
    user's key has replaced any recorded impersonator and the flag is "1". *)
Theorem extra_views_start_paths login user_table target_id request u :
  user request = Some u →
  Spec.resolves_to_admin u →
  (get_user user_table target_id = None →
   extra_views.impersonate_start login user_table target_id request
   = (Http404, [], request))
  ∧ (∀ target,
       get_user user_table target_id = Some target →
       user_id target = user_id u →
       extra_views.impersonate_start login user_table target_id request
       = (Redirect "dashboard", [MsgInfo "You are already this user."],
          request))
  ∧ (∀ target,
       get_user user_table target_id = Some target →
       user_id target ≠ user_id u →
       extra_views.impersonate_start login user_table target_id request
       = (Redirect "dashboard", [MsgSuccess "Now impersonating"],
          login
            {| user := Some u;
               session := {| impersonator_id := Some (user_id u);
                             is_impersonating := Some "1";
                             auth_user_id := auth_user_id (session request) |}
            |}
            target)).
Proof.
  intros Hu Hadmin.
  unfold extra_views.impersonate_start, login_required.
  rewrite Hu.
  rewrite (proj2 (extra_views_is_admin_spec u) Hadmin). cbn [negb].
  split; [|split].
  - intros ->. reflexivity.
  - intros target -> Heq.
    rewrite (bool_decide_eq_true_2 (user_id u = user_id target))
      by congruence.
    reflexivity.
  - intros target -> Hne.
    rewrite (bool_decide_eq_false_2 (user_id u = user_id target))
      by congruence.
    unfold set_session, set_is_impersonating, set_impersonator_id.
    cbn [impersonator_id is_impersonating auth_user_id user session].
    rewrite Hu. reflexivity.
Qed.

Lemma extra_views_start_paths_witness :
  extra_views.impersonate_start auth.login
    ExampleImpersonation.table 1
    (ExampleImpersonation.request_of ExampleImpersonation.role_admin)
  = (Redirect "dashboard", [MsgSuccess "Now impersonating"],
     {| user := Some ExampleSession.admin;
        session := {| impersonator_id := None; is_impersonating := None;
                      auth_user_id := Some 1%positive |} |}).
Proof.
  apply (proj2 (proj2 (extra_views_start_paths auth.login
                  ExampleImpersonation.table 1
                  (ExampleImpersonation.request_of
                     ExampleImpersonation.role_admin)
                  ExampleImpersonation.role_admin eq_refl
                  (or_intror (ex_intro _ _ (conj eq_refl eq_refl)))))
               ExampleSession.admin); [reflexivity | discriminate].
Defined.

(** X20. Stopping without a recorded impersonator answers with the
    information message and calls no [login]: the user and the
    authenticated key stay.  When the recorded impersonator is no longer in
    the user table both implementations answer 404 without [login]; the
    routed one has already removed both session keys, so its next call
    reports that nobody is impersonated, while the decorated one keeps the
    key and answers 404 again. *)
Theorem impersonate_stop_without_login login user_table request u :
  user request = Some u →
  let cleared :=
    {| user := Some u;
       session := {| impersonator_id := None; is_impersonating := None;
                     auth_user_id := auth_user_id (session request) |} |} in
  (impersonator_id (session request) = None →
   extra_views_stop.impersonate_stop login user_table request
   = (Redirect "dashboard", [MsgInfo "You are not impersonating anyone."],
      cleared)
   ∧ impersonation_stop.impersonate_stop login user_table request
     = (Redirect "dashboard", [MsgInfo "You are not impersonating anyone."],
        request))
  ∧ (∀ orig,
       impersonator_id (session request) = Some orig →
       get_user user_table orig = None →
       extra_views_stop.impersonate_stop login user_table request
       = (Http404, [], cleared)
       ∧ extra_views_stop.impersonate_stop login user_table cleared
         = (Redirect "dashboard",
            [MsgInfo "You are not impersonating anyone."], cleared)
       ∧ impersonation_stop.impersonate_stop login user_table request
         = (Http404, [], request)).
Proof.
  intros Hu cleared.
  unfold extra_views_stop.impersonate_stop,
    impersonation_stop.impersonate_stop, login_required.
  rewrite Hu. split.
  - intros Hn. rewrite Hn. split; [|reflexivity].
    unfold cleared, set_session. rewrite Hu. reflexivity.
  - intros orig Ho Hg. rewrite Ho, Hg. split; [|split; [|reflexivity]].
    + unfold cleared, set_session. rewrite Hu. reflexivity.
    + reflexivity.
Qed.

Lemma impersonate_stop_without_login_witness :
  extra_views_stop.impersonate_stop auth.login
    ExampleImpersonation.table ExampleImpersonation.orphaned
  = (Http404, [],
     ExampleImpersonation.request_of ExampleSession.learner)
  ∧ impersonation_stop.impersonate_stop auth.login
      ExampleImpersonation.table ExampleImpersonation.orphaned
    = (Http404, [], ExampleImpersonation.orphaned).
Proof.
  destruct (proj2 (impersonate_stop_without_login auth.login
                     ExampleImpersonation.table ExampleImpersonation.orphaned
                     ExampleSession.learner eq_refl)
                  99%positive eq_refl eq_refl) as (H1 & _ & H2).
  split; [exact H1 | exact H2].
Defined.

(** X21. [login] empties a session that is authenticated as another user,
    and both implementations write the impersonation keys before they call
    it.  So a start by an admin, in the admin's own session, on another
    existing user makes the target the request's user and leaves no
    impersonation key in the session; a stop that follows answers "You are
    not impersonating anyone." and the request stays the target's.  (The
    decorated implementation additionally needs a session that is not
    impersonating and the admin to be a superuser when the target is
    one.) *)
Theorem impersonate_start_flushes_session user_table admin target request :
  user request = Some admin →
  auth_user_id (session request) = Some (user_id admin) →
  Spec.resolves_to_admin admin →
  get_user user_table (user_id target) = Some target →
  user_id target ≠ user_id admin →
  let during :=
    {| user := Some target;
       session := {| impersonator_id := None; is_impersonating := None;
                     auth_user_id := Some (user_id target) |} |} in
  extra_views.impersonate_start auth.login user_table (user_id target) request
  = (Redirect "dashboard", [MsgSuccess "Now impersonating"], during)
  ∧ extra_views_stop.impersonate_stop auth.login user_table during
    = (Redirect "dashboard", [MsgInfo "You are not impersonating anyone."],
       during)
  ∧ (impersonator_id (session request) = None →
     (is_superuser target = true → is_superuser admin = true) →
     impersonation.impersonate_start auth.login user_table (user_id target)
                                     request
     = (Redirect "dashboard", [MsgSuccess "You are now impersonating"],
        during)
     ∧ impersonation_stop.impersonate_stop auth.login user_table during
       = (Redirect "dashboard", [MsgInfo "You are not impersonating anyone."],
          during)).
Proof.
  intros Hu Hs Hadmin Ht Hne during.
  assert (Hlogin : ∀ s,
            auth_user_id s = Some (user_id admin) →
            auth.login {| user := Some admin; session := s |} target
            = during).
  { intros s Hk. unfold auth.login. cbn [session]. rewrite Hk.
    rewrite (bool_decide_eq_false_2 (user_id admin = user_id target))
      by congruence.
    reflexivity. }
  destruct request as [ru rs]. cbn [user session] in Hu, Hs. subst ru.
  split; [|split].
  - unfold extra_views.impersonate_start, login_required. cbn [user].
    rewrite (proj2 (extra_views_is_admin_spec admin) Hadmin).
    cbn [negb]. rewrite Ht.
    rewrite (bool_decide_eq_false_2 (user_id admin = user_id target))
      by congruence.
    unfold set_session. cbn [user session]. rewrite Hlogin; [reflexivity|].
    exact Hs.
  - reflexivity.
  - cbn [session]. intros Hi Hsuper. split; [|reflexivity].
    unfold impersonation.impersonate_start, login_required, user_passes_test.
    cbn [user session].
    rewrite (proj2 (impersonation_is_admin_spec admin) Hadmin).
    rewrite Hi.
    rewrite (bool_decide_eq_false_2 (is_Some None)) by apply is_Some_None.
    rewrite Ht.
    assert (Hg : is_superuser target && negb (is_superuser admin) = false).
    { destruct (is_superuser target); [|reflexivity].
      rewrite (Hsuper eq_refl). reflexivity. }
    rewrite Hg. unfold set_session. cbn [user session].
    rewrite Hlogin; [reflexivity|]. exact Hs.
Qed.

Lemma impersonate_start_flushes_session_witness :
  (extra_views.impersonate_start auth.login ExampleImpersonation.table 7
     (ExampleImpersonation.request_of ExampleSession.admin)).2
  = ExampleImpersonation.request_of ExampleSession.learner
  ∧ (extra_views_stop.impersonate_stop auth.login ExampleImpersonation.table
       (ExampleImpersonation.request_of ExampleSession.learner)).2
    = ExampleImpersonation.request_of ExampleSession.learner.
Proof.
  assert (Hadmin : Spec.resolves_to_admin ExampleSession.admin)
    by (left; reflexivity).
  assert (Hne : user_id ExampleSession.learner ≠ user_id ExampleSession.admin)
    by discriminate.
  destruct (impersonate_start_flushes_session
              ExampleImpersonation.table ExampleSession.admin
              ExampleSession.learner
              (ExampleImpersonation.request_of ExampleSession.admin)
              eq_refl eq_refl Hadmin eq_refl Hne)
    as (Hstart & Hstop & _).
  split.
  - apply (f_equal snd) in Hstart. exact Hstart.
  - apply (f_equal snd) in Hstop. exact Hstop.
Defined.

(** ** The result page *)

(** X22. [quiz_result] shows an attempt only to its owner and only under
    its own quiz: when it answers (no 404) the attempt shown is a stored
    one with the requested key, of the requested quiz and of the requesting
    user.  The attempts left it shows are never negative, add up with the
    used ones to the allowed ones while the limit is not exceeded, and are 0
    exactly when a GET of [quiz_take] for that quiz, when active, is
    answered with the 403 page. *)
Theorem quiz_result_context request quiz_pk attempt_pk db ctx :
  quiz_result request quiz_pk attempt_pk db = Some ctx →
  ctx_attempt ctx ∈ attempts db
  ∧ attempt_id (ctx_attempt ctx) = attempt_pk
  ∧ quiz_id (ctx_quiz ctx) = quiz_pk
  ∧ quiz_id (attempt_quiz (ctx_attempt ctx)) = quiz_pk
  ∧ attempt_user (ctx_attempt ctx) = user_id (request_user request)
  ∧ 0 <= ctx_attempts_left ctx
  ∧ ((ctx_used ctx <= ctx_allowed ctx)%N →
     ctx_attempts_left ctx + Z.of_N (ctx_used ctx) = Z.of_N (ctx_allowed ctx))
  ∧ (ctx_attempts_left ctx = 0 ↔ (ctx_allowed ctx <= ctx_used ctx)%N)
  ∧ (∀ t1 t2,
       method request = GET →
       active_quiz quiz_pk db = Some (ctx_quiz ctx) →
       ctx_attempts_left ctx = 0
       ↔ quiz_take request quiz_pk t1 t2 db
         = Some (Render "quiz_no_attempts.html" 403, db)).
Proof.
  unfold quiz_result.
  destruct (List.find _ (quizzes db)) as [quiz|] eqn:Hq; [|discriminate].
  cbn [mbind option_bind].
  destruct (List.find _ (attempts db)) as [attempt|] eqn:Ha; [|discriminate].
  cbn [mbind option_bind]. intros H. injection H as <-.
  cbn [ctx_attempt ctx_quiz ctx_used ctx_allowed ctx_attempts_left].
  apply find_some in Hq as [_ Hq]. apply bool_decide_eq_true in Hq.
  apply find_some in Ha as [Hin Ha].
  apply bool_decide_eq_true in Ha as (Hid & Hquiz & Huser).
  split; [apply list_elem_of_In, Hin|]. split; [exact Hid|].
  split; [exact Hq|]. split; [congruence|]. split; [exact Huser|].
  split; [lia|]. split; [lia|]. split; [lia|].
  intros t1 t2 Hm Hact. unfold quiz_take. unfold active_quiz in Hact.
  rewrite Hact, Hm.
  rewrite (bool_decide_eq_true_2 (GET = GET)) by reflexivity.
  rewrite andb_true_r.
  destruct (N.leb_spec (or_1 (attempts_allowed quiz))
              (attempts_used quiz (user_id (request_user request)) db)).
  - split; [reflexivity | lia].
  - rewrite (bool_decide_eq_false_2 (GET = POST)) by discriminate.
    split; [lia | discriminate].
Qed.

Lemma quiz_result_context_witness :
  ∃ ctx,
    quiz_result ExampleTake.get 1 1 ExampleLimit.db = Some ctx
    ∧ attempt_user (ctx_attempt ctx) = 1%positive
    ∧ ctx_attempts_left ctx = 0.
Proof.
  destruct (quiz_result ExampleTake.get 1 1 ExampleLimit.db) as [ctx|] eqn:Hr;
    [|vm_compute in Hr; discriminate].
  exists ctx. split; [reflexivity|].
  destruct (quiz_result_context _ _ _ _ _ Hr)
    as (_ & _ & _ & _ & Hu & _ & _ & H0 & _).
  split; [exact Hu|]. apply H0.
  injection Hr as <-. vm_compute. discriminate.
Defined.

(** ** The team page and the bulk form *)

Lemma get_pk_in (table : list pk) (d : pk) :
  d ∈ table → views.get_pk table (Some (Z.pos d)) = Some d.
Proof.
  intros Hin. unfold views.get_pk. cbn [mbind option_bind].
  induction table as [|x table IH]; [inversion Hin|].
  simpl. case_bool_decide as Hx.
  - f_equal. congruence.
  - apply IH. apply elem_of_cons in Hin as [->|Hin]; [congruence | exact Hin].
Qed.

Lemma replaced_row_in (u u' : User) (us : list User) :
  u ∈ us →
  u' ∈ map (λ r, if decide (user_id r = user_id u) then u' else r) us.
Proof.
  intros Hin. apply list_elem_of_In, in_map_iff. exists u.
  split; [rewrite decide_True by reflexivity; reflexivity|].
  apply list_elem_of_In, Hin.
Qed.

(** X23. The team page is refused to a user who is neither manager nor
    admin, and nothing changes.  For a manager a POST stores the department
    whose key was posted as the manager's own, keeping the role; a POST
    with neither a key nor a name removes the manager's department.  No
    other user row and no other table changes. *)
Theorem team_sets_own_department request names db :
  let u := extra_views_team.team_user request in
  let with_department d :=
    set_profile
      (Some {| department := d;
               role := role (default Profile_defaults (profile u)) |}) u in
  let rows d :=
    map (λ r, if decide (user_id r = user_id u) then with_department d else r)
        (users db) in
  (extra_views_team._is_manager u = false →
   extra_views_team.team request names db
   = (Redirect "dashboard", [MsgError "Not authorized."], names, db))
  ∧ (extra_views_team._is_manager u = true →
     extra_views_team.team_method request = POST →
     (∀ d, extra_views_team.team_department_id request = Some (Some (Z.pos d)) →
           d ∈ departments db →
           extra_views_team.team request names db
           = (Redirect "team",
              [MsgSuccess "Department updated for your profile."], names,
              set_users (rows (Some d)) db))
     ∧ (extra_views_team.team_department_id request = None →
        extra_views_team.team_department_name request = "" →
        extra_views_team.team request names db
        = (Redirect "team",
           [MsgSuccess "Department updated for your profile."], names,
           set_users (rows None) db))).
Proof.
  intros u with_department rows. unfold extra_views_team.team. fold u. split.
  - intros ->. reflexivity.
  - intros -> Hm. rewrite Hm.
    rewrite (bool_decide_eq_true_2 (POST = POST)) by reflexivity.
    cbn [negb]. split.
    + intros d -> Hd. rewrite (get_pk_in _ _ Hd). reflexivity.
    + intros -> ->. reflexivity.
Qed.

Lemma team_sets_own_department_witness :
  extra_views_team.team
    {| extra_views_team.team_user := ExampleDepartment.manager;
       extra_views_team.team_method := POST;
       extra_views_team.team_department_id := None;
       extra_views_team.team_department_name := "" |}
    [] ExampleDepartment.db
  = (Redirect "team", [MsgSuccess "Department updated for your profile."], [],
     set_users
       [ExampleDepartment.member 1; ExampleDepartment.member 2;
        ExampleDepartment.member 3; ExampleDepartment.member 4;
        ExampleDepartment.member 5;
        set_profile (Some {| department := None; role := ROLE_MANAGER |})
                    ExampleDepartment.manager]
       ExampleDepartment.db).
Proof.
  apply (proj2 (proj2 (team_sets_own_department
                  {| extra_views_team.team_user := ExampleDepartment.manager;
                     extra_views_team.team_method := POST;
                     extra_views_team.team_department_id := None;
                     extra_views_team.team_department_name := "" |}
                  [] ExampleDepartment.db) eq_refl eq_refl));
    reflexivity.
Defined.

Lemma course_bulk_enroll_runs request course now db d :
  let u := views.form_user request in
  views.form_method request = POST →
  course ∈ courses db →
  views.get_pk (departments db) (views.post_department_id request) = Some d →
  views.user_department u = Some d →
  (views.course_bulk_enroll request course now db).1.1
  = Redirect "enrollments_list".
Proof.
  intros u Hm Hc Hd Hown. unfold views.course_bulk_enroll.
  rewrite (find_pk _ _ Hc), Hm, Hd.
  rewrite (bool_decide_eq_true_2 (POST = POST)) by reflexivity.
  cbv zeta. fold u. rewrite Hown.
  rewrite (bool_decide_eq_true_2 (is_Some (Some d))) by eauto.
  rewrite (bool_decide_eq_true_2 (Some d = Some d)) by reflexivity.
  cbn [negb orb]. rewrite andb_false_r.
  destruct (fold_left _ _ _) as [[created skipped] tbl]. reflexivity.
Qed.

(** X24. The restriction of a manager to the own department in the bulk
    form does not hold against the team page: a manager who is refused a
    bulk enrollment of another existing department can post that department
    on the team page, which makes it the manager's own in the user table,
    and the same bulk form posted by the stored user row is then carried
    out. *)
Theorem team_then_bulk_enroll team_request names form course now db m d :
  let m' :=
    set_profile
      (Some {| department := Some d;
               role := role (default Profile_defaults (profile m)) |}) m in
  extra_views_team.team_user team_request = m →
  extra_views_team.team_method team_request = POST →
  extra_views_team.team_department_id team_request = Some (Some (Z.pos d)) →
  views._is_manager m = true → views._is_admin m = false →
  views.user_department m ≠ Some d →
  m ∈ users db → d ∈ departments db → course ∈ courses db →
  views.form_method form = POST →
  views.post_department_id form = Some (Z.pos d) →
  (views.form_user form = m →
   views.course_bulk_enroll form course now db
   = (Redirect "course_bulk_enroll",
      [MsgError "Managers can only bulk enroll their own department."], db))
  ∧ ∃ db1,
      extra_views_team.team team_request names db
      = (Redirect "team", [MsgSuccess "Department updated for your profile."],
         names, db1)
      ∧ m' ∈ users db1
      ∧ (views.form_user form = m' →
         (views.course_bulk_enroll form course now db1).1.1
         = Redirect "enrollments_list").
Proof.
  intros m' Hu Hm Hdep Hmgr Hadm Hother Hin Hd Hc Hfm Hfd. split.
  - intros Hfu. unfold views.course_bulk_enroll.
    rewrite (find_pk _ _ Hc), Hfm, Hfd, (get_pk_in _ _ Hd).
    rewrite (bool_decide_eq_true_2 (POST = POST)) by reflexivity.
    cbv zeta. rewrite Hfu, Hmgr, Hadm.
    rewrite (bool_decide_eq_false_2 (Some d = views.user_department m))
      by congruence.
    cbn [negb andb]. rewrite !orb_true_r. reflexivity.
  - unfold extra_views_team.team. rewrite Hu.
    change (extra_views_team._is_manager m) with (views._is_manager m).
    rewrite Hmgr, Hm, Hdep, (get_pk_in _ _ Hd).
    rewrite (bool_decide_eq_true_2 (POST = POST)) by reflexivity.
    cbn [negb]. eexists. split; [reflexivity|].
    cbn [users set_users]. split; [apply replaced_row_in, Hin|].
    intros Hfu.
    apply (course_bulk_enroll_runs form course now _ d);
      [exact Hfm | exact Hc | rewrite Hfd; apply (get_pk_in _ _ Hd)
       | rewrite Hfu; reflexivity].
Qed.

Lemma team_then_bulk_enroll_witness :
  ∃ db1,
    extra_views_team.team
      {| extra_views_team.team_user := ExampleDepartment.manager;
         extra_views_team.team_method := POST;
         extra_views_team.team_department_id := Some (Some 1);
         extra_views_team.team_department_name := "" |}
      [] ExampleDepartment.db
    = (Redirect "team", [MsgSuccess "Department updated for your profile."],
       [], db1)
    ∧ set_profile
        (Some {| department := Some 1%positive; role := ROLE_MANAGER |})
        ExampleDepartment.manager ∈ users db1.
Proof.
  destruct (team_then_bulk_enroll
              {| extra_views_team.team_user := ExampleDepartment.manager;
                 extra_views_team.team_method := POST;
                 extra_views_team.team_department_id := Some (Some 1);
                 extra_views_team.team_department_name := "" |}
              [] (ExampleDepartment.form ExampleDepartment.manager) 1 7
              ExampleDepartment.db ExampleDepartment.manager 1)
    as (_ & db1 & Hrun & Hin & _); try reflexivity.
  - discriminate.
  - do 5 right. left.
  - left.
  - left.
  - exists db1. split; assumption.
Defined.

(** ** The quiz builder *)

Section Builder.
Variable strip : string → string.

Lemma create_choices_rows (question : Question) (correct_idx : Z)
    (choices_txt : list string) :
  ∀ (idx : Z) (db : DB),
    ∃ new keys,
      views_quiz_builder.create_choices strip question correct_idx idx
                                        choices_txt db
      = set_sequences keys (set_choices (choices db ++ new) db)
      ∧ Forall (λ c, choice_question c = question_id question) new
      ∧ map is_correct new = choice_flags strip correct_idx idx choices_txt.
Proof.
  induction choices_txt as [|txt rest IH]; intros idx db.
  - exists [], (sequences db). rewrite app_nil_r. destruct db; auto.
  - cbn [views_quiz_builder.create_choices choice_flags].
    destruct (bool_decide (strip txt = "")).
    + apply IH.
    + destruct (IH (idx + 1)%Z
                  (views_quiz_builder.create_choice
                     question (bool_decide (idx = correct_idx)) db))
        as (new & keys & -> & Hq & Hc).
      eexists (_ :: new), keys. split; [|split].
      * unfold views_quiz_builder.create_choice. cbn.
        rewrite <- app_assoc. reflexivity.
      * constructor; [reflexivity|exact Hq].
      * cbn. rewrite Hc. reflexivity.
Qed.
End Builder.

Lemma count_correct (new : list Choice) :
  length (List.filter is_correct new)
  = length (List.filter id (map is_correct new)).
Proof.
  induction new as [|c new IH]; [reflexivity|].
  cbn [List.filter map]. unfold id in *.
  destruct (is_correct c); cbn [length]; congruence.
Qed.

Lemma filter_new_choices (db : DB) (question : pk) (new : list Choice) :
  choices_have_questions db →
  question ∉ map question_id (questions db) →
  Forall (λ c, choice_question c = question) new →
  filter (λ c, choice_question c = question) (choices db ++ new) = new.
Proof.
  intros Hfk Hfresh Hnew. rewrite filter_app.
  replace (filter _ (choices db)) with (@nil Choice).
  - simpl. apply filter_all. intros c Hc.
    rewrite Forall_forall in Hnew. apply Hnew, Hc.
  - symmetry. apply elem_of_nil_inv. intros c Hc.
    apply list_elem_of_filter in Hc as [Hid Hc].
    apply Hfk in Hc. rewrite Hid in Hc. exact (Hfresh Hc).
Qed.

Lemma is_valid_multiple strip (form : forms.QuestionCreateForm) :
  forms.is_valid strip form = true →
  forms.question_type form = Kind.MULTIPLE →
  (∀ c, c ∈ forms.form_choices form → strip c = c) →
  ∃ cc, forms.correct_choice form = Some cc
        ∧ (let flags :=
             choice_flags strip (cc - 1) 0 (forms.form_choices form) in
           (2 ≤ length flags ≤ 4)%nat
           ∧ length (List.filter id flags) = 1%nat).
Proof.
  unfold forms.is_valid, forms.fields_valid, forms.clean, forms.form_choices.
  intros Hv Hk Hs. rewrite Hk in Hv.
  assert (H1 := Hs (forms.choice1 form) ltac:(set_solver)).
  assert (H2 := Hs (forms.choice2 form) ltac:(set_solver)).
  assert (H3 := Hs (forms.choice3 form) ltac:(set_solver)).
  assert (H4 := Hs (forms.choice4 form) ltac:(set_solver)).
  destruct (forms.correct_choice form) as [cc|].
  2:{ exfalso. revert Hv. cbv zeta. case (_ <? _)%nat;
      rewrite ?andb_false_r; cbn; rewrite ?andb_false_r; discriminate. }
  exists cc. split; [reflexivity|].
  apply andb_prop in Hv as [Hf Hc].
  apply andb_prop in Hf as [_ Hr]. apply andb_prop in Hr as [Hlo Hhi].
  apply Z.leb_le in Hlo, Hhi.
  revert Hc. cbn [choice_flags List.filter map].
  rewrite H1, H2, H3, H4.
  assert (Hcc : cc = 1 ∨ cc = 2 ∨ cc = 3 ∨ cc = 4) by lia.
  destruct Hcc as [-> | [-> | [-> | ->]]];
    (change (Z.to_nat (1 - 1)) with 0%nat;
     change (Z.to_nat (2 - 1)) with 1%nat;
     change (Z.to_nat (3 - 1)) with 2%nat;
     change (Z.to_nat (4 - 1)) with 3%nat;
     cbn [nth];
     destruct (bool_decide (forms.choice1 form = ""));
     destruct (bool_decide (forms.choice2 form = ""));
     destruct (bool_decide (forms.choice3 form = ""));
     destruct (bool_decide (forms.choice4 form = ""));
     cbn; try discriminate; intros _; repeat split; lia).
Qed.

(** X25. A POST of a valid form (with the texts stripped, as the form
    fields deliver them) to [quiz_add_question], in a database whose
    choices all belong to stored questions.  Points beyond the 64 bits of
    the column raise and nothing is written.  Otherwise the view appends one
    question under a key that no question has and that lies above the last
    key given out, with the form's type and points (at least 1), and appends
    its choices: a multiple-choice question gets two to four choices of
    which exactly one is correct, a true/false question gets the two choices
    True and False in this order with opposite flags, a short-text question
    gets none.  No other choice belongs to the new question. *)
Theorem quiz_add_question_creates strip add_more form quiz_pk db quiz :
  stored_quiz quiz_pk db = Some quiz →
  forms.is_valid strip form = true →
  (∀ c, c ∈ forms.form_choices form → strip c = c) →
  choices_have_questions db →
  (sqlite_max_int < forms.points form →
   views_quiz_builder.quiz_add_question strip POST add_more form quiz_pk db
   = None)
  ∧ (forms.points form <= sqlite_max_int →
     ∃ db' question new,
       views_quiz_builder.quiz_add_question strip POST add_more form quiz_pk
                                            db
       = Some (Redirect (if add_more then "quiz_add_question"
                         else "quiz_list_for_course"),
               [MsgSuccess "Pregunta agregada."], db')
       ∧ questions db' = questions db ++ [question]
       ∧ (question_id question ∉ map question_id (questions db))
       ∧ (seq_questions (sequences db) < Npos (question_id question))%N
       ∧ question_quiz question = quiz_pk
       ∧ question_type question = forms.question_type form
       ∧ Z.of_N (points question) = forms.points form
       ∧ (1 <= points question)%N
       ∧ choices db' = choices db ++ new
       ∧ filter (λ c, choice_question c = question_id question) (choices db')
         = new
       ∧ match forms.question_type form with
         | Kind.MULTIPLE =>
             (2 ≤ length new ≤ 4)%nat
             ∧ length (List.filter is_correct new) = 1%nat
         | Kind.TRUE_FALSE =>
             map is_correct new
             = [forms.true_is_correct form; negb (forms.true_is_correct form)]
         | Kind.SHORT_TEXT => new = []
         end).
Proof.
  intros Hq Hv Hs Hfk.
  assert (Hpts : 1 <= forms.points form).
  { unfold forms.is_valid, forms.fields_valid in Hv.
    repeat (apply andb_prop in Hv as [Hv ?]). by apply Z.leb_le. }
  assert (Hid : quiz_id quiz = quiz_pk).
  { apply find_some in Hq as [_ Hq]. by apply bool_decide_eq_true in Hq. }
  unfold views_quiz_builder.quiz_add_question.
  unfold stored_quiz in Hq. rewrite Hq, Hv.
  rewrite (bool_decide_eq_true_2 (POST = POST)) by reflexivity.
  cbn [andb]. cbv zeta.
  split.
  { intros Hbig. apply Z.ltb_lt in Hbig. rewrite Hbig. reflexivity. }
  intros Hsmall. apply Z.ltb_ge in Hsmall. rewrite Hsmall.
  set (question := {| question_id := next_pk (seq_questions (sequences db))
                                             (map question_id (questions db));
                      question_quiz := quiz_id quiz;
                      question_type := forms.question_type form;
                      points := Z.to_N (forms.points form) |}).
  set (db1 := set_sequences
                (set_seq_questions (Npos (question_id question))
                                   (sequences db))
                (set_questions (questions db ++ [question]) db)).
  assert (Hfresh : question_id question ∉ map question_id (questions db)).
  { intros Hin. exact (next_pk_fresh _ _ _ Hin eq_refl). }
  assert (Hseq : (seq_questions (sequences db) < Npos (question_id question))%N).
  { apply next_pk_after. }
  assert (Hrows : ∀ new,
            Forall (λ c, choice_question c = question_id question) new →
            filter (λ c, choice_question c = question_id question)
                   (choices db ++ new) = new).
  { intros new. by apply filter_new_choices. }
  assert (Hp1 : Z.of_N (points question) = forms.points form).
  { cbn. lia. }
  assert (Hp2 : (1 <= points question)%N).
  { cbn. lia. }
  assert (Hqq : question_quiz question = quiz_pk) by exact Hid.
  assert (Hqt : question_type question = forms.question_type form)
    by reflexivity.
  clearbody question.
  destruct (forms.question_type form) eqn:Hk.
  - destruct (is_valid_multiple strip form Hv Hk Hs) as (cc & Hcc & Hlen & Hone).
    rewrite Hcc. cbn [default from_option id].
    destruct (create_choices_rows strip question (cc - 1)
                (forms.form_choices form) 0 db1)
      as (new & keys & -> & Hnew & Hflags).
    exists (set_sequences keys (set_choices (choices db1 ++ new) db1)),
      question, new.
    rewrite count_correct, Hflags.
    rewrite <- (length_map is_correct new), Hflags. cbv zeta in Hlen, Hone.
    do 9 (split; [done|]). split; [apply Hrows, Hnew|]. split; [lia|done].
  - eexists _, question, _. split; [reflexivity|].
    do 7 (split; [done|]).
    unfold views_quiz_builder.create_choice. cbn.
    rewrite <- app_assoc. split; [reflexivity|].
    split; [|reflexivity]. apply Hrows. repeat constructor.
  - pose proof (Hrows [] ltac:(constructor)) as Hnone.
    exists db1, question, []. cbn. rewrite app_nil_r in *.
    do 9 (split; [done|]). split; [exact Hnone|reflexivity].
Qed.

Lemma quiz_add_question_creates_witness :
  ∃ db' question new,
    views_quiz_builder.quiz_add_question ExampleBuilder.strip POST false
      ExampleBuilder.form 1 ExampleBuilder.db
    = Some (Redirect "quiz_list_for_course", [MsgSuccess "Pregunta agregada."],
            db')
    ∧ questions db' = questions ExampleBuilder.db ++ [question]
    ∧ points question = 5%N
    ∧ choices db' = choices ExampleBuilder.db ++ new
    ∧ (2 ≤ length new ≤ 4)%nat
    ∧ length (List.filter is_correct new) = 1%nat.
Proof.
  destruct (quiz_add_question_creates ExampleBuilder.strip false
              ExampleBuilder.form 1 ExampleBuilder.db (Example.quiz_at 50))
    as [_ Hok].
  - reflexivity.
  - vm_compute. reflexivity.
  - apply Forall_forall. repeat constructor.
  - refine (proj1 (Forall_forall
                     (λ c, choice_question c
                           ∈ map question_id (questions ExampleBuilder.db))
                     (choices ExampleBuilder.db)) _).
    repeat constructor; vm_compute; set_solver.
  - destruct Hok
      as (db' & question & new & Hrun & Hqs & _ & _ & _ & _ & Hp & _ & Hcs
          & _ & Hm); [vm_compute; discriminate|].
    exists db', question, new.
    split; [exact Hrun|]. split; [exact Hqs|].
    split; [apply N2Z.inj; exact Hp|]. split; [exact Hcs|]. exact Hm.
Defined.

Lemma has_answers_false (question : Question) (db : DB) :
  (∀ a, a ∈ answers db →
        question_id (answer_question a) ≠ question_id question) →
  existsb (λ a, bool_decide (question_id (answer_question a)
                              = question_id question))
          (answers db) = false.
Proof.
  intros Hno. destruct (existsb _ _) eqn:E; [exfalso|reflexivity].
  apply existsb_exists in E as (a & Hin & Hb).
  apply bool_decide_eq_true in Hb.
  exact (Hno a (proj2 (list_elem_of_In _ _) Hin) Hb).
Qed.

Lemma stored_question_id (question_pk : pk) (db : DB) (question : Question) :
  stored_question question_pk db = Some question →
  question ∈ questions db ∧ question_id question = question_pk.
Proof.
  intros Hq. apply find_some in Hq as [Hin Hq].
  split; [by apply list_elem_of_In | by apply bool_decide_eq_true in Hq].
Qed.

(** X26. [question_delete] never deletes a question that some answer
    refers to, and changes the database only for a staff user's POST, in
    which case the question is gone from the table and the response is the
    redirect to the question list with the success message. *)
Theorem question_delete_guards is_staff request_method question_pk db :
  let '(response, msgs, db') :=
    views_quiz_builder.question_delete is_staff request_method question_pk db
  in
  ((∃ a, a ∈ answers db ∧ question_id (answer_question a) = question_pk) →
   db' = db)
  ∧ (db' = db
     ∨ is_staff = true ∧ request_method = POST
       ∧ response = Redirect "question_list"
       ∧ msgs = [MsgSuccess "Pregunta borrada."]
       ∧ question_pk ∈ map question_id (questions db)
       ∧ question_pk ∉ map question_id (questions db')).
Proof.
  unfold views_quiz_builder.question_delete.
  destruct (List.find _ (questions db)) as [question|] eqn:Hq;
    [|split; [reflexivity | by left]].
  apply (stored_question_id question_pk db) in Hq as [Hin Hid].
  destruct is_staff; cbn [negb]; [|split; [reflexivity | by left]].
  case_bool_decide as Hm; [|split; [reflexivity | by left]].
  destruct (existsb _ _) eqn:E; [split; [reflexivity | by left]|].
  split.
  - intros (a & Ha & Hqa). exfalso.
    assert (existsb (λ a, bool_decide (question_id (answer_question a)
                                        = question_id question))
                    (answers db) = true) as E'; [|congruence].
    apply existsb_exists. exists a. split; [by apply list_elem_of_In|].
    apply bool_decide_eq_true. congruence.
  - right. do 4 (split; [done|]). split.
    + rewrite <- Hid. apply list_elem_of_fmap. by exists question.
    + cbn [questions set_questions]. intros Hgone. apply list_elem_of_fmap in Hgone as (q & Hqid & Hq).
      apply list_elem_of_filter in Hq as [Hne _]. congruence.
Qed.


(** X27. A staff user's POST to [question_delete] for a stored question
    without answers, in a database with unique choice keys where every
    choice belongs to a stored question and every selected choice is a
    stored choice of the answered question, removes exactly the question
    and its choices, leaves answers, attempts, quizzes and enrollments as
    they were, and keeps both foreign-key properties. *)
Theorem question_delete_keeps_integrity request_method question_pk db question :
  request_method = POST →
  stored_question question_pk db = Some question →
  (∀ a, a ∈ answers db → question_id (answer_question a) ≠ question_pk) →
  NoDup (map choice_id (choices db)) →
  choices_have_questions db →
  answers_select_stored_choices db →
  ∃ db',
    views_quiz_builder.question_delete true request_method question_pk db
    = (Redirect "question_list", [MsgSuccess "Pregunta borrada."], db')
    ∧ (∀ q, q ∈ questions db'
            ↔ q ∈ questions db ∧ question_id q ≠ question_pk)
    ∧ (∀ c, c ∈ choices db'
            ↔ c ∈ choices db ∧ choice_question c ≠ question_pk)
    ∧ answers db' = answers db
    ∧ attempts db' = attempts db
    ∧ quizzes db' = quizzes db
    ∧ enrollments db' = enrollments db
    ∧ choices_have_questions db'
    ∧ answers_select_stored_choices db'.
Proof.
  intros -> Hq Hno Hnd Hfk Hsel.
  unfold views_quiz_builder.question_delete.
  unfold stored_question in Hq. rewrite Hq.
  apply (stored_question_id question_pk db) in Hq as [Hin Hid].
  cbn [negb].
  rewrite (bool_decide_eq_true_2 (POST = POST)) by reflexivity.
  rewrite has_answers_false by (rewrite Hid; exact Hno).
  unfold views_quiz_builder.delete_choices. cbv zeta. rewrite Hid.
  set (deleted := map choice_id _).
  assert (Hsame : map (λ a, match selected_choice a with
                            | Some c =>
                                if bool_decide (choice_id c ∈ deleted)
                                then {| answer_attempt := answer_attempt a;
                                        answer_question := answer_question a;
                                        selected_choice := None |}
                                else a
                            | None => a
                            end) (answers db) = answers db).
  { rewrite <- (map_id (answers db)) at 2. apply map_ext_in.
    intros a Ha. apply list_elem_of_In in Ha.
    destruct (selected_choice a) as [c|] eqn:Hc; [|reflexivity].
    rewrite bool_decide_eq_false_2; [reflexivity|].
    intros Hdel. destruct (Hsel a c Ha Hc) as [Hstored Hcq].
    apply list_elem_of_fmap in Hdel as (c' & Hidc & Hc').
    apply list_elem_of_filter in Hc' as [Hq' Hc'].
    assert (c = c') as <-.
    { apply (NoDup_fmap_eq choice_id (choices db)); assumption. }
    apply (Hno a Ha). congruence. }
  rewrite Hsame. eexists. split; [reflexivity|].
  cbn [questions choices answers attempts quizzes enrollments
       set_answers set_choices set_questions].
  assert (Hqs : ∀ q, q ∈ filter (λ q, question_id q ≠ question_pk)
                               (questions db)
                     ↔ q ∈ questions db ∧ question_id q ≠ question_pk).
  { intros q. rewrite list_elem_of_filter. tauto. }
  assert (Hcs : ∀ c, c ∈ filter (λ c, choice_question c ≠ question_pk)
                               (choices db)
                     ↔ c ∈ choices db ∧ choice_question c ≠ question_pk).
  { intros c. rewrite list_elem_of_filter. tauto. }
  split; [exact Hqs|]. split; [exact Hcs|].
  do 4 (split; [reflexivity|]). split.
  - intros c Hc. cbn [questions choices set_answers set_choices set_questions] in *.
    apply Hcs in Hc as [Hc Hne].
    specialize (Hfk c Hc). apply list_elem_of_fmap in Hfk as (q & Hcq & Hq0).
    apply list_elem_of_fmap. exists q. split; [exact Hcq|].
    apply Hqs. split; [exact Hq0 | congruence].
  - intros a c Ha Hc. cbn [answers choices set_answers set_choices set_questions] in *.
    destruct (Hsel a c Ha Hc) as [Hstored Hcq]. split; [|exact Hcq].
    apply Hcs. split; [exact Hstored|].
    rewrite Hcq. exact (Hno a Ha).
Qed.

Lemma question_delete_keeps_integrity_witness :
  ∃ db',
    views_quiz_builder.question_delete true POST 3 ExampleBuilder.db
    = (Redirect "question_list", [MsgSuccess "Pregunta borrada."], db')
    ∧ answers db' = answers ExampleBuilder.db
    ∧ choices_have_questions db'.
Proof.
  assert (Hone : ∀ a, a ∈ answers ExampleBuilder.db →
                      a = {| answer_attempt := 1;
                             answer_question := Example.q1;
                             selected_choice := Some (Example.right 1 1) |}).
  { intros a Ha. apply list_elem_of_singleton in Ha. exact Ha. }
  destruct (question_delete_keeps_integrity POST 3 ExampleBuilder.db
              Example.q3)
    as (db' & Hrun & _ & _ & Hans & _ & _ & _ & Hfk & _).
  - reflexivity.
  - reflexivity.
  - intros a Ha. rewrite (Hone a Ha). discriminate.
  - refine (bool_decide_unpack _ _). vm_compute. exact I.
  - refine (proj1 (Forall_forall
                     (λ c, choice_question c
                           ∈ map question_id (questions ExampleBuilder.db))
                     (choices ExampleBuilder.db)) _).
    repeat constructor; vm_compute; set_solver.
  - intros a c Ha Hc. rewrite (Hone a Ha) in Hc. injection Hc as <-.
    rewrite (Hone a Ha). split; [left | reflexivity].
  - exists db'. split; [exact Hrun|]. split; [exact Hans | exact Hfk].
Defined.

Section Edit.
Variable strip : string → string.

Lemma replace_choices_rows (question : Question) (correct_idx : Z)
    (choices_txt : list string) :
  ∀ (idx : Z) (db : DB),
    ∃ new keys,
      views_quiz_builder.replace_choices question correct_idx idx
                                         choices_txt db
      = set_sequences keys (set_choices (choices db ++ new) db)
      ∧ Forall (λ c, choice_question c = question_id question) new
      ∧ map is_correct new
        = choice_flags (λ txt, txt) correct_idx idx choices_txt.
Proof.
  induction choices_txt as [|txt rest IH]; intros idx db.
  - exists [], (sequences db). rewrite app_nil_r. destruct db; auto.
  - cbn [views_quiz_builder.replace_choices choice_flags].
    destruct (bool_decide (txt = "")).
    + apply IH.
    + destruct (IH (idx + 1)
                  (views_quiz_builder.create_choice
                     question (bool_decide (idx = correct_idx)) db))
        as (new & keys & -> & Hq & Hc).
      eexists (_ :: new), keys. split; [|split].
      * unfold views_quiz_builder.create_choice. cbn.
        rewrite <- app_assoc. reflexivity.
      * constructor; [reflexivity|exact Hq].
      * cbn. rewrite Hc. reflexivity.
Qed.

Lemma choice_flags_length (correct_idx : Z) (choices_txt : list string) :
  ∀ idx, (length (choice_flags strip correct_idx idx choices_txt)
          ≤ length choices_txt)%nat.
Proof.
  induction choices_txt as [|txt rest IH]; intros idx; [reflexivity|].
  cbn [choice_flags]. rewrite length_app. specialize (IH (idx + 1)).
  destruct (bool_decide _); cbn [length app] in *; lia.
Qed.

Lemma choice_flags_none (correct_idx : Z) (choices_txt : list string) :
  ∀ idx,
    (∀ (i : nat) txt, choices_txt !! i = Some txt →
                      idx + Z.of_nat i = correct_idx → strip txt = "") →
    List.filter id (choice_flags strip correct_idx idx choices_txt) = [].
Proof.
  induction choices_txt as [|txt rest IH]; intros idx Hblank; [reflexivity|].
  cbn [choice_flags]. rewrite List.filter_app.
  rewrite (IH (idx + 1)).
  2:{ intros i t Ht Hi. apply (Hblank (S i) t Ht). lia. }
  rewrite app_nil_r. case_bool_decide as Hb; [reflexivity|].
  cbn [List.filter]. unfold id at 1. case_bool_decide as Hi; [|reflexivity].
  exfalso. apply Hb, (Hblank 0%nat txt eq_refl). lia.
Qed.

Lemma choice_flags_at_most_one (correct_idx : Z) (choices_txt : list string) :
  ∀ idx,
    (length (List.filter id (choice_flags strip correct_idx idx choices_txt))
     ≤ 1)%nat.
Proof.
  induction choices_txt as [|txt rest IH]; intros idx; [cbn; lia|].
  cbn [choice_flags]. rewrite List.filter_app, length_app.
  destruct (bool_decide (strip txt = "")); [apply IH|].
  cbn [List.filter]. unfold id at 1. case_bool_decide as Hi.
  - rewrite (choice_flags_none correct_idx rest (idx + 1));
      [cbn; lia|].
    intros i t _ Hidx. lia.
  - specialize (IH (idx + 1)). cbn [length]. lia.
Qed.

End Edit.

Lemma has_answers_true (question : Question) (db : DB) a :
  a ∈ answers db →
  question_id (answer_question a) = question_id question →
  existsb (λ a, bool_decide (question_id (answer_question a)
                              = question_id question))
          (answers db) = true.
Proof.
  intros Ha Hq. apply existsb_exists. exists a.
  split; [by apply list_elem_of_In | by apply bool_decide_eq_true].
Qed.

Lemma stored_question_saved (question_pk : pk) (question question' : Question)
    (qs : list Question) :
  List.find (λ q, bool_decide (question_id q = question_pk)) qs
  = Some question →
  question_id question' = question_id question →
  List.find (λ q, bool_decide (question_id q = question_pk))
            (map (λ q, if bool_decide (question_id q = question_id question')
                       then question' else q) qs)
  = Some question'
  ∧ map question_id
        (map (λ q, if bool_decide (question_id q = question_id question')
                   then question' else q) qs)
    = map question_id qs.
Proof.
  intros Hfind Hid.
  assert (Hpk : question_id question = question_pk).
  { apply find_some in Hfind as [_ H]. by apply bool_decide_eq_true in H. }
  induction qs as [|q qs IH]; [discriminate|].
  cbn [List.find map] in *.
  destruct (bool_decide (question_id q = question_pk)) eqn:Hq.
  - apply bool_decide_eq_true in Hq. injection Hfind as ->.
    rewrite (bool_decide_eq_true_2 _ (eq_sym Hid)).
    rewrite (bool_decide_eq_true_2 (question_id question' = question_pk))
      by congruence.
    split; [reflexivity|]. f_equal; [congruence|].
    clear IH. induction qs as [|r qs IH]; [reflexivity|].
    cbn [map]. f_equal; [|exact IH].
    case_bool_decide; congruence.
  - apply bool_decide_eq_false in Hq.
    rewrite (bool_decide_eq_false_2 (question_id q = question_id question'))
      by congruence.
    rewrite (bool_decide_eq_false_2 (question_id q = question_pk)) by exact Hq.
    destruct (IH Hfind) as [IH1 IH2]. split; [exact IH1|].
    f_equal. exact IH2.
Qed.

Lemma filter_replaced_choices (db : DB) (question : pk) (new : list Choice) :
  Forall (λ c, choice_question c = question) new →
  filter (λ c, choice_question c = question)
         (filter (λ c, choice_question c ≠ question) (choices db) ++ new)
  = new.
Proof.
  intros Hnew. rewrite filter_app.
  replace (filter _ (filter _ (choices db))) with (@nil Choice).
  - simpl. apply filter_all. intros c Hc.
    rewrite Forall_forall in Hnew. apply Hnew, Hc.
  - symmetry. apply elem_of_nil_inv. intros c Hc.
    apply list_elem_of_filter in Hc as [Hid Hc].
    apply list_elem_of_filter in Hc as [Hne _]. exact (Hne Hid).
Qed.

(** X28. A staff user's POST to [question_edit] for a stored question:
    negative points and points beyond the 64 bits of the column raise, and
    nothing is written; otherwise the question keeps its key, quiz and type
    and takes the posted points (its own when the field holds no integer; 0
    is accepted).  If answers refer to the question, the choices
    are untouched and those answers see the new points.  If none does and
    the question is multiple choice, its choices are replaced by at most
    four new ones of which at most one is correct, and none is correct when
    the text under the posted correct index (1 by default) is blank or the
    index is outside 1..4; the choices of other questions stay. *)
Theorem question_edit_effect strip form question_pk db question :
  stored_question question_pk db = Some question →
  let points' := default (Z.of_N (points question)) (views_quiz_builder.edit_points form) in
  let question' :=
    {| question_id := question_id question;
       question_quiz := question_quiz question;
       question_type := question_type question;
       points := Z.to_N points' |} in
  let texts :=
    [strip (views_quiz_builder.edit_choice1 form); strip (views_quiz_builder.edit_choice2 form);
     strip (views_quiz_builder.edit_choice3 form); strip (views_quiz_builder.edit_choice4 form)] in
  let correct_idx := default 1 (views_quiz_builder.edit_correct_choice form) - 1 in
  (points' < 0 ∨ sqlite_max_int < points' →
   views_quiz_builder.question_edit strip true POST form question_pk db
   = None)
  ∧ (0 <= points' <= sqlite_max_int →
     ∃ db',
       views_quiz_builder.question_edit strip true POST form question_pk db
       = Some (Redirect "question_list", [MsgSuccess "Question updated."],
               db')
       ∧ stored_question question_pk db' = Some question'
       ∧ map question_id (questions db') = map question_id (questions db)
       ∧ ((∃ a, a ∈ answers db
                ∧ question_id (answer_question a) = question_pk) →
          choices db' = choices db
          ∧ ∀ a, a ∈ answers db' →
                 question_id (answer_question a) = question_pk →
                 answer_question a = question')
       ∧ ((∀ a, a ∈ answers db →
                question_id (answer_question a) ≠ question_pk) →
          question_type question = Kind.MULTIPLE →
          let cs :=
            filter (λ c, choice_question c = question_pk) (choices db') in
          (length cs ≤ 4)%nat
          ∧ (length (List.filter is_correct cs) ≤ 1)%nat
          ∧ ((∀ (i : nat) txt, texts !! i = Some txt →
                               Z.of_nat i = correct_idx → txt = "") →
             List.filter is_correct cs = [])
          ∧ (∀ c, c ∈ choices db → choice_question c ≠ question_pk →
                  c ∈ choices db'))).
Proof.
  intros Hq points' question' texts correct_idx.
  pose proof (stored_question_id question_pk db question Hq) as [Hin Hid].
  unfold stored_question in Hq.
  unfold views_quiz_builder.question_edit. rewrite Hq. cbn [negb].
  rewrite (bool_decide_eq_true_2 (POST = POST)) by reflexivity.
  change (match views_quiz_builder.edit_points form with
          | Some n => n
          | None => Z.of_N (points question)
          end) with points'.
  cbv zeta. fold question'. fold texts. fold correct_idx.
  split.
  - intros [Hneg | Hbig].
    + apply Z.ltb_lt in Hneg. rewrite Hneg. reflexivity.
    + apply Z.ltb_lt in Hbig. rewrite Hbig, orb_true_r. reflexivity.
  - intros [Hpos Hsmall].
    apply Z.ltb_ge in Hpos, Hsmall. rewrite Hpos, Hsmall. cbn [orb].
    change (question_id question') with (question_id question).
    change (question_type question') with (question_type question).
    set (db1 := views_quiz_builder.save_question question' db).
    destruct (stored_question_saved question_pk question question'
                (questions db) Hq eq_refl) as [Hsaved Hids].
    eexists. split; [reflexivity|].
    assert (Hkeep : ∀ db2, questions db2 = questions db1 →
              stored_question question_pk db2 = Some question'
              ∧ map question_id (questions db2)
                = map question_id (questions db)).
    { intros db2 Hdb2. unfold stored_question. rewrite Hdb2.
      split; [exact Hsaved | exact Hids]. }
    destruct (existsb _ _) eqn:Hans; cbn [negb].
    + destruct (Hkeep db1 eq_refl) as [H1 H2].
      split; [exact H1|]. split; [exact H2|]. split.
      * intros _. split; [reflexivity|].
        intros a Ha Hqa. cbn [answers db1 views_quiz_builder.save_question
                                set_answers] in Ha.
        apply list_elem_of_fmap in Ha as (a0 & -> & Ha0).
        revert Hqa. case_bool_decide as Hsame; [reflexivity|].
        intros Hqa. exfalso. apply Hsame. cbn. congruence.
      * intros Hno. exfalso.
        rewrite has_answers_false in Hans; [discriminate|].
        rewrite Hid. exact Hno.
    + assert (Hnone : ∀ a, a ∈ answers db →
                ¬ question_id (answer_question a) = question_pk).
      { intros a Ha Hqa. rewrite (has_answers_true question db a Ha) in Hans;
          [discriminate | congruence]. }
      destruct (question_type question) eqn:Hk.
      * destruct (replace_choices_rows question' correct_idx texts 0
                    (views_quiz_builder.delete_choices question' db1))
          as (new & keys & -> & Hnew & Hflags).
        destruct (Hkeep (set_sequences keys
                           (set_choices
                              (choices (views_quiz_builder.delete_choices
                                          question' db1) ++ new)
                              (views_quiz_builder.delete_choices question'
                                                                 db1)))
                        eq_refl) as [H1 H2].
        split; [exact H1|]. split; [exact H2|]. split.
        { intros (a & Ha & Hqa). exfalso. exact (Hnone a Ha Hqa). }
        intros _ _.
        cbn [choices set_choices set_sequences
             views_quiz_builder.delete_choices
             set_answers db1 views_quiz_builder.save_question set_questions].
        change (question_id question') with (question_id question) in *.
        rewrite Hid in *.
        rewrite (filter_replaced_choices db question_pk new Hnew).
        rewrite count_correct, Hflags.
        split.
        { rewrite <- (length_map is_correct new), Hflags.
          apply (choice_flags_length (λ txt, txt) correct_idx texts 0). }
        split; [apply choice_flags_at_most_one|].
        split.
        { intros Hblank.
          assert (List.filter id (map is_correct new) = []) as Hz.
          { rewrite Hflags. apply choice_flags_none.
            intros i txt Ht Hi. apply (Hblank i txt Ht). lia. }
          clear -Hz.
          induction new as [|c new IH]; [reflexivity|].
          cbn [map List.filter] in *. unfold id in Hz at 1.
          destruct (is_correct c); [discriminate | exact (IH Hz)]. }
        intros c Hc Hne. apply elem_of_app. left.
        apply list_elem_of_filter. split; assumption.
      * split; [apply Hkeep; reflexivity|].
        split; [apply Hkeep; reflexivity|]. split.
        { intros (a & Ha & Hqa). exfalso. exact (Hnone a Ha Hqa). }
        discriminate.
      * split; [apply Hkeep; reflexivity|].
        split; [apply Hkeep; reflexivity|]. split.
        { intros (a & Ha & Hqa). exfalso. exact (Hnone a Ha Hqa). }
        discriminate.
Qed.

Lemma question_edit_effect_witness :
  ∃ db',
    views_quiz_builder.question_edit ExampleBuilder.strip true POST
      ExampleBuilder.edit 3 ExampleBuilder.db
    = Some (Redirect "question_list", [MsgSuccess "Question updated."], db')
    ∧ map question_id (questions db') = [1; 2; 3]%positive
    ∧ List.filter is_correct
        (filter (λ c, choice_question c = 3%positive) (choices db')) = [].
Proof.
  destruct (proj2 (question_edit_effect ExampleBuilder.strip
                     ExampleBuilder.edit 3 ExampleBuilder.db Example.q3
                     eq_refl))
    as (db' & Hrun & _ & Hids & _ & Hnew).
  - vm_compute. split; discriminate.
  - exists db'. split; [exact Hrun|]. split; [exact Hids|].
    destruct Hnew as (_ & _ & Hblank & _).
    + intros a Ha. apply list_elem_of_singleton in Ha. rewrite Ha. discriminate.
    + reflexivity.
    + apply Hblank. intros i txt Ht Hi.
      assert (i = 1%nat) as -> by (change (Z.of_nat i = 1) in Hi; lia).
      vm_compute in Ht. injection Ht as <-. reflexivity.
Defined.

(** ** The quiz list after an attempt *)

Lemma insert_by_id_last {A} (key : A → pk) (x n : A) (l : list A) :
  (key x <= key n)%positive →
  insert_by_id key x (l ++ [n]) = insert_by_id key x l ++ [n].
Proof.
  intros Hle. induction l as [|y l IH]; cbn [insert_by_id app].
  - rewrite (proj2 (Pos.leb_le _ _) Hle). reflexivity.
  - destruct (key x <=? key y)%positive; [reflexivity|].
    rewrite IH. reflexivity.
Qed.

Lemma order_by_id_last {A} (key : A → pk) (n : A) (l : list A) :
  (∀ y, y ∈ l → (key y <= key n)%positive) →
  order_by_id key (l ++ [n]) = order_by_id key l ++ [n].
Proof.
  unfold order_by_id. induction l as [|y l IH]; intros Hle; [reflexivity|].
  cbn [app fold_right]. rewrite IH by (intros z Hz; apply Hle; by right).
  apply insert_by_id_last, Hle. by left.
Qed.

Lemma insert_by_id_elem {A} (key : A → pk) (x y : A) (l : list A) :
  y ∈ insert_by_id key x l ↔ y = x ∨ y ∈ l.
Proof.
  induction l as [|z l IH]; cbn [insert_by_id].
  - rewrite list_elem_of_singleton.
    split; [by left | intros [H|H]; [exact H | inversion H]].
  - destruct (key x <=? key z)%positive.
    + rewrite elem_of_cons. reflexivity.
    + rewrite !elem_of_cons, IH. tauto.
Qed.

Lemma order_by_id_elem {A} (key : A → pk) (y : A) (l : list A) :
  y ∈ order_by_id key l ↔ y ∈ l.
Proof.
  unfold order_by_id. induction l as [|z l IH]; cbn [fold_right]; [reflexivity|].
  rewrite insert_by_id_elem, elem_of_cons, IH. reflexivity.
Qed.

Lemma quiz_take_post_attempt request quiz_pk t1 t2 db quiz :
  method request = POST →
  active_quiz quiz_pk db = Some quiz →
  ∃ result db',
    quiz_take request quiz_pk t1 t2 db = Some (Redirect "quiz_result", db')
    ∧ attempts db' = attempts db ++ [result]
    ∧ attempt_id result
      = next_pk (seq_attempts (sequences db)) (map attempt_id (attempts db))
    ∧ attempt_quiz result = quiz
    ∧ attempt_user result = user_id (request_user request)
    ∧ is_Some (score result)
    ∧ quizzes db' = quizzes db
    ∧ courses db' = courses db.
Proof.
  intros Hm Hq.
  rewrite (quiz_take_post_eq _ _ _ _ _ _ Hm Hq).
  set (attempt := new_attempt quiz (user_id (request_user request)) db).
  set (db2 := set_answers _ _).
  destruct (grade_attempt attempt t1 t2 db2) as [[result db3]|] eqn:Hg.
  2:{ rewrite grade_attempt_eq in Hg by apply quiz_take_attempt_stored.
      discriminate Hg. }
  pose proof (grade_attempt_result _ _ _ _ _ _ Hg) as Hres.
  destruct (grade_attempt_attempts _ _ _ _ _ _ Hg) as (Hatt & Hid & Hquiz & Huser).
  pose proof (grade_attempt_writes _ _ _ _ _ _ Hg) as Hw.
  exists result, db3. split; [reflexivity|].
  split.
  { rewrite Hatt. change (attempts db2) with (attempts db ++ [attempt]).
    apply (save_fresh_attempt (seq_attempts (sequences db)));
      [exact Hid | reflexivity]. }
  split; [exact Hid|]. split; [exact Hquiz|]. split; [exact Huser|].
  split; [rewrite Hres; eexists; reflexivity|].
  rewrite Hw. split; reflexivity.
Qed.

(** X29. After a POST to [quiz_take] for an active quiz of a stored
    course, the quiz list of that course has a row for the quiz, and that
    row shows the attempt just taken: one more used attempt, one attempt
    less left (never below 0), the new attempt at the head of the recent
    attempts, and its score (which is set) and pass flag as the last
    ones. *)
Theorem quiz_list_after_take request manage quiz_pk t1 t2 db quiz :
  method request = POST →
  active_quiz quiz_pk db = Some quiz →
  quiz_course quiz ∈ courses db →
  let user := user_id (request_user request) in
  ∃ result db' rows,
    quiz_take request quiz_pk t1 t2 db = Some (Redirect "quiz_result", db')
    ∧ attempts db' = attempts db ++ [result]
    ∧ quiz_list_for_course request manage (quiz_course quiz) db'
      = Some (quiz_course quiz, rows, bool_decide (manage = Some "1"%string))
    ∧ (∃ row, row ∈ rows ∧ row_quiz row = quiz)
    ∧ ∀ row, row ∈ rows → row_quiz row = quiz →
        used_attempts row = (attempts_used quiz user db + 1)%N
        ∧ allowed_attempts row = or_1 (attempts_allowed quiz)
        ∧ attempts_left row
          = Z.max 0 (Z.of_N (or_1 (attempts_allowed quiz))
                     - Z.of_N (attempts_used quiz user db) - 1)
        ∧ head (recent_attempts row) = Some result
        ∧ last_score row = score result
        ∧ is_Some (last_score row)
        ∧ last_passed row = Some (passed result).
Proof.
  intros Hm Hq Hc user.
  destruct (quiz_take_post_attempt request quiz_pk t1 t2 db quiz Hm Hq)
    as (result & db' & Hrun & Hatt & Hid & Hquiz & Huser & Hscore & Hqs & Hcs).
  exists result, db'. eexists. split; [exact Hrun|]. split; [exact Hatt|].
  unfold quiz_list_for_course. rewrite Hcs, (find_pk _ _ Hc).
  cbn [mbind option_bind]. split; [reflexivity|].
  assert (Hin : quiz ∈ quizzes db ∧ quiz_active quiz = true).
  { unfold active_quiz in Hq. apply find_some in Hq as [Hin Hq].
    apply andb_prop in Hq as [_ Hact]. split; [by apply list_elem_of_In|done]. }
  split.
  { exists (quiz_row user db' quiz). split; [|reflexivity].
    apply list_elem_of_fmap. exists quiz. split; [reflexivity|].
    apply order_by_id_elem, list_elem_of_filter. rewrite Hqs.
    split; [split; [reflexivity | apply Hin] | apply Hin]. }
  intros row Hrow Hrq.
  apply list_elem_of_fmap in Hrow as (q & -> & _).
  cbn [row_quiz quiz_row] in Hrq. subst q. fold user.
  assert (Hf : filter (λ a, quiz_id (attempt_quiz a) = quiz_id quiz
                            ∧ attempt_user a = user) (attempts db')
               = filter (λ a, quiz_id (attempt_quiz a) = quiz_id quiz
                              ∧ attempt_user a = user) (attempts db)
                 ++ [result]).
  { rewrite Hatt, filter_app. f_equal.
    rewrite filter_cons_True by (rewrite Hquiz, Huser; done). reflexivity. }
  assert (Hused : attempts_used quiz user db'
                  = (attempts_used quiz user db + 1)%N).
  { unfold attempts_used. rewrite Hf, length_app. cbn [length]. lia. }
  assert (Hrecent : ∃ rest,
            take 5 (rev (order_by_id attempt_id
                           (filter (λ a, quiz_id (attempt_quiz a) = quiz_id quiz
                                         ∧ attempt_user a = user)
                                   (attempts db'))))
            = result :: rest).
  { rewrite Hf, order_by_id_last.
    - rewrite rev_app_distr. cbn [rev app take]. eexists. reflexivity.
    - intros a Ha. apply list_elem_of_filter in Ha as [_ Ha].
      rewrite Hid. apply Pos.lt_le_incl, next_pk_above.
      apply list_elem_of_fmap. by exists a. }
  destruct Hrecent as [rest Hrecent].
  unfold quiz_row.
  cbn [used_attempts allowed_attempts attempts_left recent_attempts
       last_score last_passed].
  rewrite Hrecent, Hused. cbn [head].
  split; [reflexivity|]. split; [reflexivity|]. split; [lia|].
  split; [reflexivity|]. split; [reflexivity|]. split; [exact Hscore|].
  reflexivity.
Qed.

Lemma quiz_list_after_take_witness :
  ∃ result db' rows,
    quiz_take ExampleTake.post 1 8 9 ExampleTake.db
    = Some (Redirect "quiz_result", db')
    ∧ attempts db' = [result]
    ∧ quiz_list_for_course ExampleTake.post None 1 db'
      = Some (1%positive, rows, false)
    ∧ ∃ row, row ∈ rows ∧ row_quiz row = Example.quiz_at 50.
Proof.
  destruct (quiz_list_after_take ExampleTake.post None 1 8 9 ExampleTake.db
              (Example.quiz_at 50))
    as (result & db' & rows & Hrun & Hatt & Hlist & Hrow & _).
  - reflexivity.
  - vm_compute. reflexivity.
  - vm_compute. left.
  - exists result, db', rows. split; [exact Hrun|]. split; [exact Hatt|].
    split; [exact Hlist | exact Hrow].
Defined.

(** ** The admin action *)

Lemma graded_tables attempt t db db' :
  questions db' = questions db →
  answers db' = answers db →
  graded attempt t db' = graded attempt t db.
Proof.
  intros Hq Ha.
  unfold graded, graded_score, attempt_answers, quiz_questions.
  rewrite Hq, Ha. reflexivity.
Qed.

Lemma grade_attempt_ids attempt t1 t2 db result db' :
  grade_attempt attempt t1 t2 db = Some (result, db') →
  map attempt_id (attempts db') = map attempt_id (attempts db).
Proof.
  intros Hg.
  destruct (grade_attempt_attempts _ _ _ _ _ _ Hg) as (-> & _ & _ & _).
  rewrite map_map. apply map_ext. intros r.
  destruct (decide _) as [He|]; [|reflexivity]. symmetry. exact He.
Qed.

Lemma admin_grade_loop_rows queryset clock :
  ∀ i n db,
    (∀ a, a ∈ queryset → attempt_stored a db) →
    ∃ db',
      admin_grade_loop queryset clock i n db
      = Some ((n + length queryset)%nat, db')
      ∧ questions db' = questions db
      ∧ answers db' = answers db
      ∧ Forall2
          (λ r r',
             (r' = r ∧ ∀ a, a ∈ queryset → attempt_id a ≠ attempt_id r)
             ∨ ∃ a t, a ∈ queryset ∧ attempt_id a = attempt_id r
                      ∧ r' = graded a t db)
          (attempts db) (attempts db').
Proof.
  induction queryset as [|a rest IH]; intros i n db Hst.
  - exists db. cbn [admin_grade_loop length]. rewrite Nat.add_0_r.
    split; [reflexivity|]. split; [reflexivity|]. split; [reflexivity|].
    apply Forall2_same_length_lookup_2; [reflexivity|].
    intros k r r' Hr Hr'. left. split; [congruence|].
    intros a Ha. inversion Ha.
  - cbn [admin_grade_loop].
    destruct (grade_attempt a (clock i).1 (clock i).2 db)
      as [[result db1]|] eqn:Hg.
    2:{ rewrite grade_attempt_eq in Hg by (apply Hst; left).
        discriminate Hg. }
    pose proof (grade_attempt_result _ _ _ _ _ _ Hg) as Hres.
    destruct (grade_attempt_attempts _ _ _ _ _ _ Hg) as (Hatt & Hid & _ & _).
    destruct (grade_attempt_tables _ _ _ _ _ _ Hg) as [Hq1 Ha1].
    cbn [mbind option_bind].
    destruct (IH (S i) (n + 1)%nat db1) as (db' & Hrun & Hq & Ha & Hrows).
    { intros b Hb. unfold attempt_stored.
      rewrite (grade_attempt_ids _ _ _ _ _ _ Hg). apply Hst. by right. }
    exists db'. rewrite Hrun. cbn [length].
    split; [f_equal; f_equal; lia|].
    split; [congruence|]. split; [congruence|].
    rewrite Hatt in Hrows. apply Forall2_fmap_l in Hrows.
    eapply Forall2_impl; [exact Hrows|].
    intros r r' HR. cbn beta in HR.
    destruct HR as [[-> Hnot] | (b & t & Hb & Hidb & ->)].
    + destruct (decide (attempt_id r = attempt_id result)) as [Hsame|Hne].
      * right. exists a, (clock i).1. split; [by left|].
        split; [congruence | exact Hres].
      * left. split; [reflexivity|]. intros c Hc.
        apply elem_of_cons in Hc as [-> | Hc]; [congruence|].
        exact (Hnot c Hc).
    + right. exists b, t. split; [by right|]. split.
      * rewrite Hidb. destruct (decide _) as [Hsame|]; [|reflexivity].
        congruence.
      * apply graded_tables; assumption.
Qed.

(** X30. The admin action on a selection of stored attempts (with unique
    attempt keys) always returns and reports the size of the selection.
    It leaves questions and answers alone and keeps the number of attempt
    rows; every selected attempt is stored afterwards with the score and
    pass flag that grading it on the database before the action gives,
    whatever the order of the selection; the attempts outside the selection
    are kept, and every row afterwards is an old row or a graded selected
    one. *)
Theorem admin_grade_attempts_effect queryset clock db :
  NoDup (map attempt_id (attempts db)) →
  (∀ a, a ∈ queryset → a ∈ attempts db) →
  ∃ db',
    admin_grade_attempts queryset clock db = Some (length queryset, db')
    ∧ questions db' = questions db
    ∧ answers db' = answers db
    ∧ length (attempts db') = length (attempts db)
    ∧ (∀ a, a ∈ queryset → ∃ t, graded a t db ∈ attempts db')
    ∧ (∀ r, r ∈ attempts db →
            (∀ a, a ∈ queryset → attempt_id a ≠ attempt_id r) →
            r ∈ attempts db')
    ∧ (∀ r', r' ∈ attempts db' →
             r' ∈ attempts db ∨ ∃ a t, a ∈ queryset ∧ r' = graded a t db).
Proof.
  intros Hnd Hsub.
  destruct (admin_grade_loop_rows queryset clock 0 0 db)
    as (db' & Hrun & Hq & Ha & Hrows).
  { intros a Ha. apply list_elem_of_fmap. exists a.
    split; [reflexivity | exact (Hsub a Ha)]. }
  exists db'. split; [exact Hrun|]. split; [exact Hq|]. split; [exact Ha|].
  split; [symmetry; exact (Forall2_length _ _ _ Hrows)|].
  split; [|split].
  - intros a Hin. pose proof (Hsub a Hin) as Hst.
    apply list_elem_of_lookup in Hst as [k Hk].
    destruct (Forall2_lookup_l _ _ _ _ _ Hrows Hk) as (r' & Hk' & HR).
    destruct HR as [[_ Hnot] | (b & t & Hb & Hidb & ->)].
    + exfalso. exact (Hnot a Hin eq_refl).
    + exists t.
      assert (b = a) as <-.
      { exact (NoDup_fmap_eq attempt_id (attempts db) b a Hnd
                 (Hsub b Hb) (Hsub a Hin) Hidb). }
      apply list_elem_of_lookup. by exists k.
  - intros r Hr Hnot.
    apply list_elem_of_lookup in Hr as [k Hk].
    destruct (Forall2_lookup_l _ _ _ _ _ Hrows Hk) as (r' & Hk' & HR).
    destruct HR as [[-> _] | (b & t & Hb & Hidb & ->)].
    + apply list_elem_of_lookup. by exists k.
    + exfalso. exact (Hnot b Hb Hidb).
  - intros r' Hr'.
    apply list_elem_of_lookup in Hr' as [k Hk'].
    destruct (Forall2_lookup_r _ _ _ _ _ Hrows Hk') as (r & Hk & HR).
    destruct HR as [[-> _] | (b & t & Hb & _ & ->)].
    + left. apply list_elem_of_lookup. by exists k.
    + right. by exists b, t.
Qed.

Lemma admin_grade_attempts_effect_witness :
  ∃ db',
    admin_grade_attempts [Example.attempt_at 50] (λ i, (5, 6))
                         (Example.db_at 50 ∅)
    = Some (1%nat, db')
    ∧ ∃ t, graded (Example.attempt_at 50) t (Example.db_at 50 ∅)
           ∈ attempts db'.
Proof.
  destruct (admin_grade_attempts_effect [Example.attempt_at 50]
              (λ i, (5, 6)) (Example.db_at 50 ∅))
    as (db' & Hrun & _ & _ & _ & Hgraded & _).
  - refine (bool_decide_unpack _ _). vm_compute. exact I.
  - intros a Ha. apply list_elem_of_singleton in Ha. rewrite Ha. left.
  - exists db'. split; [exact Hrun|]. apply Hgraded. left.
Defined.
